(** * Checkout total computation of the storefront backend

    A shallow embedding of [create_order] (src/main.py, the handler of
    POST /checkout/create-order) together with the documents it reads and
    writes (src/schemas.py), and the properties of the order total, of the
    coupon rule and of the failure behaviour that the specification states.

    Python floats are IEEE 754 binary64 numbers and are modelled by Rocq's
    primitive floats, which are binary64 with the same round-to-nearest-even
    arithmetic; Python ints are [Z].  The MongoDB collections are lists of
    documents in insertion order; an uncaught exception leaves the store as
    the writes made before it left it.

    Beside the checkout, the development covers the handlers around it:
    reading an order back and marking it paid, the coupon and product admin
    end points with their lookups, the cart and the wishlist, and
    registration and login with the SHA-256 password hash. *)

From Stdlib Require Import ZArith NArith List String Ascii Bool Floats Lia.
Import ListNotations.

Set Warnings "-inexact-float".

Local Open Scope string_scope.
Local Open Scope list_scope.

(** ** The Python built-ins the handler relies on *)

Module Py.

(** The exceptions that can leave [create_order]. *)
Inductive exn : Type :=
| HTTPException (status_code : Z) (detail : string)
| OverflowError.

(** A numeric value stored in a document: BSON keeps ints and doubles
    apart (the seed data stores prices as ints, the admin end point as
    floats). *)
Inductive num : Type :=
| Int (z : Z)
| Float (f : float).

(** The binary64 number nearest to an integer (ties to even); infinite
    when the integer is out of range. *)
Definition nearest_float (z : Z) : float :=
  SF2Prim (binary_normalize prec emax z 0 false).

(** [float(n)] and the implicit conversion of an int operand of a float
    operation: OverflowError when the int is too large. *)
Definition int_to_float (z : Z) : exn + float :=
  let f := nearest_float z in
  if PrimFloat.is_infinity f then inl OverflowError else inr f.

(** [float(v)] for a stored number. *)
Definition float_ (v : num) : exn + float :=
  match v with
  | Int z => int_to_float z
  | Float f => inr f
  end.

(** Truth value of a number: zero (of either sign) is false, NaN true. *)
Definition truthy (v : num) : bool :=
  match v with
  | Int z => negb (z =? 0)%Z
  | Float f => negb (PrimFloat.eqb f 0%float)
  end.

(** [a or b] where [a] may be None (or missing, through [dict.get]). *)
Definition or_ (a : option num) (b : num) : num :=
  match a with
  | Some v => if truthy v then v else b
  | None => b
  end.

(** [s or d] for an optional string: None and the empty string are false. *)
Definition truthy_str (s : option string) : bool :=
  match s with
  | Some EmptyString => false
  | Some _ => true
  | None => false
  end.

(** [max(a, b)]: the second argument only when it compares greater. *)
Definition max (a b : float) : float :=
  if PrimFloat.ltb a b then b else a.

(** Nearest integer to [num / den], ties to the even one ([0 < den]). *)
Definition round_half_even (num den : Z) : Z :=
  let q := (num / den)%Z in
  let r := (num mod den)%Z in
  match (2 * r ?= den)%Z with
  | Lt => q
  | Gt => (q + 1)%Z
  | Eq => if Z.even q then q else (q + 1)%Z
  end.

(** The binary64 number nearest to [n / 100] for [0 <= n], with sign [s]:
    a 64-bit scaled quotient with a sticky bit, rounded once. *)
Definition hundredths (s : bool) (n : Z) : spec_float :=
  match n with
  | Zpos _ =>
      let q := (Z.shiftl n 64 / 100)%Z in
      let r := (Z.shiftl n 64 mod 100)%Z in
      let m := (2 * q + (if (r =? 0)%Z then 0 else 1))%Z in
      binary_normalize prec emax (if s then - m else m)%Z (-65)%Z s
  | _ => S754_zero s
  end.

(** [round(x, 2)]: the exact value of [x] is rounded to two decimals, ties
    to even, and the decimal result is converted back to the nearest
    float; NaN, infinities and zeros round to themselves, and so does a
    float with a non-negative exponent, which is an integer. *)
Definition round2 (x : float) : float :=
  match Prim2SF x with
  | S754_finite s m e =>
      if (0 <=? e)%Z then x
      else SF2Prim (hundredths s (round_half_even (Zpos m * 100) (2 ^ (- e))))
  | _ => x
  end.

(** [str.upper].  Strings are kept as their UTF-8 bytes.  Upper-casing
    works character by character and no character's mapping depends on its
    neighbours: a character maps to itself or to the one, two or three
    characters the table gives (Unicode 14 full case mapping), and ASCII
    letters are upper-cased by arithmetic. *)
Definition upper_char (c : ascii) : ascii :=
  let n := N_of_ascii c in
  if ((97 <=? n) && (n <=? 122))%N then ascii_of_N (n - 32) else c.

(** The characters outside ASCII that [str.upper] changes, by code point,
    with the code points they become. *)
Local Open Scope N_scope.

Definition upper_code_points : list (N * list N) :=
  [
   (181, [924]); (223, [83; 83]); (224, [192]); (225, [193]); (226, [194]);
   (227, [195]); (228, [196]); (229, [197]); (230, [198]); (231, [199]);
   (232, [200]); (233, [201]); (234, [202]); (235, [203]); (236, [204]);
   (237, [205]); (238, [206]); (239, [207]); (240, [208]); (241, [209]);
   (242, [210]); (243, [211]); (244, [212]); (245, [213]); (246, [214]);
   (248, [216]); (249, [217]); (250, [218]); (251, [219]); (252, [220]);
   (253, [221]); (254, [222]); (255, [376]); (257, [256]); (259, [258]);
   (261, [260]); (263, [262]); (265, [264]); (267, [266]); (269, [268]);
   (271, [270]); (273, [272]); (275, [274]); (277, [276]); (279, [278]);
   (281, [280]); (283, [282]); (285, [284]); (287, [286]); (289, [288]);
   (291, [290]); (293, [292]); (295, [294]); (297, [296]); (299, [298]);
   (301, [300]); (303, [302]); (305, [73]); (307, [306]); (309, [308]);
   (311, [310]); (314, [313]); (316, [315]); (318, [317]); (320, [319]);
   (322, [321]); (324, [323]); (326, [325]); (328, [327]); (329, [700; 78]);
   (331, [330]); (333, [332]); (335, [334]); (337, [336]); (339, [338]);
   (341, [340]); (343, [342]); (345, [344]); (347, [346]); (349, [348]);
   (351, [350]); (353, [352]); (355, [354]); (357, [356]); (359, [358]);
   (361, [360]); (363, [362]); (365, [364]); (367, [366]); (369, [368]);
   (371, [370]); (373, [372]); (375, [374]); (378, [377]); (380, [379]);
   (382, [381]); (383, [83]); (384, [579]); (387, [386]); (389, [388]);
   (392, [391]); (396, [395]); (402, [401]); (405, [502]); (409, [408]);
   (410, [573]); (414, [544]); (417, [416]); (419, [418]); (421, [420]);
   (424, [423]); (429, [428]); (432, [431]); (436, [435]); (438, [437]);
   (441, [440]); (445, [444]); (447, [503]); (453, [452]); (454, [452]);
   (456, [455]); (457, [455]); (459, [458]); (460, [458]); (462, [461]);
   (464, [463]); (466, [465]); (468, [467]); (470, [469]); (472, [471]);
   (474, [473]); (476, [475]); (477, [398]); (479, [478]); (481, [480]);
   (483, [482]); (485, [484]); (487, [486]); (489, [488]); (491, [490]);
   (493, [492]); (495, [494]); (496, [74; 780]); (498, [497]); (499, [497]);
   (501, [500]); (505, [504]); (507, [506]); (509, [508]); (511, [510]);
   (513, [512]); (515, [514]); (517, [516]); (519, [518]); (521, [520]);
   (523, [522]); (525, [524]); (527, [526]); (529, [528]); (531, [530]);
   (533, [532]); (535, [534]); (537, [536]); (539, [538]); (541, [540]);
   (543, [542]); (547, [546]); (549, [548]); (551, [550]); (553, [552]);
   (555, [554]); (557, [556]); (559, [558]); (561, [560]); (563, [562]);
   (572, [571]); (575, [11390]); (576, [11391]); (578, [577]); (583, [582]);
   (585, [584]); (587, [586]); (589, [588]); (591, [590]); (592, [11375]);
   (593, [11373]); (594, [11376]); (595, [385]); (596, [390]); (598, [393]);
   (599, [394]); (601, [399]); (603, [400]); (604, [42923]); (608, [403]);
   (609, [42924]); (611, [404]); (613, [42893]); (614, [42922]); (616, [407]);
   (617, [406]); (618, [42926]); (619, [11362]); (620, [42925]); (623, [412]);
   (625, [11374]); (626, [413]); (629, [415]); (637, [11364]); (640, [422]);
   (642, [42949]); (643, [425]); (647, [42929]); (648, [430]); (649, [580]);
   (650, [433]); (651, [434]); (652, [581]); (658, [439]); (669, [42930]);
   (670, [42928]); (837, [921]); (881, [880]); (883, [882]); (887, [886]);
   (891, [1021]); (892, [1022]); (893, [1023]); (912, [921; 776; 769]);
   (940, [902]); (941, [904]); (942, [905]); (943, [906]);
   (944, [933; 776; 769]); (945, [913]); (946, [914]); (947, [915]);
   (948, [916]); (949, [917]); (950, [918]); (951, [919]); (952, [920]);
   (953, [921]); (954, [922]); (955, [923]); (956, [924]); (957, [925]);
   (958, [926]); (959, [927]); (960, [928]); (961, [929]); (962, [931]);
   (963, [931]); (964, [932]); (965, [933]); (966, [934]); (967, [935]);
   (968, [936]); (969, [937]); (970, [938]); (971, [939]); (972, [908]);
   (973, [910]); (974, [911]); (976, [914]); (977, [920]); (981, [934]);
   (982, [928]); (983, [975]); (985, [984]); (987, [986]); (989, [988]);
   (991, [990]); (993, [992]); (995, [994]); (997, [996]); (999, [998]);
   (1001, [1000]); (1003, [1002]); (1005, [1004]); (1007, [1006]);
   (1008, [922]); (1009, [929]); (1010, [1017]); (1011, [895]); (1013, [917]);
   (1016, [1015]); (1019, [1018]); (1072, [1040]); (1073, [1041]);
   (1074, [1042]); (1075, [1043]); (1076, [1044]); (1077, [1045]);
   (1078, [1046]); (1079, [1047]); (1080, [1048]); (1081, [1049]);
   (1082, [1050]); (1083, [1051]); (1084, [1052]); (1085, [1053]);
   (1086, [1054]); (1087, [1055]); (1088, [1056]); (1089, [1057]);
   (1090, [1058]); (1091, [1059]); (1092, [1060]); (1093, [1061]);
   (1094, [1062]); (1095, [1063]); (1096, [1064]); (1097, [1065]);
   (1098, [1066]); (1099, [1067]); (1100, [1068]); (1101, [1069]);
   (1102, [1070]); (1103, [1071]); (1104, [1024]); (1105, [1025]);
   (1106, [1026]); (1107, [1027]); (1108, [1028]); (1109, [1029]);
   (1110, [1030]); (1111, [1031]); (1112, [1032]); (1113, [1033]);
   (1114, [1034]); (1115, [1035]); (1116, [1036]); (1117, [1037]);
   (1118, [1038]); (1119, [1039]); (1121, [1120]); (1123, [1122]);
   (1125, [1124]); (1127, [1126]); (1129, [1128]); (1131, [1130]);
   (1133, [1132]); (1135, [1134]); (1137, [1136]); (1139, [1138]);
   (1141, [1140]); (1143, [1142]); (1145, [1144]); (1147, [1146]);
   (1149, [1148]); (1151, [1150]); (1153, [1152]); (1163, [1162]);
   (1165, [1164]); (1167, [1166]); (1169, [1168]); (1171, [1170]);
   (1173, [1172]); (1175, [1174]); (1177, [1176]); (1179, [1178]);
   (1181, [1180]); (1183, [1182]); (1185, [1184]); (1187, [1186]);
   (1189, [1188]); (1191, [1190]); (1193, [1192]); (1195, [1194]);
   (1197, [1196]); (1199, [1198]); (1201, [1200]); (1203, [1202]);
   (1205, [1204]); (1207, [1206]); (1209, [1208]); (1211, [1210]);
   (1213, [1212]); (1215, [1214]); (1218, [1217]); (1220, [1219]);
   (1222, [1221]); (1224, [1223]); (1226, [1225]); (1228, [1227]);
   (1230, [1229]); (1231, [1216]); (1233, [1232]); (1235, [1234]);
   (1237, [1236]); (1239, [1238]); (1241, [1240]); (1243, [1242]);
   (1245, [1244]); (1247, [1246]); (1249, [1248]); (1251, [1250]);
   (1253, [1252]); (1255, [1254]); (1257, [1256]); (1259, [1258]);
   (1261, [1260]); (1263, [1262]); (1265, [1264]); (1267, [1266]);
   (1269, [1268]); (1271, [1270]); (1273, [1272]); (1275, [1274]);
   (1277, [1276]); (1279, [1278]); (1281, [1280]); (1283, [1282]);
   (1285, [1284]); (1287, [1286]); (1289, [1288]); (1291, [1290]);
   (1293, [1292]); (1295, [1294]); (1297, [1296]); (1299, [1298]);
   (1301, [1300]); (1303, [1302]); (1305, [1304]); (1307, [1306]);
   (1309, [1308]); (1311, [1310]); (1313, [1312]); (1315, [1314]);
   (1317, [1316]); (1319, [1318]); (1321, [1320]); (1323, [1322]);
   (1325, [1324]); (1327, [1326]); (1377, [1329]); (1378, [1330]);
   (1379, [1331]); (1380, [1332]); (1381, [1333]); (1382, [1334]);
   (1383, [1335]); (1384, [1336]); (1385, [1337]); (1386, [1338]);
   (1387, [1339]); (1388, [1340]); (1389, [1341]); (1390, [1342]);
   (1391, [1343]); (1392, [1344]); (1393, [1345]); (1394, [1346]);
   (1395, [1347]); (1396, [1348]); (1397, [1349]); (1398, [1350]);
   (1399, [1351]); (1400, [1352]); (1401, [1353]); (1402, [1354]);
   (1403, [1355]); (1404, [1356]); (1405, [1357]); (1406, [1358]);
   (1407, [1359]); (1408, [1360]); (1409, [1361]); (1410, [1362]);
   (1411, [1363]); (1412, [1364]); (1413, [1365]); (1414, [1366]);
   (1415, [1333; 1362]); (4304, [7312]); (4305, [7313]); (4306, [7314]);
   (4307, [7315]); (4308, [7316]); (4309, [7317]); (4310, [7318]);
   (4311, [7319]); (4312, [7320]); (4313, [7321]); (4314, [7322]);
   (4315, [7323]); (4316, [7324]); (4317, [7325]); (4318, [7326]);
   (4319, [7327]); (4320, [7328]); (4321, [7329]); (4322, [7330]);
   (4323, [7331]); (4324, [7332]); (4325, [7333]); (4326, [7334]);
   (4327, [7335]); (4328, [7336]); (4329, [7337]); (4330, [7338]);
   (4331, [7339]); (4332, [7340]); (4333, [7341]); (4334, [7342]);
   (4335, [7343]); (4336, [7344]); (4337, [7345]); (4338, [7346]);
   (4339, [7347]); (4340, [7348]); (4341, [7349]); (4342, [7350]);
   (4343, [7351]); (4344, [7352]); (4345, [7353]); (4346, [7354]);
   (4349, [7357]); (4350, [7358]); (4351, [7359]); (5112, [5104]);
   (5113, [5105]); (5114, [5106]); (5115, [5107]); (5116, [5108]);
   (5117, [5109]); (7296, [1042]); (7297, [1044]); (7298, [1054]);
   (7299, [1057]); (7300, [1058]); (7301, [1058]); (7302, [1066]);
   (7303, [1122]); (7304, [42570]); (7545, [42877]); (7549, [11363]);
   (7566, [42950]); (7681, [7680]); (7683, [7682]); (7685, [7684]);
   (7687, [7686]); (7689, [7688]); (7691, [7690]); (7693, [7692]);
   (7695, [7694]); (7697, [7696]); (7699, [7698]); (7701, [7700]);
   (7703, [7702]); (7705, [7704]); (7707, [7706]); (7709, [7708]);
   (7711, [7710]); (7713, [7712]); (7715, [7714]); (7717, [7716]);
   (7719, [7718]); (7721, [7720]); (7723, [7722]); (7725, [7724]);
   (7727, [7726]); (7729, [7728]); (7731, [7730]); (7733, [7732]);
   (7735, [7734]); (7737, [7736]); (7739, [7738]); (7741, [7740]);
   (7743, [7742]); (7745, [7744]); (7747, [7746]); (7749, [7748]);
   (7751, [7750]); (7753, [7752]); (7755, [7754]); (7757, [7756]);
   (7759, [7758]); (7761, [7760]); (7763, [7762]); (7765, [7764]);
   (7767, [7766]); (7769, [7768]); (7771, [7770]); (7773, [7772]);
   (7775, [7774]); (7777, [7776]); (7779, [7778]); (7781, [7780]);
   (7783, [7782]); (7785, [7784]); (7787, [7786]); (7789, [7788]);
   (7791, [7790]); (7793, [7792]); (7795, [7794]); (7797, [7796]);
   (7799, [7798]); (7801, [7800]); (7803, [7802]); (7805, [7804]);
   (7807, [7806]); (7809, [7808]); (7811, [7810]); (7813, [7812]);
   (7815, [7814]); (7817, [7816]); (7819, [7818]); (7821, [7820]);
   (7823, [7822]); (7825, [7824]); (7827, [7826]); (7829, [7828]);
   (7830, [72; 817]); (7831, [84; 776]); (7832, [87; 778]); (7833, [89; 778]);
   (7834, [65; 702]); (7835, [7776]); (7841, [7840]); (7843, [7842]);
   (7845, [7844]); (7847, [7846]); (7849, [7848]); (7851, [7850]);
   (7853, [7852]); (7855, [7854]); (7857, [7856]); (7859, [7858]);
   (7861, [7860]); (7863, [7862]); (7865, [7864]); (7867, [7866]);
   (7869, [7868]); (7871, [7870]); (7873, [7872]); (7875, [7874]);
   (7877, [7876]); (7879, [7878]); (7881, [7880]); (7883, [7882]);
   (7885, [7884]); (7887, [7886]); (7889, [7888]); (7891, [7890]);
   (7893, [7892]); (7895, [7894]); (7897, [7896]); (7899, [7898]);
   (7901, [7900]); (7903, [7902]); (7905, [7904]); (7907, [7906]);
   (7909, [7908]); (7911, [7910]); (7913, [7912]); (7915, [7914]);
   (7917, [7916]); (7919, [7918]); (7921, [7920]); (7923, [7922]);
   (7925, [7924]); (7927, [7926]); (7929, [7928]); (7931, [7930]);
   (7933, [7932]); (7935, [7934]); (7936, [7944]); (7937, [7945]);
   (7938, [7946]); (7939, [7947]); (7940, [7948]); (7941, [7949]);
   (7942, [7950]); (7943, [7951]); (7952, [7960]); (7953, [7961]);
   (7954, [7962]); (7955, [7963]); (7956, [7964]); (7957, [7965]);
   (7968, [7976]); (7969, [7977]); (7970, [7978]); (7971, [7979]);
   (7972, [7980]); (7973, [7981]); (7974, [7982]); (7975, [7983]);
   (7984, [7992]); (7985, [7993]); (7986, [7994]); (7987, [7995]);
   (7988, [7996]); (7989, [7997]); (7990, [7998]); (7991, [7999]);
   (8000, [8008]); (8001, [8009]); (8002, [8010]); (8003, [8011]);
   (8004, [8012]); (8005, [8013]); (8016, [933; 787]); (8017, [8025]);
   (8018, [933; 787; 768]); (8019, [8027]); (8020, [933; 787; 769]);
   (8021, [8029]); (8022, [933; 787; 834]); (8023, [8031]); (8032, [8040]);
   (8033, [8041]); (8034, [8042]); (8035, [8043]); (8036, [8044]);
   (8037, [8045]); (8038, [8046]); (8039, [8047]); (8048, [8122]);
   (8049, [8123]); (8050, [8136]); (8051, [8137]); (8052, [8138]);
   (8053, [8139]); (8054, [8154]); (8055, [8155]); (8056, [8184]);
   (8057, [8185]); (8058, [8170]); (8059, [8171]); (8060, [8186]);
   (8061, [8187]); (8064, [7944; 921]); (8065, [7945; 921]);
   (8066, [7946; 921]); (8067, [7947; 921]); (8068, [7948; 921]);
   (8069, [7949; 921]); (8070, [7950; 921]); (8071, [7951; 921]);
   (8072, [7944; 921]); (8073, [7945; 921]); (8074, [7946; 921]);
   (8075, [7947; 921]); (8076, [7948; 921]); (8077, [7949; 921]);
   (8078, [7950; 921]); (8079, [7951; 921]); (8080, [7976; 921]);
   (8081, [7977; 921]); (8082, [7978; 921]); (8083, [7979; 921]);
   (8084, [7980; 921]); (8085, [7981; 921]); (8086, [7982; 921]);
   (8087, [7983; 921]); (8088, [7976; 921]); (8089, [7977; 921]);
   (8090, [7978; 921]); (8091, [7979; 921]); (8092, [7980; 921]);
   (8093, [7981; 921]); (8094, [7982; 921]); (8095, [7983; 921]);
   (8096, [8040; 921]); (8097, [8041; 921]); (8098, [8042; 921]);
   (8099, [8043; 921]); (8100, [8044; 921]); (8101, [8045; 921]);
   (8102, [8046; 921]); (8103, [8047; 921]); (8104, [8040; 921]);
   (8105, [8041; 921]); (8106, [8042; 921]); (8107, [8043; 921]);
   (8108, [8044; 921]); (8109, [8045; 921]); (8110, [8046; 921]);
   (8111, [8047; 921]); (8112, [8120]); (8113, [8121]); (8114, [8122; 921]);
   (8115, [913; 921]); (8116, [902; 921]); (8118, [913; 834]);
   (8119, [913; 834; 921]); (8124, [913; 921]); (8126, [921]);
   (8130, [8138; 921]); (8131, [919; 921]); (8132, [905; 921]);
   (8134, [919; 834]); (8135, [919; 834; 921]); (8140, [919; 921]);
   (8144, [8152]); (8145, [8153]); (8146, [921; 776; 768]);
   (8147, [921; 776; 769]); (8150, [921; 834]); (8151, [921; 776; 834]);
   (8160, [8168]); (8161, [8169]); (8162, [933; 776; 768]);
   (8163, [933; 776; 769]); (8164, [929; 787]); (8165, [8172]);
   (8166, [933; 834]); (8167, [933; 776; 834]); (8178, [8186; 921]);
   (8179, [937; 921]); (8180, [911; 921]); (8182, [937; 834]);
   (8183, [937; 834; 921]); (8188, [937; 921]); (8526, [8498]); (8560, [8544]);
   (8561, [8545]); (8562, [8546]); (8563, [8547]); (8564, [8548]);
   (8565, [8549]); (8566, [8550]); (8567, [8551]); (8568, [8552]);
   (8569, [8553]); (8570, [8554]); (8571, [8555]); (8572, [8556]);
   (8573, [8557]); (8574, [8558]); (8575, [8559]); (8580, [8579]);
   (9424, [9398]); (9425, [9399]); (9426, [9400]); (9427, [9401]);
   (9428, [9402]); (9429, [9403]); (9430, [9404]); (9431, [9405]);
   (9432, [9406]); (9433, [9407]); (9434, [9408]); (9435, [9409]);
   (9436, [9410]); (9437, [9411]); (9438, [9412]); (9439, [9413]);
   (9440, [9414]); (9441, [9415]); (9442, [9416]); (9443, [9417]);
   (9444, [9418]); (9445, [9419]); (9446, [9420]); (9447, [9421]);
   (9448, [9422]); (9449, [9423]); (11312, [11264]); (11313, [11265]);
   (11314, [11266]); (11315, [11267]); (11316, [11268]); (11317, [11269]);
   (11318, [11270]); (11319, [11271]); (11320, [11272]); (11321, [11273]);
   (11322, [11274]); (11323, [11275]); (11324, [11276]); (11325, [11277]);
   (11326, [11278]); (11327, [11279]); (11328, [11280]); (11329, [11281]);
   (11330, [11282]); (11331, [11283]); (11332, [11284]); (11333, [11285]);
   (11334, [11286]); (11335, [11287]); (11336, [11288]); (11337, [11289]);
   (11338, [11290]); (11339, [11291]); (11340, [11292]); (11341, [11293]);
   (11342, [11294]); (11343, [11295]); (11344, [11296]); (11345, [11297]);
   (11346, [11298]); (11347, [11299]); (11348, [11300]); (11349, [11301]);
   (11350, [11302]); (11351, [11303]); (11352, [11304]); (11353, [11305]);
   (11354, [11306]); (11355, [11307]); (11356, [11308]); (11357, [11309]);
   (11358, [11310]); (11359, [11311]); (11361, [11360]); (11365, [570]);
   (11366, [574]); (11368, [11367]); (11370, [11369]); (11372, [11371]);
   (11379, [11378]); (11382, [11381]); (11393, [11392]); (11395, [11394]);
   (11397, [11396]); (11399, [11398]); (11401, [11400]); (11403, [11402]);
   (11405, [11404]); (11407, [11406]); (11409, [11408]); (11411, [11410]);
   (11413, [11412]); (11415, [11414]); (11417, [11416]); (11419, [11418]);
   (11421, [11420]); (11423, [11422]); (11425, [11424]); (11427, [11426]);
   (11429, [11428]); (11431, [11430]); (11433, [11432]); (11435, [11434]);
   (11437, [11436]); (11439, [11438]); (11441, [11440]); (11443, [11442]);
   (11445, [11444]); (11447, [11446]); (11449, [11448]); (11451, [11450]);
   (11453, [11452]); (11455, [11454]); (11457, [11456]); (11459, [11458]);
   (11461, [11460]); (11463, [11462]); (11465, [11464]); (11467, [11466]);
   (11469, [11468]); (11471, [11470]); (11473, [11472]); (11475, [11474]);
   (11477, [11476]); (11479, [11478]); (11481, [11480]); (11483, [11482]);
   (11485, [11484]); (11487, [11486]); (11489, [11488]); (11491, [11490]);
   (11500, [11499]); (11502, [11501]); (11507, [11506]); (11520, [4256]);
   (11521, [4257]); (11522, [4258]); (11523, [4259]); (11524, [4260]);
   (11525, [4261]); (11526, [4262]); (11527, [4263]); (11528, [4264]);
   (11529, [4265]); (11530, [4266]); (11531, [4267]); (11532, [4268]);
   (11533, [4269]); (11534, [4270]); (11535, [4271]); (11536, [4272]);
   (11537, [4273]); (11538, [4274]); (11539, [4275]); (11540, [4276]);
   (11541, [4277]); (11542, [4278]); (11543, [4279]); (11544, [4280]);
   (11545, [4281]); (11546, [4282]); (11547, [4283]); (11548, [4284]);
   (11549, [4285]); (11550, [4286]); (11551, [4287]); (11552, [4288]);
   (11553, [4289]); (11554, [4290]); (11555, [4291]); (11556, [4292]);
   (11557, [4293]); (11559, [4295]); (11565, [4301]); (42561, [42560]);
   (42563, [42562]); (42565, [42564]); (42567, [42566]); (42569, [42568]);
   (42571, [42570]); (42573, [42572]); (42575, [42574]); (42577, [42576]);
   (42579, [42578]); (42581, [42580]); (42583, [42582]); (42585, [42584]);
   (42587, [42586]); (42589, [42588]); (42591, [42590]); (42593, [42592]);
   (42595, [42594]); (42597, [42596]); (42599, [42598]); (42601, [42600]);
   (42603, [42602]); (42605, [42604]); (42625, [42624]); (42627, [42626]);
   (42629, [42628]); (42631, [42630]); (42633, [42632]); (42635, [42634]);
   (42637, [42636]); (42639, [42638]); (42641, [42640]); (42643, [42642]);
   (42645, [42644]); (42647, [42646]); (42649, [42648]); (42651, [42650]);
   (42787, [42786]); (42789, [42788]); (42791, [42790]); (42793, [42792]);
   (42795, [42794]); (42797, [42796]); (42799, [42798]); (42803, [42802]);
   (42805, [42804]); (42807, [42806]); (42809, [42808]); (42811, [42810]);
   (42813, [42812]); (42815, [42814]); (42817, [42816]); (42819, [42818]);
   (42821, [42820]); (42823, [42822]); (42825, [42824]); (42827, [42826]);
   (42829, [42828]); (42831, [42830]); (42833, [42832]); (42835, [42834]);
   (42837, [42836]); (42839, [42838]); (42841, [42840]); (42843, [42842]);
   (42845, [42844]); (42847, [42846]); (42849, [42848]); (42851, [42850]);
   (42853, [42852]); (42855, [42854]); (42857, [42856]); (42859, [42858]);
   (42861, [42860]); (42863, [42862]); (42874, [42873]); (42876, [42875]);
   (42879, [42878]); (42881, [42880]); (42883, [42882]); (42885, [42884]);
   (42887, [42886]); (42892, [42891]); (42897, [42896]); (42899, [42898]);
   (42900, [42948]); (42903, [42902]); (42905, [42904]); (42907, [42906]);
   (42909, [42908]); (42911, [42910]); (42913, [42912]); (42915, [42914]);
   (42917, [42916]); (42919, [42918]); (42921, [42920]); (42933, [42932]);
   (42935, [42934]); (42937, [42936]); (42939, [42938]); (42941, [42940]);
   (42943, [42942]); (42945, [42944]); (42947, [42946]); (42952, [42951]);
   (42954, [42953]); (42961, [42960]); (42967, [42966]); (42969, [42968]);
   (42998, [42997]); (43859, [42931]); (43888, [5024]); (43889, [5025]);
   (43890, [5026]); (43891, [5027]); (43892, [5028]); (43893, [5029]);
   (43894, [5030]); (43895, [5031]); (43896, [5032]); (43897, [5033]);
   (43898, [5034]); (43899, [5035]); (43900, [5036]); (43901, [5037]);
   (43902, [5038]); (43903, [5039]); (43904, [5040]); (43905, [5041]);
   (43906, [5042]); (43907, [5043]); (43908, [5044]); (43909, [5045]);
   (43910, [5046]); (43911, [5047]); (43912, [5048]); (43913, [5049]);
   (43914, [5050]); (43915, [5051]); (43916, [5052]); (43917, [5053]);
   (43918, [5054]); (43919, [5055]); (43920, [5056]); (43921, [5057]);
   (43922, [5058]); (43923, [5059]); (43924, [5060]); (43925, [5061]);
   (43926, [5062]); (43927, [5063]); (43928, [5064]); (43929, [5065]);
   (43930, [5066]); (43931, [5067]); (43932, [5068]); (43933, [5069]);
   (43934, [5070]); (43935, [5071]); (43936, [5072]); (43937, [5073]);
   (43938, [5074]); (43939, [5075]); (43940, [5076]); (43941, [5077]);
   (43942, [5078]); (43943, [5079]); (43944, [5080]); (43945, [5081]);
   (43946, [5082]); (43947, [5083]); (43948, [5084]); (43949, [5085]);
   (43950, [5086]); (43951, [5087]); (43952, [5088]); (43953, [5089]);
   (43954, [5090]); (43955, [5091]); (43956, [5092]); (43957, [5093]);
   (43958, [5094]); (43959, [5095]); (43960, [5096]); (43961, [5097]);
   (43962, [5098]); (43963, [5099]); (43964, [5100]); (43965, [5101]);
   (43966, [5102]); (43967, [5103]); (64256, [70; 70]); (64257, [70; 73]);
   (64258, [70; 76]); (64259, [70; 70; 73]); (64260, [70; 70; 76]);
   (64261, [83; 84]); (64262, [83; 84]); (64275, [1348; 1350]);
   (64276, [1348; 1333]); (64277, [1348; 1339]); (64278, [1358; 1350]);
   (64279, [1348; 1341]); (65345, [65313]); (65346, [65314]); (65347, [65315]);
   (65348, [65316]); (65349, [65317]); (65350, [65318]); (65351, [65319]);
   (65352, [65320]); (65353, [65321]); (65354, [65322]); (65355, [65323]);
   (65356, [65324]); (65357, [65325]); (65358, [65326]); (65359, [65327]);
   (65360, [65328]); (65361, [65329]); (65362, [65330]); (65363, [65331]);
   (65364, [65332]); (65365, [65333]); (65366, [65334]); (65367, [65335]);
   (65368, [65336]); (65369, [65337]); (65370, [65338]); (66600, [66560]);
   (66601, [66561]); (66602, [66562]); (66603, [66563]); (66604, [66564]);
   (66605, [66565]); (66606, [66566]); (66607, [66567]); (66608, [66568]);
   (66609, [66569]); (66610, [66570]); (66611, [66571]); (66612, [66572]);
   (66613, [66573]); (66614, [66574]); (66615, [66575]); (66616, [66576]);
   (66617, [66577]); (66618, [66578]); (66619, [66579]); (66620, [66580]);
   (66621, [66581]); (66622, [66582]); (66623, [66583]); (66624, [66584]);
   (66625, [66585]); (66626, [66586]); (66627, [66587]); (66628, [66588]);
   (66629, [66589]); (66630, [66590]); (66631, [66591]); (66632, [66592]);
   (66633, [66593]); (66634, [66594]); (66635, [66595]); (66636, [66596]);
   (66637, [66597]); (66638, [66598]); (66639, [66599]); (66776, [66736]);
   (66777, [66737]); (66778, [66738]); (66779, [66739]); (66780, [66740]);
   (66781, [66741]); (66782, [66742]); (66783, [66743]); (66784, [66744]);
   (66785, [66745]); (66786, [66746]); (66787, [66747]); (66788, [66748]);
   (66789, [66749]); (66790, [66750]); (66791, [66751]); (66792, [66752]);
   (66793, [66753]); (66794, [66754]); (66795, [66755]); (66796, [66756]);
   (66797, [66757]); (66798, [66758]); (66799, [66759]); (66800, [66760]);
   (66801, [66761]); (66802, [66762]); (66803, [66763]); (66804, [66764]);
   (66805, [66765]); (66806, [66766]); (66807, [66767]); (66808, [66768]);
   (66809, [66769]); (66810, [66770]); (66811, [66771]); (66967, [66928]);
   (66968, [66929]); (66969, [66930]); (66970, [66931]); (66971, [66932]);
   (66972, [66933]); (66973, [66934]); (66974, [66935]); (66975, [66936]);
   (66976, [66937]); (66977, [66938]); (66979, [66940]); (66980, [66941]);
   (66981, [66942]); (66982, [66943]); (66983, [66944]); (66984, [66945]);
   (66985, [66946]); (66986, [66947]); (66987, [66948]); (66988, [66949]);
   (66989, [66950]); (66990, [66951]); (66991, [66952]); (66992, [66953]);
   (66993, [66954]); (66995, [66956]); (66996, [66957]); (66997, [66958]);
   (66998, [66959]); (66999, [66960]); (67000, [66961]); (67001, [66962]);
   (67003, [66964]); (67004, [66965]); (68800, [68736]); (68801, [68737]);
   (68802, [68738]); (68803, [68739]); (68804, [68740]); (68805, [68741]);
   (68806, [68742]); (68807, [68743]); (68808, [68744]); (68809, [68745]);
   (68810, [68746]); (68811, [68747]); (68812, [68748]); (68813, [68749]);
   (68814, [68750]); (68815, [68751]); (68816, [68752]); (68817, [68753]);
   (68818, [68754]); (68819, [68755]); (68820, [68756]); (68821, [68757]);
   (68822, [68758]); (68823, [68759]); (68824, [68760]); (68825, [68761]);
   (68826, [68762]); (68827, [68763]); (68828, [68764]); (68829, [68765]);
   (68830, [68766]); (68831, [68767]); (68832, [68768]); (68833, [68769]);
   (68834, [68770]); (68835, [68771]); (68836, [68772]); (68837, [68773]);
   (68838, [68774]); (68839, [68775]); (68840, [68776]); (68841, [68777]);
   (68842, [68778]); (68843, [68779]); (68844, [68780]); (68845, [68781]);
   (68846, [68782]); (68847, [68783]); (68848, [68784]); (68849, [68785]);
   (68850, [68786]); (71872, [71840]); (71873, [71841]); (71874, [71842]);
   (71875, [71843]); (71876, [71844]); (71877, [71845]); (71878, [71846]);
   (71879, [71847]); (71880, [71848]); (71881, [71849]); (71882, [71850]);
   (71883, [71851]); (71884, [71852]); (71885, [71853]); (71886, [71854]);
   (71887, [71855]); (71888, [71856]); (71889, [71857]); (71890, [71858]);
   (71891, [71859]); (71892, [71860]); (71893, [71861]); (71894, [71862]);
   (71895, [71863]); (71896, [71864]); (71897, [71865]); (71898, [71866]);
   (71899, [71867]); (71900, [71868]); (71901, [71869]); (71902, [71870]);
   (71903, [71871]); (93792, [93760]); (93793, [93761]); (93794, [93762]);
   (93795, [93763]); (93796, [93764]); (93797, [93765]); (93798, [93766]);
   (93799, [93767]); (93800, [93768]); (93801, [93769]); (93802, [93770]);
   (93803, [93771]); (93804, [93772]); (93805, [93773]); (93806, [93774]);
   (93807, [93775]); (93808, [93776]); (93809, [93777]); (93810, [93778]);
   (93811, [93779]); (93812, [93780]); (93813, [93781]); (93814, [93782]);
   (93815, [93783]); (93816, [93784]); (93817, [93785]); (93818, [93786]);
   (93819, [93787]); (93820, [93788]); (93821, [93789]); (93822, [93790]);
   (93823, [93791]); (125218, [125184]); (125219, [125185]); (125220, [125186]);
   (125221, [125187]); (125222, [125188]); (125223, [125189]);
   (125224, [125190]); (125225, [125191]); (125226, [125192]);
   (125227, [125193]); (125228, [125194]); (125229, [125195]);
   (125230, [125196]); (125231, [125197]); (125232, [125198]);
   (125233, [125199]); (125234, [125200]); (125235, [125201]);
   (125236, [125202]); (125237, [125203]); (125238, [125204]);
   (125239, [125205]); (125240, [125206]); (125241, [125207]);
   (125242, [125208]); (125243, [125209]); (125244, [125210]);
   (125245, [125211]); (125246, [125212]); (125247, [125213]);
   (125248, [125214]); (125249, [125215]); (125250, [125216]);
   (125251, [125217])
  ].

(** The UTF-8 bytes of a code point. *)
Definition utf8 (cp : N) : string :=
  let b (n : N) := ascii_of_N n in
  if cp <? 128 then String (b cp) EmptyString
  else if cp <? 2048 then
    String (b (192 + cp / 64)) (String (b (128 + cp mod 64)) EmptyString)
  else if cp <? 65536 then
    String (b (224 + cp / 4096))
      (String (b (128 + (cp / 64) mod 64))
         (String (b (128 + cp mod 64)) EmptyString))
  else
    String (b (240 + cp / 262144))
      (String (b (128 + (cp / 4096) mod 64))
         (String (b (128 + (cp / 64) mod 64))
            (String (b (128 + cp mod 64)) EmptyString))).

Local Close Scope N_scope.

(** The same table on UTF-8 bytes. *)
Definition upper_table : list (string * string) :=
  Eval vm_compute in
    map (fun e => (utf8 (fst e),
                   fold_right (fun cp acc => (utf8 cp ++ acc)%string)
                     EmptyString (snd e)))
      upper_code_points.

Fixpoint lookup (tbl : list (string * string)) (k : string) : option string :=
  match tbl with
  | [] => None
  | (k', v) :: tbl' => if String.eqb k' k then Some v else lookup tbl' k
  end.

(** The upper-casing of one character outside ASCII, given by its bytes. *)
Definition upper_unit (u : string) : string :=
  match lookup upper_table u with
  | Some t => t
  | None => u
  end.

(** The number of bytes of the character a byte starts; 1 also for a byte
    that starts none. *)
Definition width (c : ascii) : nat :=
  let n := N_of_ascii c in
  if (n <? 192)%N then 1
  else if (n <? 224)%N then 2
  else if (n <? 240)%N then 3
  else if (n <? 248)%N then 4
  else 1.

Fixpoint upper (s : string) : string :=
  match s with
  | EmptyString => EmptyString
  | String c r =>
      match width c with
      | 2%nat =>
          match r with
          | String c2 r2 =>
              (upper_unit (String c (String c2 EmptyString)) ++ upper r2)%string
          | _ => s
          end
      | 3%nat =>
          match r with
          | String c2 (String c3 r3) =>
              (upper_unit (String c (String c2 (String c3 EmptyString)))
               ++ upper r3)%string
          | _ => s
          end
      | 4%nat =>
          match r with
          | String c2 (String c3 (String c4 r4)) =>
              (upper_unit
                 (String c (String c2 (String c3 (String c4 EmptyString))))
               ++ upper r4)%string
          | _ => s
          end
      | _ => String (upper_char c) (upper r)
      end
  end.

(** [len(s)]: the number of characters, that is of bytes that are not
    continuation bytes. *)
Fixpoint len (s : string) : nat :=
  match s with
  | EmptyString => 0
  | String c r =>
      let n := N_of_ascii c in
      if ((128 <=? n) && (n <? 192))%N then len r else S (len r)
  end.


(** A string made of whole characters that [upper] leaves as they are. *)
Fixpoint stable (s : string) : bool :=
  match s with
  | EmptyString => true
  | String c r =>
      match width c with
      | 2%nat =>
          match r with
          | String c2 r2 =>
              match lookup upper_table (String c (String c2 EmptyString)) with
              | None => stable r2
              | Some _ => false
              end
          | _ => false
          end
      | 3%nat =>
          match r with
          | String c2 (String c3 r3) =>
              match lookup upper_table
                      (String c (String c2 (String c3 EmptyString))) with
              | None => stable r3
              | Some _ => false
              end
          | _ => false
          end
      | 4%nat =>
          match r with
          | String c2 (String c3 (String c4 r4)) =>
              match lookup upper_table
                      (String c (String c2 (String c3 (String c4 EmptyString))))
              with
              | None => stable r4
              | Some _ => false
              end
          | _ => false
          end
      | _ => Ascii.eqb (upper_char c) c && stable r
      end
  end.

End Py.

(** ** bson.ObjectId *)

Module ObjectId.

(** An ObjectId is the bytes [bytes.fromhex] reads from the string, twelve
    for a string of 24 hexadecimal digits; it is kept as its rendering in
    lower-case hexadecimal digits, which is what [str] returns. *)
Definition t : Type := string.

Definition is_hex (c : ascii) : bool :=
  let n := N_of_ascii c in
  (((48 <=? n) && (n <=? 57)) || ((97 <=? n) && (n <=? 102))
   || ((65 <=? n) && (n <=? 70)))%N.

Definition lower_hex (c : ascii) : ascii :=
  let n := N_of_ascii c in
  if ((65 <=? n) && (n <=? 70))%N then ascii_of_N (n + 32) else c.

(** ASCII whitespace: space, tab, line feed, vertical tab, form feed and
    carriage return. *)
Definition is_space (c : ascii) : bool :=
  let n := N_of_ascii c in
  ((n =? 32) || ((9 <=? n) && (n <=? 13)))%N.

(** [bytes.fromhex(s)], rendered in lower-case hexadecimal digits: two
    adjacent digits a byte, whitespace skipped before a byte, anything else
    refused. *)
Fixpoint fromhex (s : string) : option string :=
  match s with
  | EmptyString => Some EmptyString
  | String c r =>
      if is_space c then fromhex r
      else
        match r with
        | String c2 r2 =>
            if is_hex c && is_hex c2 then
              match fromhex r2 with
              | Some h => Some (String (lower_hex c) (String (lower_hex c2) h))
              | None => None
              end
            else None
        | EmptyString => None
        end
  end.

(** [ObjectId(s)] for a string: 24 characters that [bytes.fromhex] accepts,
    or InvalidId. *)
Definition of_str (s : string) : option t :=
  if (Py.len s =? 24)%nat then fromhex s else None.

Definition to_str (o : t) : string := o.

Definition eqb (a b : t) : bool := String.eqb a b.

End ObjectId.

(** ** Request bodies (src/main.py) *)

Module CartItem.
Record t : Type := mk { product_id : string; quantity : Z }.
End CartItem.

Module Address.
Record t : Type := mk {
  label : string;
  line1 : string;
  line2 : option string;
  city : string;
  state : string;
  country : string;
  postal_code : string;
  phone : option string
}.
End Address.

Module CheckoutBody.
Record t : Type := mk {
  user_id : option string;
  items : list CartItem.t;
  address : Address.t;
  coupon : option string
}.
End CheckoutBody.

(** ** Stored documents (src/schemas.py) *)

Module ProductImage.
(** The admin end point stores images as plain dicts, so the "url" key
    may be missing. *)
Record t : Type := mk { url : option string; alt : option string }.
End ProductImage.

Module Product.
Record t : Type := mk {
  title : string;
  price : Py.num;
  sale_price : option Py.num;
  images : list ProductImage.t
}.
End Product.

Module Coupon.
(** Coupons are stored by the admin end point, whose body declares
    [value] and [min_order] as floats and [type] as any string. *)
Record t : Type := mk {
  code : string;
  type : string;
  value : float;
  min_order : option float;   (* None: the key is missing *)
  active : bool;
  expires_at : option Z
}.
End Coupon.

Module OrderItem.
Record t : Type := mk {
  product_id : string;
  title : string;
  price : float;
  quantity : Z;
  image : option string
}.
End OrderItem.

Module Order.
Record t : Type := mk {
  user_id : string;
  items : list OrderItem.t;
  amount : float;
  currency : string;
  address : Address.t;
  status : string;
  payment_provider : string;
  payment_order_id : string;
  created_at : Z;
  updated_at : Z;
  coupon : option string
}.
End Order.

(** ** The document store *)

Module Db.

Record t : Type := mk {
  product : list (ObjectId.t * Product.t);
  coupon : list Coupon.t;
  order : list (ObjectId.t * Order.t)
}.

(** [db["product"].find_one({"_id": id})] *)
Fixpoint find_product (ps : list (ObjectId.t * Product.t)) (id : ObjectId.t)
  : option Product.t :=
  match ps with
  | [] => None
  | (k, p) :: ps' => if ObjectId.eqb k id then Some p else find_product ps' id
  end.

(** [db["coupon"].find_one({"code": code, "active": True})] *)
Fixpoint find_coupon (cs : list Coupon.t) (code : string) : option Coupon.t :=
  match cs with
  | [] => None
  | c :: cs' =>
      if String.eqb (Coupon.code c) code && Coupon.active c then Some c
      else find_coupon cs' code
  end.

(** [db["order"].insert_one(order)], the driver having drawn [id]. *)
Definition insert_order (d : t) (id : ObjectId.t) (o : Order.t) : t :=
  mk (product d) (coupon d) (order d ++ [(id, o)]).

End Db.

(** What one call draws from outside: the twelve random characters, the two
    clock readings and the identifier the driver gives the new document. *)
Module Env.
Record t : Type := mk {
  choices : string;
  now_created : Z;
  now_updated : Z;
  inserted_id : ObjectId.t
}.
End Env.

(** ** Handlers as computations over the store *)

(** A handler runs against the store and either raises or returns; the
    store it leaves behind is kept in both cases. *)
Definition M (A : Type) : Type := Db.t -> Db.t * (Py.exn + A).

Definition ret {A} (a : A) : M A := fun d => (d, inr a).

Definition raise {A} (e : Py.exn) : M A := fun d => (d, inl e).

Definition bind {A B} (m : M A) (k : A -> M B) : M B :=
  fun d =>
    match m d with
    | (d', inl e) => (d', inl e)
    | (d', inr a) => k a d'
    end.

Definition lift {A} (r : Py.exn + A) : M A := fun d => (d, r).

Definition get_db : M Db.t := fun d => (d, inr d).

Definition put_db (d' : Db.t) : M unit := fun _ => (d', inr tt).

Notation "x <- m ;; k" := (bind m (fun x => k))
  (at level 61, m at next level, right associativity).

(** [oid] of src/main.py *)
Definition oid (id_str : string) : M ObjectId.t :=
  match ObjectId.of_str id_str with
  | Some o => ret o
  | None => raise (Py.HTTPException 400 "Invalid ID")
  end.

Definition find_one_product (id : ObjectId.t) : M (option Product.t) :=
  d <- get_db ;; ret (Db.find_product (Db.product d) id).

Definition find_one_coupon (code : string) : M (option Coupon.t) :=
  d <- get_db ;; ret (Db.find_coupon (Db.coupon d) code).

Definition insert_one_order (id : ObjectId.t) (o : Order.t) : M ObjectId.t :=
  d <- get_db ;; _ <- put_db (Db.insert_order d id o) ;; ret id.

(** ** [create_order] *)

Record Response : Type := mkResponse {
  order_id : string;
  razorpay_order_id : string;
  amount : float;
  currency : string
}.

Definition ProductNotFound : Py.exn := Py.HTTPException 400 "Product not found".

(** The image expression: the first image's url when there are images. *)
Definition first_image (imgs : list ProductImage.t) : option string :=
  match imgs with
  | [] => None
  | i :: _ => ProductImage.url i
  end.

(** [float(prod.get("sale_price") or prod.get("price"))] *)
Definition unit_price (prod : Product.t) : Py.exn + float :=
  Py.float_ (Py.or_ (Product.sale_price prod) (Product.price prod)).

(** The body of the [for] loop, for one requested item: the new running
    total and the order line that is appended. *)
Definition price_item (it : CartItem.t) (total : float)
  : M (float * OrderItem.t) :=
  id <- oid (CartItem.product_id it) ;;
  prod <- find_one_product id ;;
  match prod with
  | None => raise ProductNotFound
  | Some prod =>
      price <- lift (unit_price prod) ;;
      q <- lift (Py.int_to_float (CartItem.quantity it)) ;;
      ret ((total + price * q)%float,
           OrderItem.mk (CartItem.product_id it) (Product.title prod) price
             (CartItem.quantity it) (first_image (Product.images prod)))
  end.

(** The [for] loop over [body.items]. *)
Fixpoint price_items (its : list CartItem.t) (total : float)
  (order_items : list OrderItem.t) : M (float * list OrderItem.t) :=
  match its with
  | [] => ret (total, order_items)
  | it :: its' =>
      r <- price_item it total ;;
      price_items its' (fst r) (order_items ++ [snd r])
  end.

(** [float(c.get("min_order", 0))] *)
Definition threshold (c : Coupon.t) : float :=
  match Coupon.min_order c with
  | Some m => m
  | None => 0%float
  end.

(** The two discount formulas of the coupon block. *)
Definition discounted (c : Coupon.t) (total : float) : float :=
  if String.eqb (Coupon.type c) "percent"
  then Py.max 0 (total * (1 - Coupon.value c / 100))%float
  else Py.max 0 (total - Coupon.value c)%float.

(** The coupon block: the total after the discount and [applied_coupon]. *)
Definition apply_coupon (coupon : option string) (total : float)
  : M (float * option string) :=
  match coupon with
  | Some code =>
      if Py.truthy_str coupon then
        c <- find_one_coupon (Py.upper code) ;;
        match c with
        | Some c =>
            if PrimFloat.leb (threshold c) total
            then ret (discounted c total, Some (Coupon.code c))
            else ret (total, None)
        | None => ret (total, None)
        end
      else ret (total, None)
  | None => ret (total, None)
  end.

Definition create_order (env : Env.t) (body : CheckoutBody.t) : M Response :=
  r <- price_items (CheckoutBody.items body) 0%float [] ;;
  c <- apply_coupon (CheckoutBody.coupon body) (fst r) ;;
  let order :=
    Order.mk
      (if Py.truthy_str (CheckoutBody.user_id body)
       then match CheckoutBody.user_id body with Some u => u | None => "" end
       else "guest")
      (snd r)
      (Py.round2 (fst c))
      "INR"
      (CheckoutBody.address body)
      "pending"
      "razorpay"
      ("order_" ++ Env.choices env)
      (Env.now_created env)
      (Env.now_updated env)
      (snd c) in
  res <- insert_one_order (Env.inserted_id env) order ;;
  ret (mkResponse (ObjectId.to_str res) (Order.payment_order_id order)
         (Order.amount order) (Order.currency order)).

(** ** Fixtures: the scenarios of the specification *)

Module Fixture.

Definition idA : string := "aaaaaaaaaaaaaaaaaaaaaaaa".
Definition idB : string := "bbbbbbbbbbbbbbbbbbbbbbbb".
Definition idFree : string := "dddddddddddddddddddddddd".
Definition idMissing : string := "cccccccccccccccccccccccc".
Definition idC : string := "0000000000000000000000c1".
Definition idD : string := "0000000000000000000000d1".

Definition productA : Product.t :=
  Product.mk "Product A" (Py.Float 50) None
    [ProductImage.mk (Some "https://img/a.png") (Some "a")].

Definition productB : Product.t :=
  Product.mk "Product B" (Py.Int 40) (Some (Py.Float 30)) [].

(** A product on sale for nothing. *)
Definition productFree : Product.t :=
  Product.mk "Giveaway" (Py.Float 50) (Some (Py.Float 0)) [].

Definition productC : Product.t :=
  Product.mk "Product C" (Py.Float 99.99) None [].

Definition productD : Product.t :=
  Product.mk "Product D" (Py.Float 100) None [].

Definition save10 : Coupon.t :=
  Coupon.mk "SAVE10" "percent" 10 (Some 100%float) true None.

Definition flat20 : Coupon.t :=
  Coupon.mk "FLAT20" "flat" 20 (Some 100%float) true None.

Definition big : Coupon.t :=
  Coupon.mk "BIG" "flat" 500 None true None.

Definition off : Coupon.t :=
  Coupon.mk "OFF" "flat" 5 None false None.

(** A coupon whose type is neither "percent" nor "flat". *)
Definition odd : Coupon.t :=
  Coupon.mk "ODD" "bogo" 20 None true None.

Definition db : Db.t :=
  Db.mk [(idA, productA); (idB, productB); (idFree, productFree);
         (idC, productC); (idD, productD)]
        [save10; flat20; big; off; odd] [].

Definition address : Address.t :=
  Address.mk "Home" "1 Main Street" None "Pune" "MH" "IN" "411001" None.

Definition env : Env.t :=
  Env.mk "Ab3dEf6hIj9k" 1700000000 1700000001 "0123456789abcdef01234567".

Definition body (items : list CartItem.t) (coupon : option string)
  : CheckoutBody.t :=
  CheckoutBody.mk None items address coupon.

Definition cart : list CartItem.t :=
  [CartItem.mk idA 2; CartItem.mk idB 1].

End Fixture.

(** ** Vocabulary of the specification *)

(** productLookup: the product a requested reference designates, if any. *)
Definition productLookup (d : Db.t) (it : CartItem.t) : option Product.t :=
  match ObjectId.of_str (CartItem.product_id it) with
  | Some id => Db.find_product (Db.product d) id
  | None => None
  end.

(** The lookup of [it] is made and returns absent: the reference is a
    well-formed identifier that designates no product. *)
Definition lookup_absent (d : Db.t) (it : CartItem.t) : Prop :=
  exists id, ObjectId.of_str (CartItem.product_id it) = Some id
             /\ Db.find_product (Db.product d) id = None.

(** Resolution of one LineItemRequest into its PricedLineItem, with the
    error the request meets otherwise. *)
Definition resolve (d : Db.t) (it : CartItem.t) : Py.exn + OrderItem.t :=
  match ObjectId.of_str (CartItem.product_id it) with
  | None => inl (Py.HTTPException 400 "Invalid ID")
  | Some id =>
      match Db.find_product (Db.product d) id with
      | None => inl ProductNotFound
      | Some prod =>
          match unit_price prod with
          | inl e => inl e
          | inr price =>
              match Py.int_to_float (CartItem.quantity it) with
              | inl e => inl e
              | inr _ =>
                  inr (OrderItem.mk (CartItem.product_id it) (Product.title prod)
                         price (CartItem.quantity it)
                         (first_image (Product.images prod)))
              end
          end
      end
  end.

(** Every request of [its] resolves, to the lines [ois] in this order. *)
Definition resolved (d : Db.t) (its : list CartItem.t) (ois : list OrderItem.t)
  : Prop :=
  Forall2 (fun it oi => resolve d it = inr oi) its ois.

(** unit_price * quantity of a priced line. *)
Definition line_total (oi : OrderItem.t) : float :=
  (OrderItem.price oi * Py.nearest_float (OrderItem.quantity oi))%float.

(** The sum of the line totals, accumulated from [acc] in list order. *)
Definition sum_from (acc : float) (ois : list OrderItem.t) : float :=
  fold_left (fun t oi => (t + line_total oi)%float) ois acc.

Definition subtotal (ois : list OrderItem.t) : float := sum_from 0 ois.

(** The coupon a supplied code designates: the first active coupon stored
    under the upper-cased code. *)
Definition couponLookup (d : Db.t) (code : string) : option Coupon.t :=
  Db.find_coupon (Db.coupon d) (Py.upper code).

(** The outcome of the coupon step on a subtotal: the total that is then
    rounded, and the code recorded as applied. *)
Definition coupon_rule (d : Db.t) (coupon : option string) (total : float)
  : float * option string :=
  match coupon with
  | Some code =>
      if Py.truthy_str coupon then
        match couponLookup d code with
        | Some c =>
            if PrimFloat.leb (threshold c) total
            then (discounted c total, Some (Coupon.code c))
            else (total, None)
        | None => (total, None)
        end
      else (total, None)
  | None => (total, None)
  end.

(** A coupon with its expiry replaced, and the store with the expiry of
    every coupon replaced. *)
Definition set_expiry (f : Coupon.t -> option Z) (c : Coupon.t) : Coupon.t :=
  Coupon.mk (Coupon.code c) (Coupon.type c) (Coupon.value c)
    (Coupon.min_order c) (Coupon.active c) (f c).

Definition with_expiry (f : Coupon.t -> option Z) (d : Db.t) : Db.t :=
  Db.mk (Db.product d) (map (set_expiry f) (Db.coupon d)) (Db.order d).

(** The order document that [create_order] builds from the priced lines,
    the total after the coupon block and the applied coupon. *)
Definition order_of (env : Env.t) (body : CheckoutBody.t)
  (ois : list OrderItem.t) (c : float * option string) : Order.t :=
  Order.mk
    (if Py.truthy_str (CheckoutBody.user_id body)
     then match CheckoutBody.user_id body with Some u => u | None => "" end
     else "guest")
    ois (Py.round2 (fst c)) "INR" (CheckoutBody.address body)
    "pending" "razorpay" ("order_" ++ Env.choices env)
    (Env.now_created env) (Env.now_updated env) (snd c).

(** The response that goes with a stored order. *)
Definition response_of (env : Env.t) (o : Order.t) : Response :=
  mkResponse (ObjectId.to_str (Env.inserted_id env)) (Order.payment_order_id o)
    (Order.amount o) (Order.currency o).

(** A binary64 value that compares at or above zero: a zero, a positive
    finite number or plus infinity. *)
Definition sf_ge0 (x : spec_float) : bool := SFleb (S754_zero false) x.

(** A priced line as the schemas admit it: a unit price that is at least
    zero and finite, and a quantity that is at least zero. *)
Definition valid_line (oi : OrderItem.t) : Prop :=
  PrimFloat.leb 0 (OrderItem.price oi) = true
  /\ PrimFloat.is_infinity (OrderItem.price oi) = false
  /\ (0 <= OrderItem.quantity oi)%Z.

(** ** Handlers over the other collections

    The same shape of computation as [M], over any store. *)

Definition St (S A : Type) : Type := S -> S * (Py.exn + A).

Definition st_ret {S A} (a : A) : St S A := fun s => (s, inr a).

Definition st_raise {S A} (e : Py.exn) : St S A := fun s => (s, inl e).

Definition st_bind {S A B} (m : St S A) (k : A -> St S B) : St S B :=
  fun s =>
    match m s with
    | (s', inl e) => (s', inl e)
    | (s', inr a) => k a s'
    end.

Notation "x <~ m ;; k" := (st_bind m (fun x => k))
  (at level 61, m at next level, right associativity).

(** *** Orders: [get_order] and [payment_verify] *)

(** The order documents carry, beside the fields [create_order] writes, the
    "payment_id" field that [payment_verify] sets; it is kept beside the
    order collection, by order identifier. *)
Module Shop.
Record t : Type := mk {
  db : Db.t;
  payment_id : list (ObjectId.t * string)
}.
End Shop.

Module PaymentVerifyBody.
Record t : Type := mk {
  order_id : string;
  payment_id : string;
  signature : option string
}.
End PaymentVerifyBody.

(** The order document as [get_order] returns it. *)
Module OrderView.
Record t : Type := mk {
  _id : string;
  order : Order.t;
  payment_id : option string
}.
End OrderView.

(** A handler of the claims' store run on the shop. *)
Definition in_db {A} (m : M A) : St Shop.t A :=
  fun s =>
    let (d', r) := m (Shop.db s) in (Shop.mk d' (Shop.payment_id s), r).

(** [db["order"].find_one({"_id": id})] *)
Fixpoint find_order (os : list (ObjectId.t * Order.t)) (id : ObjectId.t)
  : option Order.t :=
  match os with
  | [] => None
  | (k, o) :: os' => if ObjectId.eqb k id then Some o else find_order os' id
  end.

(** The fields of the order record that the "$set" of [payment_verify]
    rewrites. *)
Definition set_paid (now : Z) (o : Order.t) : Order.t :=
  Order.mk (Order.user_id o) (Order.items o) (Order.amount o)
    (Order.currency o) (Order.address o) "paid" (Order.payment_provider o)
    (Order.payment_order_id o) (Order.created_at o) now (Order.coupon o).

(** [update_one({"_id": id}, {"$set": ...})] on the first matching order. *)
Fixpoint update_order (os : list (ObjectId.t * Order.t)) (id : ObjectId.t)
  (f : Order.t -> Order.t) : list (ObjectId.t * Order.t) :=
  match os with
  | [] => []
  | (k, o) :: os' =>
      if ObjectId.eqb k id then (k, f o) :: os'
      else (k, o) :: update_order os' id f
  end.

Fixpoint assoc (tbl : list (ObjectId.t * string)) (id : ObjectId.t)
  : option string :=
  match tbl with
  | [] => None
  | (k, v) :: tbl' => if ObjectId.eqb k id then Some v else assoc tbl' id
  end.

Fixpoint set_assoc (tbl : list (ObjectId.t * string)) (id : ObjectId.t)
  (v : string) : list (ObjectId.t * string) :=
  match tbl with
  | [] => [(id, v)]
  | (k, w) :: tbl' =>
      if ObjectId.eqb k id then (k, v) :: tbl'
      else (k, w) :: set_assoc tbl' id v
  end.

(** [create_order] on the shop. *)
Definition checkout (env : Env.t) (body : CheckoutBody.t) : St Shop.t Response :=
  in_db (create_order env body).

(** [payment_verify]; the answer is [{"ok": True}]. *)
Definition payment_verify (now : Z) (body : PaymentVerifyBody.t)
  : St Shop.t bool :=
  id <~ in_db (oid (PaymentVerifyBody.order_id body)) ;;
  fun s =>
    match find_order (Db.order (Shop.db s)) id with
    | Some _ =>
        (Shop.mk
           (Db.mk (Db.product (Shop.db s)) (Db.coupon (Shop.db s))
              (update_order (Db.order (Shop.db s)) id (set_paid now)))
           (set_assoc (Shop.payment_id s) id (PaymentVerifyBody.payment_id body)),
         inr true)
    | None => (s, inr true)
    end.

(** [get_order] *)
Definition get_order (oid_str : string) : St Shop.t OrderView.t :=
  id <~ in_db (oid oid_str) ;;
  fun s =>
    match find_order (Db.order (Shop.db s)) id with
    | None => (s, inl (Py.HTTPException 404 "Order not found"))
    | Some o =>
        (s, inr (OrderView.mk (ObjectId.to_str id) o (assoc (Shop.payment_id s) id)))
    end.

(** *** Coupons: [admin_add_coupon] and [get_coupon] *)

Module CouponBody.
Record t : Type := mk {
  code : string;
  type : string;
  value : float;
  min_order : float;
  active : bool
}.
End CouponBody.

(** A coupon document in full: the fields the checkout reads, with the
    identifier and the creation time the admin end point adds. *)
Module CouponDoc.
Record t : Type := mk {
  _id : ObjectId.t;
  fields : Coupon.t;
  created_at : option Z
}.
End CouponDoc.

(** The coupon collection as the checkout sees it. *)
Definition coupons_of (docs : list CouponDoc.t) : list Coupon.t :=
  map CouponDoc.fields docs.

Definition Unauthorized : Py.exn := Py.HTTPException 401 "Unauthorized".

(** [x_admin_key != ADMIN_KEY], the header being absent by default. *)
Definition admin_key_ok (ADMIN_KEY : string) (x_admin_key : option string) : bool :=
  match x_admin_key with
  | Some k => String.eqb k ADMIN_KEY
  | None => false
  end.

(** [admin_add_coupon]; [ADMIN_KEY] is read from the environment at start,
    [now] is the clock and [inserted_id] the identifier the driver draws. *)
Definition admin_add_coupon (ADMIN_KEY : string) (now : Z)
  (inserted_id : ObjectId.t) (body : CouponBody.t) (x_admin_key : option string)
  : St (list CouponDoc.t) string :=
  if admin_key_ok ADMIN_KEY x_admin_key then
    fun docs =>
      (docs ++ [CouponDoc.mk inserted_id
                  (Coupon.mk (CouponBody.code body) (CouponBody.type body)
                     (CouponBody.value body) (Some (CouponBody.min_order body))
                     (CouponBody.active body) None)
                  (Some now)],
       inr (ObjectId.to_str inserted_id))
  else st_raise Unauthorized.

(** [db["coupon"].find_one({"code": code, "active": True})] on documents. *)
Fixpoint find_coupon_doc (docs : list CouponDoc.t) (code : string)
  : option CouponDoc.t :=
  match docs with
  | [] => None
  | c :: docs' =>
      if String.eqb (Coupon.code (CouponDoc.fields c)) code
         && Coupon.active (CouponDoc.fields c)
      then Some c
      else find_coupon_doc docs' code
  end.

(** [get_coupon] *)
Definition get_coupon (code : string) : St (list CouponDoc.t) CouponDoc.t :=
  fun docs =>
    match find_coupon_doc docs (Py.upper code) with
    | None => (docs, inl (Py.HTTPException 404 "Invalid coupon"))
    | Some c => (docs, inr c)
    end.

(** *** Cart and wishlist *)

Module CartDoc.
Record t : Type := mk {
  _id : ObjectId.t;
  user_id : string;
  items : list CartItem.t;
  updated_at : option Z
}.
End CartDoc.

(** What [get_cart] and [get_wishlist] answer: the stored document, or the
    default one, which has no "_id". *)
Module CartView.
Record t : Type := mk {
  _id : option string;
  user_id : string;
  items : list CartItem.t;
  updated_at : option Z
}.
End CartView.

(** [find_one({"user_id": user_id})] *)
Fixpoint find_cart (cs : list CartDoc.t) (user_id : string) : option CartDoc.t :=
  match cs with
  | [] => None
  | c :: cs' =>
      if String.eqb (CartDoc.user_id c) user_id then Some c
      else find_cart cs' user_id
  end.

(** [find_one(...) or {"user_id": user_id, "items": []}], then
    [cart.get("items", [])]. *)
Definition cart_items (cs : list CartDoc.t) (user_id : string) : list CartItem.t :=
  match find_cart cs user_id with
  | Some c => CartDoc.items c
  | None => []
  end.

(** [update_one({"user_id": user_id}, {"$set": {"items": items, ...}},
    upsert=True)]: the first document of the user is rewritten, and a new one
    is inserted when there is none.  [stamp] is the "updated_at" that is set,
    if the "$set" has one. *)
Fixpoint upsert_items (cs : list CartDoc.t) (user_id : string)
  (items : list CartItem.t) (stamp : option Z) (inserted_id : ObjectId.t)
  : list CartDoc.t :=
  match cs with
  | [] => [CartDoc.mk inserted_id user_id items stamp]
  | c :: cs' =>
      if String.eqb (CartDoc.user_id c) user_id
      then CartDoc.mk (CartDoc._id c) (CartDoc.user_id c) items
             (match stamp with Some _ => stamp | None => CartDoc.updated_at c end)
           :: cs'
      else c :: upsert_items cs' user_id items stamp inserted_id
  end.

(** [get_cart] (and [get_wishlist], on the wishlist collection). *)
Definition get_cart (user_id : string) (cs : list CartDoc.t) : CartView.t :=
  match find_cart cs user_id with
  | Some c =>
      CartView.mk (Some (ObjectId.to_str (CartDoc._id c))) (CartDoc.user_id c)
        (CartDoc.items c) (CartDoc.updated_at c)
  | None => CartView.mk None user_id [] None
  end.

(** The [for] loop of [add_to_cart]: the first line of the product gets the
    quantity added, and [found] tells whether there was one. *)
Fixpoint bump (items : list CartItem.t) (item : CartItem.t)
  : list CartItem.t * bool :=
  match items with
  | [] => ([], false)
  | it :: items' =>
      if String.eqb (CartItem.product_id it) (CartItem.product_id item)
      then (CartItem.mk (CartItem.product_id it)
              (CartItem.quantity it + CartItem.quantity item) :: items', true)
      else let (r, found) := bump items' item in (it :: r, found)
  end.

(** The items [add_to_cart] writes back. *)
Definition added (items : list CartItem.t) (item : CartItem.t) : list CartItem.t :=
  let (items', found) := bump items item in
  if found then items' else items' ++ [item].

(** [add_to_cart]; the answer [{"ok": True}] is left out. *)
Definition add_to_cart (now : Z) (inserted_id : ObjectId.t) (item : CartItem.t)
  (user_id : string) (cs : list CartDoc.t) : list CartDoc.t :=
  upsert_items cs user_id (added (cart_items cs user_id) item) (Some now)
    inserted_id.

(** The list comprehension of [remove_from_cart] and [toggle_wishlist]. *)
Definition without (items : list CartItem.t) (product_id : string)
  : list CartItem.t :=
  filter (fun it => negb (String.eqb (CartItem.product_id it) product_id)) items.

(** [remove_from_cart] *)
Definition remove_from_cart (now : Z) (inserted_id : ObjectId.t)
  (item : CartItem.t) (user_id : string) (cs : list CartDoc.t) : list CartDoc.t :=
  upsert_items cs user_id
    (without (cart_items cs user_id) (CartItem.product_id item)) (Some now)
    inserted_id.

(** [any(it["product_id"] == item.product_id for it in items)] *)
Definition has_product (items : list CartItem.t) (product_id : string) : bool :=
  existsb (fun it => String.eqb (CartItem.product_id it) product_id) items.

(** The items [toggle_wishlist] writes back. *)
Definition toggled (items : list CartItem.t) (product_id : string)
  : list CartItem.t :=
  if has_product items product_id then without items product_id
  else items ++ [CartItem.mk product_id 1].

(** [toggle_wishlist], on the wishlist collection; its "$set" has no
    "updated_at". *)
Definition toggle_wishlist (inserted_id : ObjectId.t) (item : CartItem.t)
  (user_id : string) (ws : list CartDoc.t) : list CartDoc.t :=
  upsert_items ws user_id
    (toggled (cart_items ws user_id) (CartItem.product_id item)) None
    inserted_id.

(** The total quantity of a product over the lines of a cart. *)
Definition quantity_of (items : list CartItem.t) (product_id : string) : Z :=
  fold_right
    (fun it acc =>
       if String.eqb (CartItem.product_id it) product_id
       then (CartItem.quantity it + acc)%Z else acc)
    0%Z items.

(** The products of the lines, in order. *)
Definition products_of (items : list CartItem.t) : list string :=
  map CartItem.product_id items.

(** The payment identifiers kept beside the orders belong to stored orders. *)
Definition shop_wf (s : Shop.t) : Prop :=
  forall id, find_order (Db.order (Shop.db s)) id = None ->
             assoc (Shop.payment_id s) id = None.

(** What was ordered, by whom and for how much: the order document without
    its status, its payment and its last update. *)
Definition order_core (o : Order.t)
  : string * list OrderItem.t * float * string * Address.t * string * string
    * Z * option string :=
  (Order.user_id o, Order.items o, Order.amount o, Order.currency o,
   Order.address o, Order.payment_provider o, Order.payment_order_id o,
   Order.created_at o, Order.coupon o).

(** One cart document per user. *)
Definition one_cart_per_user (cs : list CartDoc.t) : Prop :=
  NoDup (map CartDoc.user_id cs).

(** A cart collection with the cart of one user. *)
Definition carts0 : list CartDoc.t :=
  [CartDoc.mk "0000000000000000000000a1" "alice"
     [CartItem.mk Fixture.idA 2] (Some 1699999999%Z)].

(** *** Accounts: [hash_password], [register] and [login] *)

(** SHA-256 (FIPS 180-4) on bytes, words being integers below 2^32. *)
Module Sha256.

Definition w32 (x : Z) : Z := Z.land x 4294967295.

Definition rotr (n : Z) (x : Z) : Z :=
  Z.lor (Z.shiftr x n) (w32 (Z.shiftl x (32 - n))).

Definition xor3 (a b c : Z) : Z := Z.lxor (Z.lxor a b) c.

Definition Ch (x y z : Z) : Z :=
  Z.lxor (Z.land x y) (Z.land (Z.lxor x 4294967295) z).

Definition Maj (x y z : Z) : Z :=
  xor3 (Z.land x y) (Z.land x z) (Z.land y z).

Definition Sigma0 (x : Z) : Z := xor3 (rotr 2 x) (rotr 13 x) (rotr 22 x).
Definition Sigma1 (x : Z) : Z := xor3 (rotr 6 x) (rotr 11 x) (rotr 25 x).
Definition sigma0 (x : Z) : Z := xor3 (rotr 7 x) (rotr 18 x) (Z.shiftr x 3).
Definition sigma1 (x : Z) : Z := xor3 (rotr 17 x) (rotr 19 x) (Z.shiftr x 10).

Definition K : list Z :=
  [
   1116352408; 1899447441; 3049323471; 3921009573; 961987163; 1508970993;
   2453635748; 2870763221; 3624381080; 310598401; 607225278; 1426881987;
   1925078388; 2162078206; 2614888103; 3248222580; 3835390401; 4022224774;
   264347078; 604807628; 770255983; 1249150122; 1555081692; 1996064986;
   2554220882; 2821834349; 2952996808; 3210313671; 3336571891; 3584528711;
   113926993; 338241895; 666307205; 773529912; 1294757372; 1396182291;
   1695183700; 1986661051; 2177026350; 2456956037; 2730485921; 2820302411;
   3259730800; 3345764771; 3516065817; 3600352804; 4094571909; 275423344;
   430227734; 506948616; 659060556; 883997877; 958139571; 1322822218;
   1537002063; 1747873779; 1955562222; 2024104815; 2227730452; 2361852424;
   2428436474; 2756734187; 3204031479; 3329325298
  ]%Z.

Definition H0 : list Z :=
  [
   1779033703; 3144134277; 1013904242; 2773480762;
   1359893119; 2600822924; 528734635; 1541459225
  ]%Z.

(** The message with its padding: a 1 bit, zeros, and the bit length on
    eight bytes, up to a multiple of 64 bytes. *)
Definition pad (msg : list Z) : list Z :=
  let len := Z.of_nat (List.length msg) in
  let zeros := Z.to_nat ((55 - len) mod 64) in
  let bits := (8 * len)%Z in
  msg ++ [128%Z] ++ repeat 0%Z zeros
      ++ map (fun i => Z.land (Z.shiftr bits (8 * (7 - Z.of_nat i))) 255)
           (seq 0 8).

(** Big-endian words of a byte list. *)
Fixpoint words (bytes : list Z) : list Z :=
  match bytes with
  | a :: b :: c :: d :: rest =>
      (Z.shiftl a 24 + Z.shiftl b 16 + Z.shiftl c 8 + d)%Z :: words rest
  | _ => []
  end.

(** The message schedule, most recent word first: [n] more words after the
    sixteen of the block. *)
Fixpoint schedule (n : nat) (w : list Z) : list Z :=
  match n with
  | O => w
  | S n' =>
      schedule n'
        (w32 (sigma1 (nth 1 w 0) + nth 6 w 0 + sigma0 (nth 14 w 0) + nth 15 w 0)%Z
         :: w)
  end.

(** One round on the working variables [a; b; c; d; e; f; g; h]. *)
Definition round (s : list Z) (kw : Z * Z) : list Z :=
  match s with
  | [a; b; c; d; e; f; g; h] =>
      let t1 := (h + Sigma1 e + Ch e f g + fst kw + snd kw)%Z in
      let t2 := (Sigma0 a + Maj a b c)%Z in
      [w32 (t1 + t2); a; b; c; w32 (d + t1); e; f; g]
  | _ => s
  end.

Fixpoint chunks (n : nat) (ws : list Z) : list (list Z) :=
  match n with
  | O => []
  | S n' =>
      match ws with
      | [] => []
      | _ => firstn 16 ws :: chunks n' (skipn 16 ws)
      end
  end.

(** The compression of one block of sixteen words into the hash value. *)
Definition compress (h : list Z) (block : list Z) : list Z :=
  let w := rev (schedule 48 (rev block)) in
  map (fun p => w32 (fst p + snd p)) (combine h (fold_left round (combine K w) h)).

Definition digest (msg : list Z) : list Z :=
  let ws := words (pad msg) in
  fold_left compress (chunks (List.length ws) ws) H0.

Definition hex_digit (n : Z) : ascii :=
  ascii_of_N (Z.to_N (if n <? 10 then 48 + n else 87 + n))%Z.

(** The eight hexadecimal digits of a word. *)
Definition hex_word (w : Z) : string :=
  fold_right
    (fun i acc => String (hex_digit (Z.land (Z.shiftr w (4 * Z.of_nat i)) 15)) acc)
    EmptyString [7; 6; 5; 4; 3; 2; 1; 0]%nat.

Definition hexdigest (msg : list Z) : string :=
  fold_right (fun w acc => (hex_word w ++ acc)%string) EmptyString (digest msg).

End Sha256.

(** [str.encode()]: the bytes of a string (strings are kept as their UTF-8
    bytes). *)
Definition encode (s : string) : list Z :=
  map (fun c => Z.of_N (N_of_ascii c)) (list_ascii_of_string s).

(** [hash_password] of src/main.py *)
Definition hash_password (pw : string) : string :=
  Sha256.hexdigest (encode pw).

Module RegisterBody.
Record t : Type := mk {
  name : string;
  email : string;
  password : string;
  phone : option string
}.
End RegisterBody.

Module LoginBody.
Record t : Type := mk { email : string; password : string }.
End LoginBody.

(** A user document: [register] writes all the fields, the accounts that
    the one-time-password route creates have neither "password_hash" nor
    "is_admin". *)
Module UserDoc.
Record t : Type := mk {
  _id : ObjectId.t;
  name : string;
  email : string;
  password_hash : option string;
  phone : option string;
  is_admin : option bool;
  is_active : bool;
  created_at : Z;
  updated_at : Z
}.
End UserDoc.

(** The answer of [register] and [login]. *)
Module AuthView.
Record t : Type := mk { token : string; user_id : string; name : string }.
End AuthView.

(** [db["user"].find_one({"email": email})] *)
Fixpoint find_user (us : list UserDoc.t) (email : string) : option UserDoc.t :=
  match us with
  | [] => None
  | u :: us' =>
      if String.eqb (UserDoc.email u) email then Some u else find_user us' email
  end.

(** [register]; the two clock readings and the identifier the driver draws
    are given. *)
Definition register (now_created now_updated : Z) (inserted_id : ObjectId.t)
  (body : RegisterBody.t) : St (list UserDoc.t) AuthView.t :=
  fun us =>
    match find_user us (RegisterBody.email body) with
    | Some _ => (us, inl (Py.HTTPException 400 "Email already registered"))
    | None =>
        (us ++ [UserDoc.mk inserted_id (RegisterBody.name body)
                  (RegisterBody.email body)
                  (Some (hash_password (RegisterBody.password body)))
                  (RegisterBody.phone body) (Some false) true
                  now_created now_updated],
         inr (AuthView.mk (ObjectId.to_str inserted_id)
                (ObjectId.to_str inserted_id) (RegisterBody.name body)))
    end.

(** [user.get("password_hash") != hash_password(body.password)] *)
Definition hash_differs (stored : option string) (pw : string) : bool :=
  match stored with
  | Some h => negb (String.eqb h (hash_password pw))
  | None => true
  end.

(** [login] *)
Definition login (body : LoginBody.t) : St (list UserDoc.t) AuthView.t :=
  fun us =>
    match find_user us (LoginBody.email body) with
    | None => (us, inl (Py.HTTPException 401 "Invalid credentials"))
    | Some u =>
        if hash_differs (UserDoc.password_hash u) (LoginBody.password body)
        then (us, inl (Py.HTTPException 401 "Invalid credentials"))
        else (us, inr (AuthView.mk (ObjectId.to_str (UserDoc._id u))
                         (ObjectId.to_str (UserDoc._id u)) (UserDoc.name u)))
    end.

(** A user collection with one registered account and one account created
    by the one-time-password route. *)
Definition users0 : list UserDoc.t :=
  [UserDoc.mk "0000000000000000000000b1" "Ann" "ann@example.com"
     (Some (hash_password "hunter2")) None (Some false) true
     1699999000 1699999000;
   UserDoc.mk "0000000000000000000000b2" "User" "5550100@example.com"
     None (Some "5550100") None true 1699999100 1699999100].

(** *** Products: [admin_create_product], [get_product] and
    [admin_delete_product] *)

(** A [Dict[str, str]], as the pairs of its keys and values. *)
Definition dict : Type := list (string * string).

(** [d.get(key)] *)
Fixpoint dict_get (d : dict) (key : string) : option string :=
  match d with
  | [] => None
  | (k, v) :: d' => if String.eqb k key then Some v else dict_get d' key
  end.

Module ProductBody.
Record t : Type := mk {
  title : string;
  slug : string;
  description : option string;
  price : float;
  sale_price : option float;
  currency : string;
  category : string;
  brand : option string;
  stock : Z;
  images : list dict;
  specs : dict;
  featured : bool;
  tags : list string
}.
End ProductBody.

(** A product document in full. *)
Module ProductDoc.
Record t : Type := mk {
  _id : ObjectId.t;
  title : string;
  slug : string;
  description : option string;
  price : Py.num;
  sale_price : option Py.num;
  currency : string;
  category : string;
  brand : option string;
  stock : Z;
  images : list dict;
  specs : dict;
  featured : bool;
  tags : list string;
  rating : float;
  rating_count : Z;
  created_at : Z;
  updated_at : Z
}.
End ProductDoc.

(** The product as the checkout reads it. *)
Definition product_of (p : ProductDoc.t) : Product.t :=
  Product.mk (ProductDoc.title p) (ProductDoc.price p) (ProductDoc.sale_price p)
    (map (fun d => ProductImage.mk (dict_get d "url") (dict_get d "alt"))
       (ProductDoc.images p)).

(** The product collection as the checkout sees it. *)
Definition catalogue_of (docs : list ProductDoc.t)
  : list (ObjectId.t * Product.t) :=
  map (fun p => (ProductDoc._id p, product_of p)) docs.

(** The document [admin_create_product] inserts: the dumped body with the
    rating fields and the two clock readings. *)
Definition product_doc (now_created now_updated : Z) (inserted_id : ObjectId.t)
  (body : ProductBody.t) : ProductDoc.t :=
  ProductDoc.mk inserted_id (ProductBody.title body) (ProductBody.slug body)
    (ProductBody.description body) (Py.Float (ProductBody.price body))
    (option_map Py.Float (ProductBody.sale_price body))
    (ProductBody.currency body) (ProductBody.category body)
    (ProductBody.brand body) (ProductBody.stock body) (ProductBody.images body)
    (ProductBody.specs body) (ProductBody.featured body) (ProductBody.tags body)
    0%float 0%Z now_created now_updated.

(** [admin_create_product] *)
Definition admin_create_product (ADMIN_KEY : string) (now_created now_updated : Z)
  (inserted_id : ObjectId.t) (body : ProductBody.t) (x_admin_key : option string)
  : St (list ProductDoc.t) string :=
  if admin_key_ok ADMIN_KEY x_admin_key then
    fun docs =>
      (docs ++ [product_doc now_created now_updated inserted_id body],
       inr (ObjectId.to_str inserted_id))
  else st_raise Unauthorized.

(** [find_one({"$or": [{"_id": id}, {"slug": pid}]})] *)
Fixpoint find_by_id_or_slug (docs : list ProductDoc.t) (id : ObjectId.t)
  (pid : string) : option ProductDoc.t :=
  match docs with
  | [] => None
  | p :: docs' =>
      if ObjectId.eqb (ProductDoc._id p) id || String.eqb (ProductDoc.slug p) pid
      then Some p
      else find_by_id_or_slug docs' id pid
  end.

(** [find_one({"slug": pid})] *)
Fixpoint find_by_slug (docs : list ProductDoc.t) (pid : string)
  : option ProductDoc.t :=
  match docs with
  | [] => None
  | p :: docs' =>
      if String.eqb (ProductDoc.slug p) pid then Some p
      else find_by_slug docs' pid
  end.

(** [get_product]; [len(pid)] counts characters. *)
Definition get_product (pid : string) : St (list ProductDoc.t) ProductDoc.t :=
  fun docs =>
    let found :=
      if (Py.len pid =? 24)%nat then
        match ObjectId.of_str pid with
        | Some id => inr (find_by_id_or_slug docs id pid)
        | None => inl (Py.HTTPException 400 "Invalid ID")
        end
      else inr (find_by_slug docs pid) in
    match found with
    | inl e => (docs, inl e)
    | inr None => (docs, inl (Py.HTTPException 404 "Product not found"))
    | inr (Some p) => (docs, inr p)
    end.

(** [delete_one({"_id": id})] *)
Fixpoint delete_product (docs : list ProductDoc.t) (id : ObjectId.t)
  : list ProductDoc.t :=
  match docs with
  | [] => []
  | p :: docs' =>
      if ObjectId.eqb (ProductDoc._id p) id then docs'
      else p :: delete_product docs' id
  end.

(** [admin_delete_product]; the answer is [{"ok": True}]. *)
Definition admin_delete_product (ADMIN_KEY : string) (pid : string)
  (x_admin_key : option string) : St (list ProductDoc.t) bool :=
  if admin_key_ok ADMIN_KEY x_admin_key then
    fun docs =>
      match ObjectId.of_str pid with
      | Some id => (delete_product docs id, inr true)
      | None => (docs, inl (Py.HTTPException 400 "Invalid ID"))
      end
  else st_raise Unauthorized.

(** A product collection with one product, and a product to add. *)
Definition products0 : list ProductDoc.t :=
  [ProductDoc.mk "0000000000000000000000c1" "Desk lamp" "desk-lamp" None
     (Py.Int 1999) (Some (Py.Int 1499)) "INR" "home" (Some "Flames") 10
     [[("url", "https://img/lamp.png"); ("alt", "lamp")]] [("Color", "Black")]
     false ["new"] 4.5 12 1699990000 1699990000].

Definition kettle : ProductBody.t :=
  ProductBody.mk "Kettle" "kettle" None 40 (Some 25%float) "INR" "home" None 5
    [[("alt", "kettle")]; [("url", "https://img/k.png")]] [] true [].

(** ** The loop *)

Lemma price_item_resolve (d : Db.t) (it : CartItem.t) (total : float) :
  price_item it total d =
  (d, match resolve d it with
      | inl e => inl e
      | inr oi => inr ((total + line_total oi)%float, oi)
      end).
Proof.
  unfold price_item, resolve, oid, find_one_product, bind, get_db, ret, raise, lift.
  destruct (ObjectId.of_str (CartItem.product_id it)) as [id|]; [|reflexivity].
  destruct (Db.find_product (Db.product d) id) as [prod|]; [|reflexivity].
  destruct (unit_price prod) as [e|price]; [reflexivity|].
  unfold Py.int_to_float, line_total.
  destruct (PrimFloat.is_infinity (Py.nearest_float (CartItem.quantity it)));
    reflexivity.
Qed.

Lemma price_items_ok (d : Db.t) (its : list CartItem.t) (new : list OrderItem.t) :
  resolved d its new ->
  forall total ois,
    price_items its total ois d = (d, inr (sum_from total new, ois ++ new)).
Proof.
  induction 1 as [|it oi its new Hit _ IH]; intros total ois; cbn.
  - now rewrite app_nil_r.
  - unfold bind. rewrite price_item_resolve, Hit. cbn.
    rewrite IH, <- app_assoc. reflexivity.
Qed.

Lemma price_items_fail (d : Db.t) (pre : list CartItem.t) (new : list OrderItem.t)
  (it : CartItem.t) (post : list CartItem.t) (e : Py.exn) :
  resolved d pre new ->
  resolve d it = inl e ->
  forall total ois,
    price_items (pre ++ it :: post) total ois d = (d, inl e).
Proof.
  induction 1 as [|it' oi pre new Hit _ IH]; intros Hfail total ois; cbn.
  - unfold bind. now rewrite price_item_resolve, Hfail.
  - unfold bind. rewrite price_item_resolve, Hit. cbn. now apply IH.
Qed.

(** The loop only reads the store, and when it completes every request has
    been resolved. *)
Lemma price_items_inv (d : Db.t) (its : list CartItem.t) :
  forall total ois,
    fst (price_items its total ois d) = d
    /\ forall r, snd (price_items its total ois d) = inr r ->
         exists new, resolved d its new
                     /\ r = (sum_from total new, ois ++ new).
Proof.
  induction its as [|it its IH]; intros total ois; cbn.
  - split; [reflexivity|]. intros r [= <-]. exists []. split; [constructor|].
    now rewrite app_nil_r.
  - unfold bind. rewrite price_item_resolve.
    destruct (resolve d it) as [e|oi] eqn:Hit; cbn.
    + split; [reflexivity|]. discriminate.
    + destruct (IH (total + line_total oi)%float (ois ++ [oi])) as [Hd Hr].
      split; [exact Hd|]. intros r Hr'. destruct (Hr r Hr') as (new & Hnew & ->).
      exists (oi :: new). split; [now constructor|].
      now rewrite <- app_assoc.
Qed.

(** The coupon block only reads the store and never raises. *)
Lemma apply_coupon_eq (d : Db.t) (coupon : option string) (total : float) :
  apply_coupon coupon total d = (d, inr (coupon_rule d coupon total)).
Proof.
  unfold apply_coupon, coupon_rule, couponLookup, find_one_coupon, bind,
    get_db, ret.
  destruct coupon as [code|]; [|reflexivity].
  destruct (Py.truthy_str (Some code)); [|reflexivity].
  destruct (Db.find_coupon (Db.coupon d) (Py.upper code)) as [c|]; [|reflexivity].
  destruct (PrimFloat.leb (threshold c) total); reflexivity.
Qed.

(** A checkout whose requests all resolve stores one order and answers. *)
Lemma create_order_ok (env : Env.t) (body : CheckoutBody.t) (d : Db.t)
  (ois : list OrderItem.t) :
  resolved d (CheckoutBody.items body) ois ->
  let o := order_of env body ois
             (coupon_rule d (CheckoutBody.coupon body) (subtotal ois)) in
  create_order env body d
  = (Db.insert_order d (Env.inserted_id env) o, inr (response_of env o)).
Proof.
  intros Hres o. unfold create_order, bind.
  rewrite (price_items_ok d _ _ Hres 0%float []). cbn [fst snd app].
  fold (subtotal ois). rewrite apply_coupon_eq. reflexivity.
Qed.

(** X2.  A checkout that raises, with whatever exception (a malformed
    identifier, a missing product, a quantity that no float holds), has
    written nothing: the store is the one the call started from. *)
Lemma create_order_raise_no_write (env : Env.t) (body : CheckoutBody.t) (d : Db.t)
  (e : Py.exn) :
  snd (create_order env body d) = inl e -> fst (create_order env body d) = d.
Proof.
  unfold create_order, bind.
  destruct (price_items_inv d (CheckoutBody.items body) 0%float []) as [Hd _].
  destruct (price_items (CheckoutBody.items body) 0%float [] d) as [d' [e'|r]];
    cbn in Hd; subst d'; [reflexivity|].
  rewrite apply_coupon_eq. cbn. discriminate.
Qed.

Lemma lookup_absent_resolve (d : Db.t) (it : CartItem.t) :
  lookup_absent d it -> resolve d it = inl ProductNotFound.
Proof.
  intros (id & Hid & Hfind). unfold resolve. now rewrite Hid, Hfind.
Qed.

Lemma lookup_absent_iff (d : Db.t) (it : CartItem.t) :
  lookup_absent d it <->
  ObjectId.of_str (CartItem.product_id it) <> None /\ productLookup d it = None.
Proof.
  unfold lookup_absent, productLookup.
  destruct (ObjectId.of_str (CartItem.product_id it)) as [id|].
  - split; [intros (id' & [= <-] & H); split; [discriminate|exact H]|].
    intros [_ H]. now exists id.
  - split; [intros (id' & [=] & _)|intros [H _]; congruence].
Qed.

(** A request resolves when its product is found, its price converts and
    its quantity is a representable number. *)
Lemma resolve_of_lookup (d : Db.t) (it : CartItem.t) (prod : Product.t)
  (price q : float) :
  productLookup d it = Some prod ->
  unit_price prod = inr price ->
  Py.int_to_float (CartItem.quantity it) = inr q ->
  resolve d it
  = inr (OrderItem.mk (CartItem.product_id it) (Product.title prod) price
           (CartItem.quantity it) (first_image (Product.images prod))).
Proof.
  unfold productLookup, resolve.
  destruct (ObjectId.of_str (CartItem.product_id it)) as [id|]; [|discriminate].
  intros -> -> ->. reflexivity.
Qed.

Lemma resolved_length (d : Db.t) (its : list CartItem.t) (ois : list OrderItem.t) :
  resolved d its ois -> List.length ois = List.length its.
Proof.
  induction 1; cbn; congruence.
Qed.

Lemma resolved_nth (d : Db.t) (its : list CartItem.t) (ois : list OrderItem.t) :
  resolved d its ois ->
  forall i it, nth_error its i = Some it ->
    exists oi, nth_error ois i = Some oi /\ resolve d it = inr oi.
Proof.
  induction 1 as [|it' oi its ois Hit _ IH]; intros [|i] it; cbn; try discriminate.
  - intros [= <-]. now exists oi.
  - apply IH.
Qed.

(** ** Failure on a missing product *)

(** C1 (as amended).  [create_order] raises ProductNotFound (HTTP 400,
    "Product not found") as soon as the lookup of a requested item returns
    absent, that is when the requests before it have all resolved and the
    item is a well-formed reference to no product; the store is then the one
    the call started from, so no order is persisted, and no response is
    produced. *)
Theorem create_order_product_not_found
  (env : Env.t) (body : CheckoutBody.t) (d : Db.t)
  (pre : list CartItem.t) (ois : list OrderItem.t)
  (it : CartItem.t) (post : list CartItem.t) :
  CheckoutBody.items body = pre ++ it :: post ->
  resolved d pre ois ->
  lookup_absent d it ->
  create_order env body d = (d, inl ProductNotFound).
Proof.
  intros Hitems Hpre Habs.
  unfold create_order, bind. rewrite Hitems.
  rewrite (price_items_fail d pre ois it post ProductNotFound Hpre
             (lookup_absent_resolve d it Habs)).
  reflexivity.
Qed.

Lemma create_order_product_not_found_witness :
  create_order Fixture.env
    (Fixture.body [CartItem.mk Fixture.idA 1; CartItem.mk Fixture.idMissing 2;
                   CartItem.mk Fixture.idB 1] None)
    Fixture.db
  = (Fixture.db, inl ProductNotFound).
Proof.
  eapply (create_order_product_not_found _ _ _ [CartItem.mk Fixture.idA 1] _
            (CartItem.mk Fixture.idMissing 2) [CartItem.mk Fixture.idB 1]).
  - reflexivity.
  - constructor; [vm_compute; reflexivity | constructor].
  - eexists; split; vm_compute; reflexivity.
Defined.

(** C1 as stated fails: a list that contains a reference whose lookup would
    return absent does not always end in ProductNotFound, because a malformed
    identifier earlier in the list is rejected first, with "Invalid ID". *)
Lemma product_not_found_counterexample :
  ~ (forall (env : Env.t) (body : CheckoutBody.t) (d : Db.t),
        (exists it, In it (CheckoutBody.items body) /\ lookup_absent d it) ->
        snd (create_order env body d) = inl ProductNotFound).
Proof.
  intros H.
  specialize (H Fixture.env
                (Fixture.body [CartItem.mk "xyz" 1;
                               CartItem.mk Fixture.idMissing 1] None)
                Fixture.db).
  assert (Hex : exists it,
             In it [CartItem.mk "xyz" 1; CartItem.mk Fixture.idMissing 1]
             /\ lookup_absent Fixture.db it).
  { exists (CartItem.mk Fixture.idMissing 1). split; [right; left; reflexivity|].
    eexists; split; vm_compute; reflexivity. }
  specialize (H Hex). vm_compute in H. discriminate H.
Qed.

(** ** The order lines *)

(** C8.  When [create_order] succeeds, the stored order holds one priced
    line per requested item, in the order of the request: the i-th line is
    the resolution of the i-th item. *)
Theorem create_order_lines_in_order
  (env : Env.t) (body : CheckoutBody.t) (d d' : Db.t) (resp : Response) :
  create_order env body d = (d', inr resp) ->
  exists o,
    d' = Db.insert_order d (Env.inserted_id env) o
    /\ List.length (Order.items o) = List.length (CheckoutBody.items body)
    /\ forall i it, nth_error (CheckoutBody.items body) i = Some it ->
         exists oi, nth_error (Order.items o) i = Some oi
                    /\ resolve d it = inr oi.
Proof.
  intros Hrun.
  destruct (price_items_inv d (CheckoutBody.items body) 0%float []) as [Hd Hr].
  unfold create_order, bind in Hrun.
  destruct (price_items (CheckoutBody.items body) 0%float [] d) as [d0 [e|r]];
    cbn in Hd; subst d0; [discriminate|].
  destruct (Hr r eq_refl) as (new & Hnew & ->). cbn [app fst snd] in Hrun.
  fold (subtotal new) in Hrun. rewrite apply_coupon_eq in Hrun. cbn in Hrun.
  injection Hrun as <- _.
  eexists; split; [reflexivity|]. cbn [Order.items]. split.
  - now apply (resolved_length d).
  - now apply resolved_nth.
Qed.

Lemma create_order_lines_in_order_witness :
  exists o,
    fst (create_order Fixture.env (Fixture.body Fixture.cart None) Fixture.db)
    = Db.insert_order Fixture.db (Env.inserted_id Fixture.env) o
    /\ List.length (Order.items o) = 2%nat
    /\ forall i it, nth_error Fixture.cart i = Some it ->
         exists oi, nth_error (Order.items o) i = Some oi
                    /\ resolve Fixture.db it = inr oi.
Proof.
  refine (create_order_lines_in_order Fixture.env
            (Fixture.body Fixture.cart None) Fixture.db _
            (response_of Fixture.env
               (order_of Fixture.env (Fixture.body Fixture.cart None)
                  [OrderItem.mk Fixture.idA "Product A" 50 2
                     (Some "https://img/a.png");
                   OrderItem.mk Fixture.idB "Product B" 30 1 None]
                  (130%float, None))) _).
  vm_compute. reflexivity.
Defined.

(** ** The amount without a coupon *)

(** C2.  When every requested item resolves and no coupon code is supplied,
    the checkout succeeds and the amount of the stored order, which is the
    amount answered, is the sum of unit_price * quantity over the lines,
    accumulated from 0.0 in request order, rounded to two decimals.  (The
    list need not even be non-empty.) *)
Theorem create_order_no_coupon_amount
  (env : Env.t) (body : CheckoutBody.t) (d : Db.t) (ois : list OrderItem.t) :
  resolved d (CheckoutBody.items body) ois ->
  CheckoutBody.coupon body = None ->
  exists o,
    create_order env body d
    = (Db.insert_order d (Env.inserted_id env) o, inr (response_of env o))
    /\ Order.items o = ois
    /\ Order.amount o = Py.round2 (subtotal ois)
    /\ amount (response_of env o) = Py.round2 (subtotal ois).
Proof.
  intros Hres Hnone.
  eexists; split; [exact (create_order_ok env body d ois Hres)|].
  rewrite Hnone. cbn. auto.
Qed.

Lemma create_order_no_coupon_amount_witness :
  exists o,
    create_order Fixture.env (Fixture.body Fixture.cart None) Fixture.db
    = (Db.insert_order Fixture.db (Env.inserted_id Fixture.env) o,
       inr (response_of Fixture.env o))
    /\ map line_total (Order.items o) = [100%float; 30%float]
    /\ Order.amount o = 130%float.
Proof.
  destruct (create_order_no_coupon_amount Fixture.env
              (Fixture.body Fixture.cart None) Fixture.db
              [OrderItem.mk Fixture.idA "Product A" 50 2
                 (Some "https://img/a.png");
               OrderItem.mk Fixture.idB "Product B" 30 1 None])
    as (o & Hrun & Hitems & Hamount & _).
  - repeat constructor.
  - reflexivity.
  - exists o. split; [exact Hrun|]. rewrite Hamount, Hitems.
    split; vm_compute; reflexivity.
Defined.

(** ** The coupon rule *)

Lemma find_coupon_Some (cs : list Coupon.t) (code : string) (c : Coupon.t) :
  Db.find_coupon cs code = Some c ->
  In c cs /\ Coupon.code c = code /\ Coupon.active c = true.
Proof.
  induction cs as [|c' cs IH]; cbn; [discriminate|].
  destruct (String.eqb (Coupon.code c') code && Coupon.active c') eqn:Hm.
  - intros [= <-]. apply andb_true_iff in Hm as [Hc Ha].
    apply String.eqb_eq in Hc. auto.
  - intros H. destruct (IH H) as (? & ? & ?). auto.
Qed.

Lemma find_coupon_None (cs : list Coupon.t) (code : string) :
  Db.find_coupon cs code = None <->
  forall c, In c cs -> Coupon.code c = code -> Coupon.active c = false.
Proof.
  induction cs as [|c' cs IH]; cbn.
  - split; [intros _ c []|reflexivity].
  - destruct (String.eqb (Coupon.code c') code && Coupon.active c') eqn:Hm.
    + split; [discriminate|]. intros H.
      apply andb_true_iff in Hm as [Hc Ha]. apply String.eqb_eq in Hc.
      rewrite (H c' (or_introl eq_refl) Hc) in Ha. discriminate.
    + rewrite IH. split.
      * intros H c [<-|Hin] Hc; [|now apply H].
        apply String.eqb_eq in Hc. rewrite Hc in Hm. cbn in Hm. exact Hm.
      * intros H c Hin. apply H. now right.
Qed.

Lemma coupon_rule_supplied (d : Db.t) (code : string) (total : float) :
  code <> "" ->
  coupon_rule d (Some code) total =
  match couponLookup d code with
  | Some c =>
      if PrimFloat.leb (threshold c) total
      then (discounted c total, Some (Coupon.code c))
      else (total, None)
  | None => (total, None)
  end.
Proof.
  intros Hne. unfold coupon_rule. destruct code; [congruence|reflexivity].
Qed.

(** C5.  With a coupon code supplied and every item resolved, the checkout
    always succeeds, and the discount is applied exactly when the looked-up
    coupon exists (an active coupon is stored under the upper-cased code) and
    its minimum order is at most the subtotal; when no coupon is stored under
    the code, when those stored are inactive, or when the subtotal is below
    the minimum, the order is stored with no coupon and the undiscounted
    amount. *)
Theorem coupon_applied_iff
  (env : Env.t) (body : CheckoutBody.t) (d : Db.t) (code : string)
  (ois : list OrderItem.t) :
  CheckoutBody.coupon body = Some code ->
  code <> "" ->
  resolved d (CheckoutBody.items body) ois ->
  exists o,
    create_order env body d
    = (Db.insert_order d (Env.inserted_id env) o, inr (response_of env o))
    /\ (Order.coupon o <> None <->
        exists c, couponLookup d code = Some c
                  /\ In c (Db.coupon d) /\ Coupon.active c = true
                  /\ PrimFloat.leb (threshold c) (subtotal ois) = true)
    /\ (forall c, couponLookup d code = Some c ->
          PrimFloat.leb (threshold c) (subtotal ois) = true ->
          Order.coupon o = Some (Coupon.code c)
          /\ Order.amount o = Py.round2 (discounted c (subtotal ois)))
    /\ ((forall c, In c (Db.coupon d) -> Coupon.code c = Py.upper code ->
           Coupon.active c = false)
        \/ (exists c, couponLookup d code = Some c
                      /\ PrimFloat.leb (threshold c) (subtotal ois) = false) ->
        Order.coupon o = None /\ Order.amount o = Py.round2 (subtotal ois)).
Proof.
  intros Hcode Hne Hres.
  eexists; split; [exact (create_order_ok env body d ois Hres)|].
  rewrite Hcode, (coupon_rule_supplied d code _ Hne). cbn [Order.coupon Order.amount order_of].
  destruct (couponLookup d code) as [c|] eqn:Hlook.
  - destruct (find_coupon_Some _ _ _ Hlook) as (Hin & Hc & Ha).
    destruct (PrimFloat.leb (threshold c) (subtotal ois)) eqn:Hle; cbn.
    + split; [|split].
      * split; [intros _; exists c; auto | discriminate].
      * intros c' [= <-] _. auto.
      * intros [Hnone | (c' & [= <-] & Hf)]; [|congruence].
        rewrite (Hnone c Hin Hc) in Ha. discriminate.
    + split; [|split].
      * split; [congruence|]. intros (c' & [= <-] & _ & _ & Hf). congruence.
      * intros c' [= <-] Hf. congruence.
      * auto.
  - cbn. split; [|split].
    + split; [congruence|]. intros (c & Hf & _). discriminate.
    + discriminate.
    + auto.
Qed.

Lemma coupon_applied_iff_witness :
  (exists o,
      create_order Fixture.env
        (Fixture.body [CartItem.mk Fixture.idD 1] (Some "flat20")) Fixture.db
      = (Db.insert_order Fixture.db (Env.inserted_id Fixture.env) o,
         inr (response_of Fixture.env o))
      /\ Order.coupon o = Some "FLAT20" /\ Order.amount o = 80%float)
  /\ (exists o,
         create_order Fixture.env
           (Fixture.body [CartItem.mk Fixture.idC 1] (Some "flat20")) Fixture.db
         = (Db.insert_order Fixture.db (Env.inserted_id Fixture.env) o,
            inr (response_of Fixture.env o))
         /\ Order.coupon o = None /\ Order.amount o = 99.99%float).
Proof.
  split.
  - destruct (coupon_applied_iff Fixture.env
                (Fixture.body [CartItem.mk Fixture.idD 1] (Some "flat20"))
                Fixture.db "flat20"
                [OrderItem.mk Fixture.idD "Product D" 100 1 None])
      as (o & Hrun & _ & Happ & _).
    + reflexivity.
    + discriminate.
    + repeat constructor.
    + exists o. split; [exact Hrun|].
      destruct (Happ Fixture.flat20 eq_refl eq_refl) as [Hc Ha].
      rewrite Hc, Ha. split; vm_compute; reflexivity.
  - destruct (coupon_applied_iff Fixture.env
                (Fixture.body [CartItem.mk Fixture.idC 1] (Some "flat20"))
                Fixture.db "flat20"
                [OrderItem.mk Fixture.idC "Product C" 99.99 1 None])
      as (o & Hrun & _ & _ & Hnot).
    + reflexivity.
    + discriminate.
    + repeat constructor.
    + exists o. split; [exact Hrun|].
      destruct Hnot as [Hc Ha].
      { right. exists Fixture.flat20. split; reflexivity. }
      rewrite Hc, Ha. split; vm_compute; reflexivity.
Defined.

(** C6.  A successful checkout applies at most one coupon, once: either the
    order records no coupon and its amount is the rounded subtotal, or it
    records the code of one stored coupon and its amount is the rounding of
    max(0, subtotal * (1 - value/100)) when that coupon is a percent coupon
    and of max(0, subtotal - value) when it is a flat one. *)
Theorem at_most_one_coupon
  (env : Env.t) (body : CheckoutBody.t) (d : Db.t) (ois : list OrderItem.t) :
  resolved d (CheckoutBody.items body) ois ->
  exists o,
    create_order env body d
    = (Db.insert_order d (Env.inserted_id env) o, inr (response_of env o))
    /\ ((Order.coupon o = None /\ Order.amount o = Py.round2 (subtotal ois))
        \/ exists c,
             In c (Db.coupon d)
             /\ Order.coupon o = Some (Coupon.code c)
             /\ (Coupon.type c = "percent" ->
                 Order.amount o
                 = Py.round2 (Py.max 0 (subtotal ois * (1 - Coupon.value c / 100))))
             /\ (Coupon.type c = "flat" ->
                 Order.amount o
                 = Py.round2 (Py.max 0 (subtotal ois - Coupon.value c)))).
Proof.
  intros Hres.
  eexists; split; [exact (create_order_ok env body d ois Hres)|].
  cbn [Order.coupon Order.amount order_of]. unfold coupon_rule.
  destruct (CheckoutBody.coupon body) as [code|]; [|now left].
  destruct (Py.truthy_str (Some code)); [|now left].
  destruct (couponLookup d code) as [c|] eqn:Hlook; [|now left].
  destruct (PrimFloat.leb (threshold c) (subtotal ois)); [|now left].
  right. exists c. cbn [fst snd]. unfold discounted.
  split; [apply (find_coupon_Some _ _ _ Hlook)|]. split; [reflexivity|].
  split; intros ->; reflexivity.
Qed.

Lemma at_most_one_coupon_witness :
  exists o,
    create_order Fixture.env (Fixture.body Fixture.cart (Some "SAVE10"))
      Fixture.db
    = (Db.insert_order Fixture.db (Env.inserted_id Fixture.env) o,
       inr (response_of Fixture.env o))
    /\ Order.coupon o = Some "SAVE10"
    /\ Order.amount o = 117%float.
Proof.
  destruct (at_most_one_coupon Fixture.env
              (Fixture.body Fixture.cart (Some "SAVE10")) Fixture.db
              [OrderItem.mk Fixture.idA "Product A" 50 2
                 (Some "https://img/a.png");
               OrderItem.mk Fixture.idB "Product B" 30 1 None])
    as (o & Hrun & _).
  - repeat constructor.
  - exists o. split; [exact Hrun|].
    vm_compute in Hrun. injection Hrun as Ho.
    rewrite <- Ho. split; reflexivity.
Defined.

(** C10.  Every applicable coupon whose type is not the string "percent" is
    treated as a flat coupon, whatever the type says: the amount is the
    rounding of max(0, subtotal - value). *)
Theorem non_percent_coupon_is_flat
  (env : Env.t) (body : CheckoutBody.t) (d : Db.t) (code : string)
  (ois : list OrderItem.t) (c : Coupon.t) :
  CheckoutBody.coupon body = Some code ->
  code <> "" ->
  resolved d (CheckoutBody.items body) ois ->
  couponLookup d code = Some c ->
  PrimFloat.leb (threshold c) (subtotal ois) = true ->
  Coupon.type c <> "percent" ->
  exists o,
    create_order env body d
    = (Db.insert_order d (Env.inserted_id env) o, inr (response_of env o))
    /\ Order.coupon o = Some (Coupon.code c)
    /\ Order.amount o = Py.round2 (Py.max 0 (subtotal ois - Coupon.value c)).
Proof.
  intros Hcode Hne Hres Hlook Hle Hty.
  eexists; split; [exact (create_order_ok env body d ois Hres)|].
  rewrite Hcode, (coupon_rule_supplied d code _ Hne), Hlook, Hle.
  cbn [Order.coupon Order.amount order_of fst snd]. unfold discounted.
  apply String.eqb_neq in Hty. rewrite Hty. auto.
Qed.

Lemma non_percent_coupon_is_flat_witness :
  exists o,
    create_order Fixture.env (Fixture.body Fixture.cart (Some "odd")) Fixture.db
    = (Db.insert_order Fixture.db (Env.inserted_id Fixture.env) o,
       inr (response_of Fixture.env o))
    /\ Coupon.type Fixture.odd = "bogo"
    /\ Order.coupon o = Some "ODD"
    /\ Order.amount o = 110%float.
Proof.
  destruct (non_percent_coupon_is_flat Fixture.env
              (Fixture.body Fixture.cart (Some "odd")) Fixture.db "odd"
              [OrderItem.mk Fixture.idA "Product A" 50 2
                 (Some "https://img/a.png");
               OrderItem.mk Fixture.idB "Product B" 30 1 None]
              Fixture.odd)
    as (o & Hrun & Hc & Ha).
  - reflexivity.
  - discriminate.
  - repeat constructor.
  - reflexivity.
  - reflexivity.
  - discriminate.
  - exists o. split; [exact Hrun|]. rewrite Hc, Ha.
    repeat split; vm_compute; reflexivity.
Defined.

(** ** Expiry *)

Lemma find_coupon_set_expiry (f : Coupon.t -> option Z) (cs : list Coupon.t)
  (code : string) :
  Db.find_coupon (map (set_expiry f) cs) code
  = option_map (set_expiry f) (Db.find_coupon cs code).
Proof.
  induction cs as [|c cs IH]; cbn; [reflexivity|].
  destruct (String.eqb (Coupon.code c) code && Coupon.active c);
    [reflexivity|exact IH].
Qed.

Lemma resolved_with_expiry (f : Coupon.t -> option Z) (d : Db.t)
  (its : list CartItem.t) (ois : list OrderItem.t) :
  resolved d its ois -> resolved (with_expiry f d) its ois.
Proof.
  induction 1; constructor; assumption.
Qed.

(** C9.  The expiry of a coupon is never consulted: whatever expiry the
    stored coupons carry (in the past or not), a supplied code whose coupon is
    active and whose minimum order is met gets its discount applied and its
    code recorded. *)
Theorem expiry_not_consulted
  (env : Env.t) (body : CheckoutBody.t) (d : Db.t) (code : string)
  (ois : list OrderItem.t) (c : Coupon.t) (f : Coupon.t -> option Z) :
  CheckoutBody.coupon body = Some code ->
  code <> "" ->
  resolved d (CheckoutBody.items body) ois ->
  couponLookup d code = Some c ->
  PrimFloat.leb (threshold c) (subtotal ois) = true ->
  exists o,
    create_order env body (with_expiry f d)
    = (Db.insert_order (with_expiry f d) (Env.inserted_id env) o,
       inr (response_of env o))
    /\ couponLookup (with_expiry f d) code = Some (set_expiry f c)
    /\ Order.coupon o = Some (Coupon.code c)
    /\ Order.amount o = Py.round2 (discounted c (subtotal ois)).
Proof.
  intros Hcode Hne Hres Hlook Hle.
  assert (Hlook' : couponLookup (with_expiry f d) code = Some (set_expiry f c)).
  { unfold couponLookup in *. cbn [with_expiry Db.coupon].
    now rewrite find_coupon_set_expiry, Hlook. }
  eexists; split;
    [exact (create_order_ok env body _ ois (resolved_with_expiry f d _ _ Hres))|].
  split; [exact Hlook'|].
  rewrite Hcode, (coupon_rule_supplied _ code _ Hne), Hlook'.
  change (threshold (set_expiry f c)) with (threshold c). rewrite Hle.
  split; reflexivity.
Qed.

Lemma expiry_not_consulted_witness :
  exists o,
    create_order Fixture.env (Fixture.body Fixture.cart (Some "SAVE10"))
      (with_expiry (fun _ => Some 0%Z) Fixture.db)
    = (Db.insert_order (with_expiry (fun _ => Some 0%Z) Fixture.db)
         (Env.inserted_id Fixture.env) o,
       inr (response_of Fixture.env o))
    /\ (0 < Env.now_created Fixture.env)%Z
    /\ Order.coupon o = Some "SAVE10"
    /\ Order.amount o = 117%float.
Proof.
  destruct (expiry_not_consulted Fixture.env
              (Fixture.body Fixture.cart (Some "SAVE10")) Fixture.db "SAVE10"
              [OrderItem.mk Fixture.idA "Product A" 50 2
                 (Some "https://img/a.png");
               OrderItem.mk Fixture.idB "Product B" 30 1 None]
              Fixture.save10 (fun _ => Some 0%Z))
    as (o & Hrun & _ & Hc & Ha).
  - reflexivity.
  - discriminate.
  - repeat constructor.
  - reflexivity.
  - reflexivity.
  - exists o. split; [exact Hrun|]. rewrite Hc, Ha.
    repeat split; vm_compute; reflexivity.
Defined.

(** ** Case of the coupon code *)

Lemma upper_char_idem (c : ascii) :
  Py.upper_char (Py.upper_char c) = Py.upper_char c.
Proof.
  destruct c as [[] [] [] [] [] [] [] []]; reflexivity.
Qed.

Lemma width_cases (c : ascii) :
  Py.width c = 1%nat \/ Py.width c = 2%nat \/ Py.width c = 3%nat
  \/ Py.width c = 4%nat.
Proof.
  unfold Py.width.
  repeat match goal with |- context [if ?b then _ else _] => destruct b end;
    auto.
Qed.

Lemma width_upper_char (c : ascii) :
  Py.width c = 1%nat -> Py.width (Py.upper_char c) = 1%nat.
Proof.
  destruct c as [[] [] [] [] [] [] [] []]; intros H; try exact H; reflexivity.
Qed.

Lemma upper_1 (c : ascii) (r : string) :
  Py.width c = 1%nat ->
  Py.upper (String c r) = String (Py.upper_char c) (Py.upper r).
Proof.
  intros H. cbn [Py.upper]. now rewrite H.
Qed.

Lemma upper_2 (c c2 : ascii) (r : string) :
  Py.width c = 2%nat ->
  Py.upper (String c (String c2 r))
  = (Py.upper_unit (String c (String c2 EmptyString)) ++ Py.upper r)%string.
Proof.
  intros H. cbn [Py.upper]. now rewrite H.
Qed.

Lemma upper_3 (c c2 c3 : ascii) (r : string) :
  Py.width c = 3%nat ->
  Py.upper (String c (String c2 (String c3 r)))
  = (Py.upper_unit (String c (String c2 (String c3 EmptyString)))
     ++ Py.upper r)%string.
Proof.
  intros H. cbn [Py.upper]. now rewrite H.
Qed.

Lemma upper_4 (c c2 c3 c4 : ascii) (r : string) :
  Py.width c = 4%nat ->
  Py.upper (String c (String c2 (String c3 (String c4 r))))
  = (Py.upper_unit (String c (String c2 (String c3 (String c4 EmptyString))))
     ++ Py.upper r)%string.
Proof.
  intros H. cbn [Py.upper]. now rewrite H.
Qed.

(** A string cut in the middle of its last character is left as it is. *)
Lemma upper_cut (c : ascii) (r : string) :
  (Py.width c = 2%nat /\ r = EmptyString)
  \/ (Py.width c = 3%nat /\ (String.length r < 2)%nat)
  \/ (Py.width c = 4%nat /\ (String.length r < 3)%nat) ->
  Py.upper (String c r) = String c r.
Proof.
  intros [[H ->]|[[H Hr]|[H Hr]]]; cbn [Py.upper]; rewrite H.
  - reflexivity.
  - destruct r as [|c2 [|c3 r]]; try reflexivity. cbn in Hr. lia.
  - destruct r as [|c2 [|c3 [|c4 r]]]; try reflexivity. cbn in Hr. lia.
Qed.

Lemma string_app_assoc (a b c : string) :
  ((a ++ b) ++ c = a ++ (b ++ c))%string.
Proof.
  induction a as [|x a IH]; cbn; [reflexivity|now rewrite IH].
Qed.

Lemma string_app_length (a b : string) :
  String.length (a ++ b)%string = (String.length a + String.length b)%nat.
Proof.
  induction a as [|x a IH]; cbn; [reflexivity|now rewrite IH].
Qed.

(** [upper] goes through a stable prefix without changing it. *)
Lemma stable_upper_app (n : nat) :
  forall t, (String.length t <= n)%nat -> Py.stable t = true ->
  forall r, Py.upper (t ++ r)%string = (t ++ Py.upper r)%string.
Proof.
  induction n as [|n IH]; intros t Hlen Hst r.
  - destruct t; [reflexivity|cbn in Hlen; lia].
  - destruct t as [|c t]; [reflexivity|].
    cbn [String.length] in Hlen. cbn [Py.stable] in Hst.
    cbn [append].
    destruct (width_cases c) as [Hw|[Hw|[Hw|Hw]]]; rewrite Hw in Hst.
    + apply andb_true_iff in Hst as [Hc Hst]. apply Ascii.eqb_eq in Hc.
      rewrite (upper_1 _ _ Hw), Hc, (IH t); [reflexivity|lia|exact Hst].
    + destruct t as [|c2 t]; [discriminate|]. cbn [append].
      destruct (Py.lookup Py.upper_table (String c (String c2 EmptyString)))
        eqn:Hl; [discriminate|].
      rewrite (upper_2 _ _ _ Hw). unfold Py.upper_unit. rewrite Hl.
      cbn [String.length] in Hlen. rewrite (IH t); [reflexivity|lia|exact Hst].
    + destruct t as [|c2 [|c3 t]]; try discriminate. cbn [append].
      destruct (Py.lookup Py.upper_table
                  (String c (String c2 (String c3 EmptyString))))
        eqn:Hl; [discriminate|].
      rewrite (upper_3 _ _ _ _ Hw). unfold Py.upper_unit. rewrite Hl.
      cbn [String.length] in Hlen. rewrite (IH t); [reflexivity|lia|exact Hst].
    + destruct t as [|c2 [|c3 [|c4 t]]]; try discriminate. cbn [append].
      destruct (Py.lookup Py.upper_table
                  (String c (String c2 (String c3 (String c4 EmptyString)))))
        eqn:Hl; [discriminate|].
      rewrite (upper_4 _ _ _ _ _ Hw). unfold Py.upper_unit. rewrite Hl.
      cbn [String.length] in Hlen. rewrite (IH t); [reflexivity|lia|exact Hst].
Qed.

Lemma lookup_In (tbl : list (string * string)) (k v : string) :
  Py.lookup tbl k = Some v -> exists k', In (k', v) tbl.
Proof.
  induction tbl as [|[k' v'] tbl IH]; cbn; [discriminate|].
  destruct (String.eqb k' k).
  - intros [= <-]. exists k'. now left.
  - intros H. destruct (IH H) as (k'' & Hin). exists k''. now right.
Qed.

(** What the table maps to is made of characters that do not change, and
    is never empty. *)
Lemma upper_table_stable :
  forallb (fun e => Py.stable (snd e)
                    && negb (String.eqb (snd e) EmptyString))
    Py.upper_table = true.
Proof.
  vm_compute. reflexivity.
Qed.

Lemma lookup_stable (k v : string) :
  Py.lookup Py.upper_table k = Some v ->
  Py.stable v = true /\ v <> EmptyString.
Proof.
  intros H. destruct (lookup_In _ _ _ H) as (k' & Hin).
  pose proof (proj1 (forallb_forall _ _) upper_table_stable (k', v) Hin) as Hs.
  cbn [snd] in Hs. apply andb_true_iff in Hs as [Hs Hne]. split; [exact Hs|].
  intros ->. discriminate Hne.
Qed.

Lemma upper_unit_stable (u : string) :
  Py.lookup Py.upper_table u = None -> Py.stable u = true ->
  Py.stable (Py.upper_unit u) = true.
Proof.
  intros Hl Hs. unfold Py.upper_unit. now rewrite Hl.
Qed.

Lemma upper_unit_stable_2 (c c2 : ascii) :
  Py.width c = 2%nat ->
  Py.stable (Py.upper_unit (String c (String c2 EmptyString))) = true.
Proof.
  intros Hw. unfold Py.upper_unit.
  destruct (Py.lookup Py.upper_table (String c (String c2 EmptyString)))
    as [t|] eqn:Hl; [apply (lookup_stable _ _ Hl)|].
  cbn [Py.stable]. now rewrite Hw, Hl.
Qed.

Lemma upper_unit_stable_3 (c c2 c3 : ascii) :
  Py.width c = 3%nat ->
  Py.stable (Py.upper_unit (String c (String c2 (String c3 EmptyString))))
  = true.
Proof.
  intros Hw. unfold Py.upper_unit.
  destruct (Py.lookup Py.upper_table
              (String c (String c2 (String c3 EmptyString))))
    as [t|] eqn:Hl; [apply (lookup_stable _ _ Hl)|].
  cbn [Py.stable]. now rewrite Hw, Hl.
Qed.

Lemma upper_unit_stable_4 (c c2 c3 c4 : ascii) :
  Py.width c = 4%nat ->
  Py.stable
    (Py.upper_unit (String c (String c2 (String c3 (String c4 EmptyString)))))
  = true.
Proof.
  intros Hw. unfold Py.upper_unit.
  destruct (Py.lookup Py.upper_table
              (String c (String c2 (String c3 (String c4 EmptyString)))))
    as [t|] eqn:Hl; [apply (lookup_stable _ _ Hl)|].
  cbn [Py.stable]. now rewrite Hw, Hl.
Qed.

Lemma upper_unit_nonempty (c : ascii) (u : string) :
  Py.upper_unit (String c u) <> EmptyString.
Proof.
  unfold Py.upper_unit.
  destruct (Py.lookup Py.upper_table (String c u)) as [t|] eqn:Hl;
    [apply (lookup_stable _ _ Hl)|discriminate].
Qed.

Lemma upper_idem_bounded (n : nat) :
  forall s, (String.length s <= n)%nat ->
            Py.upper (Py.upper s) = Py.upper s.
Proof.
  induction n as [|n IH]; intros s Hlen.
  - destruct s; [reflexivity|cbn in Hlen; lia].
  - destruct s as [|c s]; [reflexivity|]. cbn [String.length] in Hlen.
    destruct (width_cases c) as [Hw|[Hw|[Hw|Hw]]].
    + rewrite (upper_1 _ _ Hw), (upper_1 _ _ (width_upper_char _ Hw)).
      rewrite upper_char_idem, (IH s); [reflexivity|lia].
    + destruct s as [|c2 s].
      * now rewrite !(upper_cut c EmptyString) by auto.
      * cbn [String.length] in Hlen. rewrite (upper_2 _ _ _ Hw).
        rewrite (stable_upper_app _ _ (Nat.le_refl _)
                   (upper_unit_stable_2 c c2 Hw)).
        rewrite (IH s); [reflexivity|lia].
    + destruct s as [|c2 [|c3 s]].
      * now rewrite !(upper_cut c EmptyString)
          by (right; left; split; [exact Hw|cbn; lia]).
      * now rewrite !(upper_cut c (String c2 EmptyString))
          by (right; left; split; [exact Hw|cbn; lia]).
      * cbn [String.length] in Hlen. rewrite (upper_3 _ _ _ _ Hw).
        rewrite (stable_upper_app _ _ (Nat.le_refl _)
                   (upper_unit_stable_3 c c2 c3 Hw)).
        rewrite (IH s); [reflexivity|lia].
    + destruct s as [|c2 [|c3 [|c4 s]]].
      * now rewrite !(upper_cut c EmptyString)
          by (right; right; split; [exact Hw|cbn; lia]).
      * now rewrite !(upper_cut c (String c2 EmptyString))
          by (right; right; split; [exact Hw|cbn; lia]).
      * now rewrite !(upper_cut c (String c2 (String c3 EmptyString)))
          by (right; right; split; [exact Hw|cbn; lia]).
      * cbn [String.length] in Hlen. rewrite (upper_4 _ _ _ _ _ Hw).
        rewrite (stable_upper_app _ _ (Nat.le_refl _)
                   (upper_unit_stable_4 c c2 c3 c4 Hw)).
        rewrite (IH s); [reflexivity|lia].
Qed.

Lemma upper_idem (s : string) : Py.upper (Py.upper s) = Py.upper s.
Proof.
  exact (upper_idem_bounded _ s (Nat.le_refl _)).
Qed.

Lemma string_app_nil (a b : string) :
  (a ++ b)%string = EmptyString -> a = EmptyString.
Proof.
  destruct a; [reflexivity|discriminate].
Qed.

(** [str.upper] beyond ASCII: a character may become two, and accents are
    kept. *)
Lemma upper_examples :
  Py.upper "save10" = "SAVE10"
  /\ Py.upper "straße" = "STRASSE"
  /\ Py.upper "é10" = "É10"
  /\ Py.len "crème-brûlée-dessert-kit" = 24%nat.
Proof.
  split; [|split; [|split]]; vm_compute; reflexivity.
Qed.

Lemma upper_empty (s : string) : Py.upper s = EmptyString -> s = EmptyString.
Proof.
  destruct s as [|c s]; [reflexivity|]. intros H. exfalso.
  destruct (width_cases c) as [Hw|[Hw|[Hw|Hw]]].
  - rewrite (upper_1 _ _ Hw) in H. discriminate.
  - destruct s as [|c2 s]; [now rewrite upper_cut in H by auto|].
    rewrite (upper_2 _ _ _ Hw) in H.
    now apply string_app_nil, upper_unit_nonempty in H.
  - destruct s as [|c2 [|c3 s]];
      try (rewrite upper_cut in H
             by (right; left; split; [exact Hw|cbn; lia]);
           discriminate).
    rewrite (upper_3 _ _ _ _ Hw) in H.
    now apply string_app_nil, upper_unit_nonempty in H.
  - destruct s as [|c2 [|c3 [|c4 s]]];
      try (rewrite upper_cut in H
             by (right; right; split; [exact Hw|cbn; lia]);
           discriminate).
    rewrite (upper_4 _ _ _ _ _ Hw) in H.
    now apply string_app_nil, upper_unit_nonempty in H.
Qed.

(** X5.  The coupon code is case-insensitive for every code: a checkout
    with any spelling of a code has the outcome (store and response) of the
    checkout with the upper-cased code. *)
Lemma create_order_upper (env : Env.t) (d : Db.t) (user_id : option string)
  (items : list CartItem.t) (address : Address.t) (code : string) :
  create_order env (CheckoutBody.mk user_id items address (Some code)) d
  = create_order env
      (CheckoutBody.mk user_id items address (Some (Py.upper code))) d.
Proof.
  unfold create_order, bind; cbn [CheckoutBody.items CheckoutBody.coupon].
  destruct (price_items items 0%float [] d) as [d' [e|r]]; [reflexivity|].
  rewrite !apply_coupon_eq. unfold coupon_rule, couponLookup.
  rewrite upper_idem.
  assert (Htruthy : Py.truthy_str (Some (Py.upper code))
                    = Py.truthy_str (Some code)).
  { destruct code as [|c code]; [reflexivity|].
    destruct (Py.upper (String c code)) eqn:Hup; [|reflexivity].
    apply upper_empty in Hup. discriminate Hup. }
  now rewrite Htruthy.
Qed.

(** C7.  The coupon code is matched through its upper-case form: when a
    coupon is stored under "SAVE10", supplying "save10", "Save10" or "SAVE10"
    looks up that coupon, and the three checkouts have one and the same
    outcome (store and response): when the minimum order of the coupon is met
    its discount is applied and "SAVE10" is recorded, and otherwise no coupon
    is recorded and the amount is the rounded subtotal. *)
Theorem coupon_code_case_insensitive
  (env : Env.t) (d : Db.t) (user_id : option string)
  (items : list CartItem.t) (address : Address.t)
  (c : Coupon.t) (ois : list OrderItem.t) (code : string) :
  Db.find_coupon (Db.coupon d) "SAVE10" = Some c ->
  resolved d items ois ->
  In code ["save10"; "Save10"; "SAVE10"] ->
  let checkout code :=
    create_order env (CheckoutBody.mk user_id items address (Some code)) d in
  exists o,
    checkout code
    = (Db.insert_order d (Env.inserted_id env) o, inr (response_of env o))
    /\ checkout code = checkout "SAVE10"
    /\ couponLookup d code = Some c
    /\ Coupon.code c = "SAVE10"
    /\ if PrimFloat.leb (threshold c) (subtotal ois)
       then Order.coupon o = Some "SAVE10"
            /\ Order.amount o = Py.round2 (discounted c (subtotal ois))
       else Order.coupon o = None
            /\ Order.amount o = Py.round2 (subtotal ois).
Proof.
  intros Hstored Hres Hcode checkout.
  assert (Hlook : couponLookup d code = Some c).
  { unfold couponLookup.
    destruct Hcode as [<-|[<-|[<-|[]]]]; exact Hstored. }
  assert (Hrule : coupon_rule d (Some code) (subtotal ois)
                  = coupon_rule d (Some "SAVE10") (subtotal ois)).
  { unfold coupon_rule. rewrite Hlook. unfold couponLookup.
    change (Py.upper "SAVE10") with "SAVE10". rewrite Hstored.
    destruct Hcode as [<-|[<-|[<-|[]]]]; reflexivity. }
  assert (Hrun : forall code',
             coupon_rule d (Some code') (subtotal ois)
             = coupon_rule d (Some "SAVE10") (subtotal ois) ->
             checkout code'
             = (Db.insert_order d (Env.inserted_id env)
                  (order_of env
                     (CheckoutBody.mk user_id items address (Some "SAVE10"))
                     ois (coupon_rule d (Some "SAVE10") (subtotal ois))),
                inr (response_of env
                       (order_of env
                          (CheckoutBody.mk user_id items address (Some "SAVE10"))
                          ois (coupon_rule d (Some "SAVE10") (subtotal ois)))))).
  { intros code' Hcode'. unfold checkout.
    rewrite (create_order_ok env
               (CheckoutBody.mk user_id items address (Some code')) d ois Hres).
    cbn [CheckoutBody.coupon]. rewrite Hcode'. reflexivity. }
  eexists. split; [exact (Hrun code Hrule)|].
  split; [now rewrite (Hrun code Hrule), (Hrun "SAVE10" eq_refl)|].
  split; [exact Hlook|].
  destruct (find_coupon_Some _ _ _ Hstored) as (_ & Hc & _).
  split; [exact Hc|].
  cbn [Order.coupon Order.amount order_of]. unfold coupon_rule, couponLookup.
  change (Py.upper "SAVE10") with "SAVE10". rewrite Hstored.
  change (Py.truthy_str (Some "SAVE10")) with true. cbn iota.
  destruct (PrimFloat.leb (threshold c) (subtotal ois)); cbn [fst snd];
    rewrite ?Hc; split; reflexivity.
Qed.

Lemma coupon_code_case_insensitive_witness :
  exists o,
    create_order Fixture.env (Fixture.body Fixture.cart (Some "Save10"))
      Fixture.db
    = (Db.insert_order Fixture.db (Env.inserted_id Fixture.env) o,
       inr (response_of Fixture.env o))
    /\ create_order Fixture.env (Fixture.body Fixture.cart (Some "Save10"))
         Fixture.db
       = create_order Fixture.env (Fixture.body Fixture.cart (Some "SAVE10"))
           Fixture.db
    /\ Order.coupon o = Some "SAVE10"
    /\ Order.amount o = 117%float.
Proof.
  destruct (coupon_code_case_insensitive Fixture.env Fixture.db None
              Fixture.cart Fixture.address Fixture.save10
              [OrderItem.mk Fixture.idA "Product A" 50 2
                 (Some "https://img/a.png");
               OrderItem.mk Fixture.idB "Product B" 30 1 None]
              "Save10")
    as (o & Hrun & Hsame & _ & _ & Happlied).
  - reflexivity.
  - repeat constructor.
  - right. left. reflexivity.
  - exists o. split; [exact Hrun|]. split; [exact Hsame|].
    change (PrimFloat.leb (threshold Fixture.save10)
              (subtotal
                 [OrderItem.mk Fixture.idA "Product A" 50 2
                    (Some "https://img/a.png");
                  OrderItem.mk Fixture.idB "Product B" 30 1 None]))
      with true in Happlied.
    destruct Happlied as [Hc Ha]. split; [exact Hc|].
    rewrite Ha. vm_compute. reflexivity.
Defined.

(** ** The unit price *)

(** What the price expression computes: the sale price when it is present
    and is not zero, the list price otherwise. *)
Lemma unit_price_rule (prod : Product.t) :
  unit_price prod =
  match Product.sale_price prod with
  | Some s => if Py.truthy s then Py.float_ s else Py.float_ (Product.price prod)
  | None => Py.float_ (Product.price prod)
  end.
Proof.
  unfold unit_price, Py.or_.
  destruct (Product.sale_price prod) as [s|]; [|reflexivity].
  destruct (Py.truthy s); reflexivity.
Qed.

(** C3, on the code.  A product whose sale price is present and equal to 0
    is priced at its list price: the line of the stored order carries 50.0
    and the amount is 50.0, where the sale price says 0.0. *)
Theorem zero_sale_price_is_ignored :
  Product.sale_price Fixture.productFree = Some (Py.Float 0)
  /\ Product.price Fixture.productFree = Py.Float 50
  /\ unit_price Fixture.productFree = inr 50%float
  /\ exists o,
       create_order Fixture.env
         (Fixture.body [CartItem.mk Fixture.idFree 1] None) Fixture.db
       = (Db.insert_order Fixture.db (Env.inserted_id Fixture.env) o,
          inr (response_of Fixture.env o))
       /\ map OrderItem.price (Order.items o) = [50%float]
       /\ Order.amount o = 50%float.
Proof.
  repeat split; try reflexivity.
  exists (order_of Fixture.env
            (Fixture.body [CartItem.mk Fixture.idFree 1] None)
            [OrderItem.mk Fixture.idFree "Giveaway" 50 1 None]
            (50%float, None)).
  split; [vm_compute; reflexivity|]. split; reflexivity.
Qed.

(** ** Sign of the amount *)

(** C4, on the code.  The request model of the handler accepts any integer
    quantity; with a quantity of -1 and no coupon the checkout succeeds and
    stores an amount of -50.0, which is below zero. *)
Theorem negative_quantity_negative_amount :
  exists o,
    create_order Fixture.env
      (Fixture.body [CartItem.mk Fixture.idA (-1)] None) Fixture.db
    = (Db.insert_order Fixture.db (Env.inserted_id Fixture.env) o,
       inr (response_of Fixture.env o))
    /\ Order.amount o = (-50)%float
    /\ PrimFloat.leb 0 (Order.amount o) = false.
Proof.
  exists (order_of Fixture.env
            (Fixture.body [CartItem.mk Fixture.idA (-1)] None)
            [OrderItem.mk Fixture.idA "Product A" 50 (-1)
               (Some "https://img/a.png")]
            ((-50)%float, None)).
  split; [vm_compute; reflexivity|]. split; reflexivity.
Qed.


(** ** Signs of binary64 results

    The rounding functions of the binary64 specification never turn a
    non-negative mantissa into a negative number or a NaN. *)

Section FloatSign.

Local Open Scope Z_scope.

Lemma shr_1_nonneg mrs : 0 <= shr_m mrs -> 0 <= shr_m (shr_1 mrs).
Proof.
  destruct mrs as [m r s]; cbn [shr_m]. intros H.
  destruct m as [|p|p]; [cbn; lia| |lia].
  destruct p; cbn; lia.
Qed.

Lemma iter_pos_shr_1_nonneg p : forall mrs,
  0 <= shr_m mrs -> 0 <= shr_m (iter_pos shr_1 p mrs).
Proof.
  induction p as [p IH|p IH|]; intros mrs H; cbn.
  - apply IH, IH, shr_1_nonneg, H.
  - apply IH, IH, H.
  - apply shr_1_nonneg, H.
Qed.

Lemma shr_nonneg mrs e n : 0 <= shr_m mrs -> 0 <= shr_m (fst (shr mrs e n)).
Proof.
  intros H. unfold shr. destruct n; cbn; auto using iter_pos_shr_1_nonneg.
Qed.

Lemma shr_fexp_nonneg m e l :
  0 <= m -> 0 <= shr_m (fst (shr_fexp prec emax m e l)).
Proof.
  intros H. unfold shr_fexp. apply shr_nonneg. destruct l as [|[]]; exact H.
Qed.

Lemma round_nearest_even_nonneg m l : 0 <= m -> 0 <= round_nearest_even m l.
Proof.
  intros H. unfold round_nearest_even. destruct l as [|[]]; try lia.
  destruct (Z.even m); lia.
Qed.

Lemma binary_round_aux_ge0 m e l :
  0 <= m -> sf_ge0 (binary_round_aux prec emax false m e l) = true.
Proof.
  intros H. unfold binary_round_aux.
  pose proof (shr_fexp_nonneg m e l H) as H1.
  destruct (shr_fexp prec emax m e l) as [mrs' e']. cbn [fst] in H1.
  pose proof (shr_fexp_nonneg _ e' loc_Exact
                (round_nearest_even_nonneg _ (loc_of_shr_record mrs') H1)) as H2.
  destruct (shr_fexp prec emax (round_nearest_even (shr_m mrs') (loc_of_shr_record mrs')) e' loc_Exact) as [mrs'' e''].
  cbn [fst] in H2.
  destruct (shr_m mrs'') as [|p|p]; [reflexivity| |lia].
  destruct (e'' <=? emax - prec); reflexivity.
Qed.

Lemma binary_round_ge0 m e : sf_ge0 (binary_round prec emax false m e) = true.
Proof.
  unfold binary_round.
  destruct (shl_align m e _) as [mz ez]. apply binary_round_aux_ge0. lia.
Qed.

Lemma binary_normalize_ge0 m e : 0 <= m -> sf_ge0 (binary_normalize prec emax m e false) = true.
Proof.
  intros H. unfold binary_normalize. destruct m; [reflexivity| |lia].
  apply binary_round_ge0.
Qed.

Lemma sf_ge0_cases x : sf_ge0 x = true ->
  (exists s, x = S754_zero s) \/ (exists m e, x = S754_finite false m e) \/ x = S754_infinity false.
Proof.
  destruct x as [s|[]| |[] m e]; cbn; try discriminate; eauto.
Qed.

Lemma SF2Prim_ge0 x : sf_ge0 x = true -> PrimFloat.leb 0 (SF2Prim x) = true.
Proof.
  intros H. destruct (sf_ge0_cases x H) as [[s ->]|[(m & e & ->)| ->]].
  - destruct s; reflexivity.
  - cbn [SF2Prim]. rewrite leb_spec. unfold Z.ldexp.
    rewrite ldshiftexp_spec, of_uint63_spec.
    pose proof (binary_normalize_ge0 (Uint63.to_Z (Uint63.of_Z (Z.pos m))) 0 (proj1 (Uint63.to_Z_bounded _))) as Hn.
    destruct (sf_ge0_cases _ Hn) as [[s ->]|[(m' & e' & ->)| ->]].
    + destruct s; reflexivity.
    + cbn [SFldexp]. apply binary_round_ge0.
    + reflexivity.
  - reflexivity.
Qed.

Lemma Prim2SF_ge0 (x : float) :
  PrimFloat.leb 0 x = true <-> sf_ge0 (Prim2SF x) = true.
Proof.
  rewrite leb_spec. reflexivity.
Qed.

Lemma nearest_float_ge0 (z : Z) :
  0 <= z -> PrimFloat.leb 0 (Py.nearest_float z) = true.
Proof.
  intros H. apply SF2Prim_ge0, binary_normalize_ge0, H.
Qed.

Lemma round2_ge0 (x : float) :
  PrimFloat.leb 0 x = true -> PrimFloat.leb 0 (Py.round2 x) = true.
Proof.
  intros H. unfold Py.round2.
  destruct (Prim2SF x) as [| | |s m e] eqn:E; try exact H.
  destruct (0 <=? e); [exact H|].
  apply Prim2SF_ge0 in H. rewrite E in H. destruct s; [discriminate H|].
  apply SF2Prim_ge0. unfold Py.hundredths.
  destruct (Py.round_half_even (Z.pos m * 100) (2 ^ (- e))) as [|n|n];
    try reflexivity.
  apply binary_normalize_ge0.
  assert (0 <= Z.shiftl (Z.pos n) 64 / 100).
  { apply Z.div_pos; [|lia]. apply Z.shiftl_nonneg. lia. }
  destruct (Z.shiftl (Z.pos n) 64 mod 100 =? 0); lia.
Qed.

Lemma add_ge0 (a b : float) :
  PrimFloat.leb 0 a = true -> PrimFloat.leb 0 b = true ->
  PrimFloat.leb 0 (a + b) = true.
Proof.
  rewrite !Prim2SF_ge0, add_spec. intros Ha Hb.
  destruct (sf_ge0_cases _ Ha) as [[s ->]|[(m & e & ->)| ->]];
    destruct (sf_ge0_cases _ Hb) as [[s' ->]|[(m' & e' & ->)| ->]];
    try reflexivity.
  - destruct s, s'; reflexivity.
  - cbn [SFadd cond_Zopp]. apply binary_normalize_ge0. unfold cond_Zopp. lia.
Qed.

Lemma is_infinity_false (x : float) :
  PrimFloat.is_infinity x = false -> Prim2SF x <> S754_infinity false.
Proof.
  unfold PrimFloat.is_infinity. rewrite eqb_spec, abs_spec. intros H E.
  rewrite E in H. discriminate H.
Qed.

Lemma mul_ge0 (a b : float) :
  PrimFloat.leb 0 a = true -> PrimFloat.is_infinity a = false ->
  PrimFloat.leb 0 b = true -> PrimFloat.is_infinity b = false ->
  PrimFloat.leb 0 (a * b) = true.
Proof.
  intros Ha Fa Hb Fb. apply is_infinity_false in Fa, Fb.
  apply Prim2SF_ge0 in Ha, Hb. apply Prim2SF_ge0. rewrite mul_spec.
  destruct (sf_ge0_cases _ Ha) as [[s Ea]|[(m & e & Ea)| Ea]];
    destruct (sf_ge0_cases _ Hb) as [[s' Eb]|[(m' & e' & Eb)| Eb]];
    try contradiction; rewrite Ea, Eb; try reflexivity.
  cbn [SFmul xorb]. apply binary_round_aux_ge0. lia.
Qed.

End FloatSign.

(** The clamp of the two discount formulas: a discounted total is never
    below zero (and never NaN). *)
Lemma max_zero_nonneg (x : float) : PrimFloat.leb 0 (Py.max 0 x) = true.
Proof.
  unfold Py.max. destruct (PrimFloat.ltb 0 x) eqn:Hlt; [|reflexivity].
  rewrite leb_spec. rewrite ltb_spec in Hlt. unfold SFleb, SFltb in *.
  destruct (SFcompare (Prim2SF 0) (Prim2SF x)) as [[]|];
    try discriminate; reflexivity.
Qed.

Lemma discounted_nonneg (c : Coupon.t) (total : float) :
  PrimFloat.leb 0 (discounted c total) = true.
Proof.
  unfold discounted.
  destruct (String.eqb (Coupon.type c) "percent"); apply max_zero_nonneg.
Qed.

(** A resolved line keeps the requested quantity, which is a representable
    number. *)
Lemma resolve_quantity (d : Db.t) (it : CartItem.t) (oi : OrderItem.t) :
  resolve d it = inr oi ->
  OrderItem.quantity oi = CartItem.quantity it
  /\ PrimFloat.is_infinity (Py.nearest_float (OrderItem.quantity oi)) = false.
Proof.
  unfold resolve, Py.int_to_float.
  destruct (ObjectId.of_str (CartItem.product_id it)) as [id|]; [|discriminate].
  destruct (Db.find_product (Db.product d) id) as [prod|]; [|discriminate].
  destruct (unit_price prod); [discriminate|].
  destruct (PrimFloat.is_infinity (Py.nearest_float (CartItem.quantity it)))
    eqn:Hinf; [discriminate|].
  intros [= <-]. cbn [OrderItem.quantity]. auto.
Qed.

Lemma line_total_ge0 (oi : OrderItem.t) :
  valid_line oi ->
  PrimFloat.is_infinity (Py.nearest_float (OrderItem.quantity oi)) = false ->
  PrimFloat.leb 0 (line_total oi) = true.
Proof.
  intros (Hp & Hfin & Hq) Hqfin. unfold line_total.
  apply mul_ge0; auto using nearest_float_ge0.
Qed.

Lemma sum_from_ge0 (d : Db.t) (its : list CartItem.t) (ois : list OrderItem.t) :
  resolved d its ois ->
  Forall valid_line ois ->
  forall acc, PrimFloat.leb 0 acc = true ->
    PrimFloat.leb 0 (sum_from acc ois) = true.
Proof.
  induction 1 as [|it oi its ois Hit _ IH]; intros Hv acc Hacc; [exact Hacc|].
  inversion Hv as [|? ? Hoi Hrest]; subst. cbn. apply IH; [exact Hrest|].
  apply add_ge0; [exact Hacc|].
  apply line_total_ge0; [exact Hoi|]. apply (resolve_quantity d it oi Hit).
Qed.

(** X4.  On lines with finite prices and with quantities at or above zero
    the amount of a checkout is at or above zero, with or without a coupon;
    and whenever a coupon is applied the amount is at or above zero whatever
    the lines are. *)
Lemma amount_nonneg (env : Env.t) (body : CheckoutBody.t) (d : Db.t)
  (ois : list OrderItem.t) :
  resolved d (CheckoutBody.items body) ois ->
  exists o,
    create_order env body d
    = (Db.insert_order d (Env.inserted_id env) o, inr (response_of env o))
    /\ (Forall valid_line ois -> PrimFloat.leb 0 (Order.amount o) = true)
    /\ (Order.coupon o <> None -> PrimFloat.leb 0 (Order.amount o) = true).
Proof.
  intros Hres.
  eexists; split; [exact (create_order_ok env body d ois Hres)|].
  cbn [Order.coupon Order.amount order_of].
  assert (Hsub : Forall valid_line ois ->
                 PrimFloat.leb 0 (subtotal ois) = true).
  { intros Hv. now apply (sum_from_ge0 d _ _ Hres Hv). }
  unfold coupon_rule.
  destruct (CheckoutBody.coupon body) as [code|]; cbn [fst snd];
    [|split; [intros; apply round2_ge0; auto | congruence]].
  destruct (Py.truthy_str (Some code)); cbn [fst snd];
    [|split; [intros; apply round2_ge0; auto | congruence]].
  destruct (couponLookup d code) as [c|]; cbn [fst snd];
    [|split; [intros; apply round2_ge0; auto | congruence]].
  destruct (PrimFloat.leb (threshold c) (subtotal ois)); cbn [fst snd];
    [|split; [intros; apply round2_ge0; auto | congruence]].
  split; intros _; apply round2_ge0, discounted_nonneg.
Qed.

(** ** Scenarios of the specification, run on the fixture store *)

(** The outcome of a checkout by its observable parts: the exception, or
    the answered amount with the coupon and the unit prices stored. *)
Lemma scenario_flat_below_minimum :
  let '(d, r) :=
    create_order Fixture.env
      (Fixture.body [CartItem.mk Fixture.idA 1] (Some "FLAT20")) Fixture.db in
  option_map amount (match r with inr resp => Some resp | inl _ => None end)
  = Some 50%float
  /\ map (fun o => Order.coupon (snd o)) (Db.order d) = [None].
Proof.
  vm_compute. split; reflexivity.
Qed.

Lemma scenario_code_spellings :
  forall code, In code ["save10"; "Save10"; "SAVE10"] ->
    let '(d, r) :=
      create_order Fixture.env (Fixture.body Fixture.cart (Some code))
        Fixture.db in
    option_map amount (match r with inr resp => Some resp | inl _ => None end)
    = Some 117%float
    /\ map (fun o => Order.coupon (snd o)) (Db.order d) = [Some "SAVE10"].
Proof.
  intros code [<-|[<-|[<-|[]]]]; vm_compute; split; reflexivity.
Qed.

Lemma scenario_clamped_to_zero :
  let '(d, r) :=
    create_order Fixture.env (Fixture.body Fixture.cart (Some "big"))
      Fixture.db in
  option_map amount (match r with inr resp => Some resp | inl _ => None end)
  = Some 0%float
  /\ map (fun o => Order.coupon (snd o)) (Db.order d) = [Some "BIG"].
Proof.
  vm_compute. split; reflexivity.
Qed.

Lemma scenario_missing_product :
  create_order Fixture.env
    (Fixture.body [CartItem.mk Fixture.idMissing 1] None) Fixture.db
  = (Fixture.db, inl ProductNotFound).
Proof.
  vm_compute. reflexivity.
Qed.

(** ** More on [create_order] *)

Lemma create_order_raise_no_write_witness :
  snd (create_order Fixture.env
         (Fixture.body [CartItem.mk Fixture.idA 1; CartItem.mk "xyz" 1] None)
         Fixture.db)
  = inl (Py.HTTPException 400 "Invalid ID")
  /\ fst (create_order Fixture.env
            (Fixture.body [CartItem.mk Fixture.idA 1; CartItem.mk "xyz" 1] None)
            Fixture.db)
     = Fixture.db.
Proof.
  split; [vm_compute; reflexivity|].
  apply (create_order_raise_no_write _ _ _ (Py.HTTPException 400 "Invalid ID")).
  vm_compute. reflexivity.
Defined.

(** A checkout that answers has resolved every request, stored the order
    built from the lines and answered for it. *)
Lemma create_order_inv (env : Env.t) (body : CheckoutBody.t) (d d' : Db.t)
  (resp : Response) :
  create_order env body d = (d', inr resp) ->
  exists ois,
    resolved d (CheckoutBody.items body) ois
    /\ let o := order_of env body ois
                  (coupon_rule d (CheckoutBody.coupon body) (subtotal ois)) in
       d' = Db.insert_order d (Env.inserted_id env) o
       /\ resp = response_of env o.
Proof.
  intros Hrun.
  destruct (price_items_inv d (CheckoutBody.items body) 0%float []) as [Hd Hr].
  unfold create_order, bind in Hrun.
  destruct (price_items (CheckoutBody.items body) 0%float [] d) as [d0 [e|r]];
    cbn in Hd; subst d0; [discriminate|].
  destruct (Hr r eq_refl) as (new & Hnew & ->). cbn [app fst snd] in Hrun.
  exists new. split; [exact Hnew|].
  pose proof (create_order_ok env body d new Hnew) as Hok. cbn zeta in Hok.
  unfold create_order, bind in Hok.
  rewrite (price_items_ok d _ _ Hnew 0%float []) in Hok. cbn [app fst snd] in Hok.
  rewrite Hok in Hrun. injection Hrun as <- <-. split; reflexivity.
Qed.

(** X1.  The checkout is fail-fast: when the requests before an item have
    resolved and the item does not, the call raises the error of that item
    and leaves the store as it was, whatever comes after the item. *)
Theorem create_order_first_failure
  (env : Env.t) (body : CheckoutBody.t) (d : Db.t)
  (pre : list CartItem.t) (ois : list OrderItem.t)
  (it : CartItem.t) (post : list CartItem.t) (e : Py.exn) :
  CheckoutBody.items body = pre ++ it :: post ->
  resolved d pre ois ->
  resolve d it = inl e ->
  create_order env body d = (d, inl e).
Proof.
  intros Hitems Hpre Hfail. unfold create_order, bind. rewrite Hitems.
  now rewrite (price_items_fail d pre ois it post e Hpre Hfail).
Qed.

Lemma create_order_first_failure_witness :
  create_order Fixture.env
    (Fixture.body [CartItem.mk Fixture.idA 1;
                   CartItem.mk Fixture.idB (2 ^ 1024);
                   CartItem.mk Fixture.idMissing 1] None)
    Fixture.db
  = (Fixture.db, inl Py.OverflowError).
Proof.
  eapply (create_order_first_failure _ _ _ [CartItem.mk Fixture.idA 1] _
            (CartItem.mk Fixture.idB (2 ^ 1024))
            [CartItem.mk Fixture.idMissing 1]).
  - reflexivity.
  - constructor; [vm_compute; reflexivity | constructor].
  - vm_compute. reflexivity.
Defined.

(** X3.  A checkout that answers has appended exactly one order, under the
    identifier the driver drew, and has touched neither the products nor the
    coupons; the order is pending, in INR, for razorpay, under the payment
    order id "order_" followed by the random characters, for the user of the
    request or "guest", and the response repeats its identifier, payment
    order id, amount and currency. *)
Theorem create_order_writes_one_order
  (env : Env.t) (body : CheckoutBody.t) (d d' : Db.t) (resp : Response) :
  create_order env body d = (d', inr resp) ->
  Db.product d' = Db.product d
  /\ Db.coupon d' = Db.coupon d
  /\ exists o,
       Db.order d' = Db.order d ++ [(Env.inserted_id env, o)]
       /\ Order.status o = "pending"
       /\ Order.currency o = "INR"
       /\ Order.payment_provider o = "razorpay"
       /\ Order.payment_order_id o = ("order_" ++ Env.choices env)%string
       /\ Order.address o = CheckoutBody.address body
       /\ Order.created_at o = Env.now_created env
       /\ Order.updated_at o = Env.now_updated env
       /\ (Order.user_id o = "guest" \/
           CheckoutBody.user_id body = Some (Order.user_id o))
       /\ resp = mkResponse (ObjectId.to_str (Env.inserted_id env))
                   (Order.payment_order_id o) (Order.amount o) "INR".
Proof.
  intros Hrun. destruct (create_order_inv _ _ _ _ _ Hrun) as (ois & _ & -> & ->).
  split; [reflexivity|]. split; [reflexivity|].
  eexists. split; [reflexivity|]. do 7 (split; [reflexivity|]).
  split; [|reflexivity]. unfold order_of. cbn [Order.user_id].
  destruct (CheckoutBody.user_id body) as [[|c u]|]; cbn; auto.
Qed.

Lemma create_order_writes_one_order_witness :
  exists o,
    Db.order (fst (create_order Fixture.env
                     (Fixture.body Fixture.cart None) Fixture.db))
    = [(Env.inserted_id Fixture.env, o)]
    /\ Order.status o = "pending"
    /\ Order.user_id o = "guest".
Proof.
  destruct (create_order_writes_one_order Fixture.env
              (Fixture.body Fixture.cart None) Fixture.db
              (fst (create_order Fixture.env
                      (Fixture.body Fixture.cart None) Fixture.db))
              (response_of Fixture.env
                 (order_of Fixture.env (Fixture.body Fixture.cart None)
                    [OrderItem.mk Fixture.idA "Product A" 50 2
                       (Some "https://img/a.png");
                     OrderItem.mk Fixture.idB "Product B" 30 1 None]
                    (130%float, None))))
    as (_ & _ & o & Ho & Hs & _ & _ & _ & _ & _ & _ & Hu & _).
  - vm_compute. reflexivity.
  - exists o. split; [exact Ho|]. split; [exact Hs|].
    destruct Hu as [Hu|Hu]; [exact Hu|discriminate Hu].
Defined.

Lemma amount_nonneg_witness :
  exists o,
    create_order Fixture.env (Fixture.body Fixture.cart (Some "big")) Fixture.db
    = (Db.insert_order Fixture.db (Env.inserted_id Fixture.env) o,
       inr (response_of Fixture.env o))
    /\ PrimFloat.leb 0 (Order.amount o) = true.
Proof.
  destruct (amount_nonneg Fixture.env
              (Fixture.body Fixture.cart (Some "big")) Fixture.db
              [OrderItem.mk Fixture.idA "Product A" 50 2
                 (Some "https://img/a.png");
               OrderItem.mk Fixture.idB "Product B" 30 1 None])
    as (o & Hrun & Hvalid & _).
  - repeat constructor.
  - exists o. split; [exact Hrun|]. apply Hvalid.
    repeat constructor; cbn; lia.
Defined.

(** X6.  The coupon an order records is never the code as typed: it is the
    upper-cased supplied code, an active coupon is stored under it, and the
    minimum order of the coupon looked up is at most the subtotal. *)
Theorem recorded_coupon_is_canonical
  (env : Env.t) (body : CheckoutBody.t) (d : Db.t) (ois : list OrderItem.t) :
  resolved d (CheckoutBody.items body) ois ->
  exists o,
    create_order env body d
    = (Db.insert_order d (Env.inserted_id env) o, inr (response_of env o))
    /\ forall s, Order.coupon o = Some s ->
         exists code c,
           CheckoutBody.coupon body = Some code
           /\ s = Py.upper code
           /\ In c (Db.coupon d) /\ Coupon.code c = s /\ Coupon.active c = true
           /\ PrimFloat.leb (threshold c) (subtotal ois) = true.
Proof.
  intros Hres.
  eexists; split; [exact (create_order_ok env body d ois Hres)|].
  cbn [Order.coupon order_of]. unfold coupon_rule. intros s.
  destruct (CheckoutBody.coupon body) as [code|]; [|discriminate].
  destruct (Py.truthy_str (Some code)); [|discriminate].
  destruct (couponLookup d code) as [c|] eqn:Hlook; [|discriminate].
  destruct (PrimFloat.leb (threshold c) (subtotal ois)) eqn:Hle; [|discriminate].
  intros [= <-]. exists code, c.
  destruct (find_coupon_Some _ _ _ Hlook) as (Hin & Hc & Ha). auto 7.
Qed.

Lemma recorded_coupon_is_canonical_witness :
  exists o,
    create_order Fixture.env (Fixture.body Fixture.cart (Some "Flat20"))
      Fixture.db
    = (Db.insert_order Fixture.db (Env.inserted_id Fixture.env) o,
       inr (response_of Fixture.env o))
    /\ Order.coupon o = Some "FLAT20".
Proof.
  destruct (recorded_coupon_is_canonical Fixture.env
              (Fixture.body Fixture.cart (Some "Flat20")) Fixture.db
              [OrderItem.mk Fixture.idA "Product A" 50 2
                 (Some "https://img/a.png");
               OrderItem.mk Fixture.idB "Product B" 30 1 None])
    as (o & Hrun & _).
  - repeat constructor.
  - exists o. split; [exact Hrun|].
    vm_compute in Hrun. injection Hrun as Ho. rewrite <- Ho. reflexivity.
Defined.

(** X7.  An empty item list is not rejected: the checkout stores an order
    with no lines, whose amount is 0.0 when no coupon is recorded and is
    never below zero. *)
Theorem create_order_empty_cart
  (env : Env.t) (body : CheckoutBody.t) (d : Db.t) :
  CheckoutBody.items body = [] ->
  exists o,
    create_order env body d
    = (Db.insert_order d (Env.inserted_id env) o, inr (response_of env o))
    /\ Order.items o = []
    /\ (Order.coupon o = None -> Order.amount o = 0%float)
    /\ PrimFloat.leb 0 (Order.amount o) = true.
Proof.
  intros Hitems.
  assert (Hres : resolved d (CheckoutBody.items body) [])
    by (rewrite Hitems; constructor).
  eexists; split; [exact (create_order_ok env body d [] Hres)|].
  split; [reflexivity|].
  cbn [Order.coupon Order.amount order_of]. unfold coupon_rule.
  destruct (CheckoutBody.coupon body) as [code|]; [|split; reflexivity].
  destruct (Py.truthy_str (Some code)); [|split; reflexivity].
  destruct (couponLookup d code) as [c|]; [|split; reflexivity].
  destruct (PrimFloat.leb (threshold c) (subtotal []));
    [|split; reflexivity].
  cbn [fst snd]. split; [discriminate|].
  apply round2_ge0, discounted_nonneg.
Qed.

Lemma create_order_empty_cart_witness :
  exists o,
    create_order Fixture.env (Fixture.body [] (Some "save10")) Fixture.db
    = (Db.insert_order Fixture.db (Env.inserted_id Fixture.env) o,
       inr (response_of Fixture.env o))
    /\ Order.items o = []
    /\ Order.amount o = 0%float.
Proof.
  destruct (create_order_empty_cart Fixture.env
              (Fixture.body [] (Some "save10")) Fixture.db eq_refl)
    as (o & Hrun & Hitems & Hzero & _).
  exists o. split; [exact Hrun|]. split; [exact Hitems|]. apply Hzero.
  vm_compute in Hrun. injection Hrun as Ho. rewrite <- Ho. reflexivity.
Defined.

(** ** Orders after the checkout: [get_order] and [payment_verify] *)

Lemma find_order_app (os : list (ObjectId.t * Order.t)) (id : ObjectId.t)
  (o : Order.t) :
  find_order os id = None -> find_order (os ++ [(id, o)]) id = Some o.
Proof.
  induction os as [|[k o'] os IH]; cbn.
  - intros _. unfold ObjectId.eqb. now rewrite String.eqb_refl.
  - destruct (ObjectId.eqb k id); [discriminate|exact IH].
Qed.

Lemma find_order_update (os : list (ObjectId.t * Order.t)) (id id' : ObjectId.t)
  (f : Order.t -> Order.t) :
  find_order (update_order os id f) id'
  = if ObjectId.eqb id id'
    then option_map f (find_order os id')
    else find_order os id'.
Proof.
  unfold ObjectId.eqb.
  induction os as [|[k o] os IH]; cbn; [now destruct (String.eqb id id')|].
  unfold ObjectId.eqb.
  destruct (String.eqb k id) eqn:Hk; cbn; unfold ObjectId.eqb.
  - apply String.eqb_eq in Hk. subst k.
    destruct (String.eqb id id'); reflexivity.
  - destruct (String.eqb k id') eqn:Hk'.
    + apply String.eqb_eq in Hk'. subst k. rewrite String.eqb_sym in Hk.
      now rewrite Hk.
    + exact IH.
Qed.

Lemma assoc_set (tbl : list (ObjectId.t * string)) (id id' : ObjectId.t)
  (v : string) :
  assoc (set_assoc tbl id v) id'
  = if ObjectId.eqb id id' then Some v else assoc tbl id'.
Proof.
  unfold ObjectId.eqb.
  induction tbl as [|[k w] tbl IH]; cbn; unfold ObjectId.eqb.
  - reflexivity.
  - destruct (String.eqb k id) eqn:Hk; cbn; unfold ObjectId.eqb.
    + apply String.eqb_eq in Hk. subst k.
      destruct (String.eqb id id'); reflexivity.
    + destruct (String.eqb k id') eqn:Hk'.
      * apply String.eqb_eq in Hk'. subst k. rewrite String.eqb_sym in Hk.
        now rewrite Hk.
      * exact IH.
Qed.

Lemma oid_in_db (id_str : string) (s : Shop.t) :
  in_db (oid id_str) s
  = (s, match ObjectId.of_str id_str with
        | Some id => inr id
        | None => inl (Py.HTTPException 400 "Invalid ID")
        end).
Proof.
  unfold in_db, oid. destruct s as [d tbl].
  destruct (ObjectId.of_str id_str); reflexivity.
Qed.

(** X8.  An order can be read back: after a checkout that answers, under an
    identifier that is a genuine ObjectId and was not in use, [get_order] on
    the answered order id returns the order just stored, pending, unpaid and
    for the answered amount. *)
Theorem checkout_then_get_order
  (env : Env.t) (body : CheckoutBody.t) (s s' : Shop.t) (resp : Response) :
  checkout env body s = (s', inr resp) ->
  ObjectId.of_str (Env.inserted_id env) = Some (Env.inserted_id env) ->
  find_order (Db.order (Shop.db s)) (Env.inserted_id env) = None ->
  shop_wf s ->
  exists o,
    get_order (order_id resp) s'
    = (s', inr (OrderView.mk (order_id resp) o None))
    /\ Order.status o = "pending"
    /\ Order.amount o = amount resp
    /\ Order.payment_order_id o = razorpay_order_id resp
    /\ List.length (Order.items o) = List.length (CheckoutBody.items body).
Proof.
  intros Hrun Hid Hfresh Hwf. unfold checkout, in_db in Hrun.
  destruct (create_order env body (Shop.db s)) as [d' r] eqn:Hco.
  injection Hrun as <- ->.
  destruct (create_order_inv _ _ _ _ _ Hco) as (ois & Hres & -> & ->).
  exists (order_of env body ois
            (coupon_rule (Shop.db s) (CheckoutBody.coupon body) (subtotal ois))).
  split; [|do 3 (split; [reflexivity|]); apply (resolved_length _ _ _ Hres)].
  unfold get_order, st_bind. rewrite oid_in_db.
  cbn [order_id response_of]. unfold ObjectId.to_str. rewrite Hid.
  cbn [Shop.db Shop.payment_id Db.order Db.insert_order].
  rewrite (find_order_app _ _ _ Hfresh), (Hwf _ Hfresh). reflexivity.
Qed.

Lemma checkout_then_get_order_witness :
  exists o,
    get_order "0123456789abcdef01234567"
      (fst (checkout Fixture.env (Fixture.body Fixture.cart None)
              (Shop.mk Fixture.db [])))
    = (fst (checkout Fixture.env (Fixture.body Fixture.cart None)
              (Shop.mk Fixture.db [])),
       inr (OrderView.mk "0123456789abcdef01234567" o None))
    /\ Order.status o = "pending"
    /\ Order.amount o = 130%float.
Proof.
  destruct (checkout_then_get_order Fixture.env
              (Fixture.body Fixture.cart None) (Shop.mk Fixture.db [])
              (fst (checkout Fixture.env (Fixture.body Fixture.cart None)
                      (Shop.mk Fixture.db [])))
              (mkResponse "0123456789abcdef01234567" "order_Ab3dEf6hIj9k"
                 130 "INR"))
    as (o & Hget & Hstatus & Hamount & _).
  - vm_compute. reflexivity.
  - vm_compute. reflexivity.
  - reflexivity.
  - intros id _. reflexivity.
  - exists o. split; [exact Hget|]. split; [exact Hstatus|exact Hamount].
Defined.

(** X9.  [payment_verify] marks a stored order as paid: the order found
    under the identifier gets the status "paid", the payment id of the request
    and the time of the call, whatever its status was and whatever signature
    is sent (none is ever checked); what was ordered and its amount stay, and
    [get_order] then returns the order so. *)
Theorem payment_verify_marks_paid
  (now : Z) (body : PaymentVerifyBody.t) (s : Shop.t) (id : ObjectId.t)
  (o : Order.t) :
  ObjectId.of_str (PaymentVerifyBody.order_id body) = Some id ->
  find_order (Db.order (Shop.db s)) id = Some o ->
  exists s',
    payment_verify now body s = (s', inr true)
    /\ get_order (PaymentVerifyBody.order_id body) s'
       = (s', inr (OrderView.mk (ObjectId.to_str id) (set_paid now o)
                     (Some (PaymentVerifyBody.payment_id body))))
    /\ Order.status (set_paid now o) = "paid"
    /\ Order.updated_at (set_paid now o) = now
    /\ order_core (set_paid now o) = order_core o.
Proof.
  intros Hid Hfind. eexists. split.
  - unfold payment_verify, st_bind. rewrite oid_in_db, Hid, Hfind. reflexivity.
  - split; [|repeat split].
    unfold get_order, st_bind. rewrite oid_in_db, Hid.
    cbn [Shop.db Shop.payment_id Db.order].
    rewrite find_order_update, assoc_set, Hfind.
    unfold ObjectId.eqb. rewrite String.eqb_refl. reflexivity.
Qed.

Lemma payment_verify_marks_paid_witness :
  let s := fst (checkout Fixture.env (Fixture.body Fixture.cart None)
                  (Shop.mk Fixture.db [])) in
  let body := PaymentVerifyBody.mk "0123456789ABCDEF01234567" "pay_1" None in
  exists s' o,
    payment_verify 1700000500 body s = (s', inr true)
    /\ get_order "0123456789ABCDEF01234567" s'
       = (s', inr (OrderView.mk "0123456789abcdef01234567" o (Some "pay_1")))
    /\ Order.status o = "paid" /\ Order.amount o = 130%float.
Proof.
  intros s body.
  destruct (payment_verify_marks_paid 1700000500 body s
              "0123456789abcdef01234567"
              (order_of Fixture.env (Fixture.body Fixture.cart None)
                 [OrderItem.mk Fixture.idA "Product A" 50 2
                    (Some "https://img/a.png");
                  OrderItem.mk Fixture.idB "Product B" 30 1 None]
                 (130%float, None)))
    as (s' & Hpay & Hget & _).
  - vm_compute. reflexivity.
  - vm_compute. reflexivity.
  - exists s'. eexists. split; [exact Hpay|]. split; [exact Hget|].
    split; reflexivity.
Defined.

(** X10.  [payment_verify] answers ok for an identifier under which no order
    is stored, and changes nothing then; a malformed identifier is refused
    with "Invalid ID", nothing being changed either. *)
Theorem payment_verify_unknown_order
  (now : Z) (body : PaymentVerifyBody.t) (s : Shop.t) :
  (forall id, ObjectId.of_str (PaymentVerifyBody.order_id body) = Some id ->
              find_order (Db.order (Shop.db s)) id = None) ->
  payment_verify now body s
  = (s, match ObjectId.of_str (PaymentVerifyBody.order_id body) with
        | Some _ => inr true
        | None => inl (Py.HTTPException 400 "Invalid ID")
        end).
Proof.
  intros Hnone. unfold payment_verify, st_bind. rewrite oid_in_db.
  destruct (ObjectId.of_str (PaymentVerifyBody.order_id body)) as [id|];
    [|reflexivity].
  now rewrite (Hnone id eq_refl).
Qed.

Lemma payment_verify_unknown_order_witness :
  payment_verify 1700000500
    (PaymentVerifyBody.mk Fixture.idMissing "pay_1" (Some "sig"))
    (Shop.mk Fixture.db [])
  = (Shop.mk Fixture.db [], inr true)
  /\ payment_verify 1700000500
       (PaymentVerifyBody.mk "aa aa aa aa aa aa aa aa " "pay_1" None)
       (Shop.mk Fixture.db [])
     = (Shop.mk Fixture.db [], inr true)
  /\ payment_verify 1700000500
       (PaymentVerifyBody.mk "not-an-object-id" "pay_1" None)
       (Shop.mk Fixture.db [])
     = (Shop.mk Fixture.db [], inl (Py.HTTPException 400 "Invalid ID")).
Proof.
  split; [|split].
  - apply (payment_verify_unknown_order 1700000500
             (PaymentVerifyBody.mk Fixture.idMissing "pay_1" (Some "sig"))
             (Shop.mk Fixture.db [])).
    intros id _. reflexivity.
  - apply (payment_verify_unknown_order 1700000500
             (PaymentVerifyBody.mk "aa aa aa aa aa aa aa aa " "pay_1" None)
             (Shop.mk Fixture.db [])).
    intros id _. reflexivity.
  - apply (payment_verify_unknown_order 1700000500
             (PaymentVerifyBody.mk "not-an-object-id" "pay_1" None)
             (Shop.mk Fixture.db [])).
    intros id _. reflexivity.
Defined.

Lemma update_order_core (os : list (ObjectId.t * Order.t)) (id : ObjectId.t)
  (now : Z) :
  map (fun p => (fst p, order_core (snd p))) (update_order os id (set_paid now))
  = map (fun p => (fst p, order_core (snd p))) os.
Proof.
  induction os as [|[k o] os IH]; cbn; [reflexivity|].
  destruct (ObjectId.eqb k id); cbn; [reflexivity|now rewrite IH].
Qed.

(** X11.  [payment_verify] never creates, removes or reprices an order and
    never touches the catalogue: the products, the coupons, the identifiers
    of the orders and, for each order, its user, lines, amount, currency,
    address, payment order id, creation time and coupon are after the call
    what they were before. *)
Theorem payment_verify_keeps_orders
  (now : Z) (body : PaymentVerifyBody.t) (s : Shop.t) :
  let s' := fst (payment_verify now body s) in
  Db.product (Shop.db s') = Db.product (Shop.db s)
  /\ Db.coupon (Shop.db s') = Db.coupon (Shop.db s)
  /\ map (fun p => (fst p, order_core (snd p))) (Db.order (Shop.db s'))
     = map (fun p => (fst p, order_core (snd p))) (Db.order (Shop.db s)).
Proof.
  unfold payment_verify, st_bind. rewrite oid_in_db.
  destruct (ObjectId.of_str (PaymentVerifyBody.order_id body)) as [id|];
    [|cbn; auto].
  destruct (find_order (Db.order (Shop.db s)) id); cbn; [|auto].
  split; [reflexivity|]. split; [reflexivity|]. apply update_order_core.
Qed.

(** ** Coupons: [admin_add_coupon], [get_coupon] and the checkout *)

Lemma find_coupon_of_docs (docs : list CouponDoc.t) (code : string) :
  Db.find_coupon (coupons_of docs) code
  = option_map CouponDoc.fields (find_coupon_doc docs code).
Proof.
  induction docs as [|c docs IH]; cbn; [reflexivity|].
  destruct (String.eqb (Coupon.code (CouponDoc.fields c)) code
            && Coupon.active (CouponDoc.fields c)); [reflexivity|exact IH].
Qed.

Lemma find_coupon_doc_app (docs : list CouponDoc.t) (c : CouponDoc.t)
  (code : string) :
  find_coupon_doc (docs ++ [c]) code
  = match find_coupon_doc docs code with
    | Some c' => Some c'
    | None =>
        if String.eqb (Coupon.code (CouponDoc.fields c)) code
           && Coupon.active (CouponDoc.fields c)
        then Some c else None
    end.
Proof.
  induction docs as [|c' docs IH]; cbn; [reflexivity|].
  destruct (String.eqb (Coupon.code (CouponDoc.fields c')) code
            && Coupon.active (CouponDoc.fields c')); [reflexivity|exact IH].
Qed.

Lemma resolve_ext (d1 d2 : Db.t) (it : CartItem.t) :
  Db.product d1 = Db.product d2 -> resolve d1 it = resolve d2 it.
Proof.
  intros H. unfold resolve. now rewrite H.
Qed.

Lemma price_items_ext (d1 d2 : Db.t) :
  Db.product d1 = Db.product d2 ->
  forall its total ois,
    snd (price_items its total ois d1) = snd (price_items its total ois d2).
Proof.
  intros H. induction its as [|it its IH]; intros total ois; cbn; [reflexivity|].
  unfold bind. rewrite !price_item_resolve, (resolve_ext d1 d2 it H).
  destruct (resolve d2 it) as [e|oi]; [reflexivity|apply IH].
Qed.

(** The checkout sees the coupons only through the lookup by code. *)
Lemma create_order_ext (env : Env.t) (body : CheckoutBody.t) (d1 d2 : Db.t) :
  Db.product d1 = Db.product d2 ->
  Db.order d1 = Db.order d2 ->
  (forall code, Db.find_coupon (Db.coupon d1) (Py.upper code)
                = Db.find_coupon (Db.coupon d2) (Py.upper code)) ->
  snd (create_order env body d1) = snd (create_order env body d2)
  /\ Db.order (fst (create_order env body d1))
     = Db.order (fst (create_order env body d2)).
Proof.
  intros Hp Ho Hc. unfold create_order, bind.
  pose proof (price_items_ext d1 d2 Hp (CheckoutBody.items body) 0%float []) as Hs.
  destruct (price_items_inv d1 (CheckoutBody.items body) 0%float []) as [H1 _].
  destruct (price_items_inv d2 (CheckoutBody.items body) 0%float []) as [H2 _].
  destruct (price_items (CheckoutBody.items body) 0%float [] d1) as [d1' r1].
  destruct (price_items (CheckoutBody.items body) 0%float [] d2) as [d2' r2].
  cbn in Hs, H1, H2. subst d1' d2' r2.
  destruct r1 as [e|r]; [cbn; auto|].
  rewrite !apply_coupon_eq.
  assert (Hrule : coupon_rule d1 (CheckoutBody.coupon body) (fst r)
                  = coupon_rule d2 (CheckoutBody.coupon body) (fst r)).
  { unfold coupon_rule, couponLookup.
    destruct (CheckoutBody.coupon body) as [code|]; [|reflexivity].
    now rewrite Hc. }
  rewrite Hrule. cbn. rewrite Ho. auto.
Qed.

(** X12.  What a lookup finds once a coupon has been added with the admin
    key: a coupon that the code already reached keeps being the one found
    (the new document never replaces it), and the new coupon is found only
    when it is active and its code, as stored, is the upper-cased code asked
    for.  The code is stored as typed, and no expiry is stored. *)
Theorem get_coupon_after_add
  (ADMIN_KEY : string) (now : Z) (inserted_id : ObjectId.t)
  (body : CouponBody.t) (x_admin_key : option string)
  (docs : list CouponDoc.t) (code : string) :
  x_admin_key = Some ADMIN_KEY ->
  exists docs' new,
    admin_add_coupon ADMIN_KEY now inserted_id body x_admin_key docs
    = (docs', inr (ObjectId.to_str inserted_id))
    /\ docs' = docs ++ [new]
    /\ Coupon.code (CouponDoc.fields new) = CouponBody.code body
    /\ Coupon.expires_at (CouponDoc.fields new) = None
    /\ get_coupon code docs'
       = (docs',
          match snd (get_coupon code docs) with
          | inr c => inr c
          | inl e =>
              if String.eqb (CouponBody.code body) (Py.upper code)
                 && CouponBody.active body
              then inr new else inl e
          end).
Proof.
  intros ->. unfold admin_add_coupon, admin_key_ok. rewrite String.eqb_refl.
  eexists. eexists. split; [reflexivity|]. split; [reflexivity|].
  split; [reflexivity|]. split; [reflexivity|].
  unfold get_coupon. rewrite find_coupon_doc_app.
  destruct (find_coupon_doc docs (Py.upper code)); cbn; [reflexivity|].
  destruct (String.eqb (CouponBody.code body) (Py.upper code)
            && CouponBody.active body); reflexivity.
Qed.

Lemma get_coupon_after_add_witness :
  exists docs' new,
    admin_add_coupon "demo-admin-key" 1700000000 "0123456789abcdef01234567"
      (CouponBody.mk "WELCOME" "flat" 50 0 true) (Some "demo-admin-key") []
    = (docs', inr "0123456789abcdef01234567")
    /\ get_coupon "welcome" docs' = (docs', inr new)
    /\ Coupon.code (CouponDoc.fields new) = "WELCOME".
Proof.
  destruct (get_coupon_after_add "demo-admin-key" 1700000000
              "0123456789abcdef01234567"
              (CouponBody.mk "WELCOME" "flat" 50 0 true)
              (Some "demo-admin-key") [] "welcome" eq_refl)
    as (docs' & new & Hadd & _ & Hcode & _ & Hget).
  exists docs', new. split; [exact Hadd|]. split; [exact Hget|exact Hcode].
Defined.

(** X13.  A coupon added with a code that is not upper-case, or added
    inactive, is dead: no lookup by any code finds anything else than before,
    and every checkout has the outcome it had without it. *)
Theorem coupon_added_in_lower_case_is_dead
  (ADMIN_KEY : string) (now : Z) (inserted_id : ObjectId.t)
  (body : CouponBody.t) (x_admin_key : option string)
  (docs : list CouponDoc.t) :
  Py.upper (CouponBody.code body) <> CouponBody.code body
  \/ CouponBody.active body = false ->
  let docs' :=
    fst (admin_add_coupon ADMIN_KEY now inserted_id body x_admin_key docs) in
  (forall code, snd (get_coupon code docs') = snd (get_coupon code docs))
  /\ forall env checkout_body products orders,
       let run cs := create_order env checkout_body
                       (Db.mk products (coupons_of cs) orders) in
       snd (run docs') = snd (run docs)
       /\ Db.order (fst (run docs')) = Db.order (fst (run docs)).
Proof.
  intros Hdead docs'.
  assert (Hfind : forall code,
             find_coupon_doc docs' (Py.upper code)
             = find_coupon_doc docs (Py.upper code)).
  { intros code. unfold docs', admin_add_coupon.
    destruct (admin_key_ok ADMIN_KEY x_admin_key); [|reflexivity].
    cbn [fst]. rewrite find_coupon_doc_app.
    destruct (find_coupon_doc docs (Py.upper code)); [reflexivity|].
    cbn [CouponDoc.fields Coupon.code Coupon.active].
    destruct (String.eqb (CouponBody.code body) (Py.upper code)) eqn:Hc;
      [|reflexivity].
    destruct (CouponBody.active body) eqn:Ha; [|reflexivity].
    destruct Hdead as [Hup|Hoff]; [|discriminate Hoff].
    apply String.eqb_eq in Hc. rewrite Hc, upper_idem in Hup.
    now contradiction Hup. }
  split.
  - intros code. unfold get_coupon. rewrite Hfind.
    destruct (find_coupon_doc docs (Py.upper code)); reflexivity.
  - intros env checkout_body products orders run. unfold run.
    apply create_order_ext; [reflexivity|reflexivity|].
    intros code. cbn [Db.coupon]. now rewrite !find_coupon_of_docs, Hfind.
Qed.

Lemma coupon_added_in_lower_case_is_dead_witness :
  let docs' :=
    fst (admin_add_coupon "demo-admin-key" 1700000000
           "0123456789abcdef01234567"
           (CouponBody.mk "save10" "percent" 10 0 true)
           (Some "demo-admin-key") []) in
  List.length docs' = 1%nat
  /\ snd (get_coupon "save10" docs') = inl (Py.HTTPException 404 "Invalid coupon")
  /\ snd (get_coupon "SAVE10" docs') = inl (Py.HTTPException 404 "Invalid coupon").
Proof.
  intros docs'.
  destruct (coupon_added_in_lower_case_is_dead "demo-admin-key" 1700000000
              "0123456789abcdef01234567"
              (CouponBody.mk "save10" "percent" 10 0 true)
              (Some "demo-admin-key") [])
    as [Hget _].
  - left. vm_compute. discriminate.
  - split; [reflexivity|]. fold docs' in Hget.
    split; rewrite Hget; reflexivity.
Defined.

(** X14.  [get_coupon] and the checkout agree on which coupon a code
    designates: when [get_coupon] answers 404 for the code, a checkout with
    that code records no coupon and charges the undiscounted amount; when it
    returns a coupon, the checkout applies that very coupon, exactly when its
    minimum order is at most the subtotal. *)
Theorem get_coupon_agrees_with_checkout
  (env : Env.t) (body : CheckoutBody.t) (d : Db.t) (docs : list CouponDoc.t)
  (code : string) (ois : list OrderItem.t) :
  Db.coupon d = coupons_of docs ->
  CheckoutBody.coupon body = Some code ->
  code <> "" ->
  resolved d (CheckoutBody.items body) ois ->
  exists o,
    create_order env body d
    = (Db.insert_order d (Env.inserted_id env) o, inr (response_of env o))
    /\ match snd (get_coupon code docs) with
       | inl _ =>
           Order.coupon o = None
           /\ Order.amount o = Py.round2 (subtotal ois)
       | inr c =>
           if PrimFloat.leb (threshold (CouponDoc.fields c)) (subtotal ois)
           then Order.coupon o = Some (Py.upper code)
                /\ Order.amount o
                   = Py.round2 (discounted (CouponDoc.fields c) (subtotal ois))
           else Order.coupon o = None
                /\ Order.amount o = Py.round2 (subtotal ois)
       end.
Proof.
  intros Hdocs Hcode Hne Hres.
  eexists; split; [exact (create_order_ok env body d ois Hres)|].
  rewrite Hcode, (coupon_rule_supplied d code _ Hne).
  unfold couponLookup, get_coupon. rewrite Hdocs, find_coupon_of_docs.
  destruct (find_coupon_doc docs (Py.upper code)) as [c|] eqn:Hfind;
    cbn [option_map snd]; [|split; reflexivity].
  destruct (PrimFloat.leb (threshold (CouponDoc.fields c)) (subtotal ois));
    [|split; reflexivity].
  cbn [Order.coupon Order.amount order_of fst snd]. split; [|reflexivity].
  assert (Hc : Db.find_coupon (coupons_of docs) (Py.upper code)
               = Some (CouponDoc.fields c))
    by now rewrite find_coupon_of_docs, Hfind.
  now destruct (find_coupon_Some _ _ _ Hc) as (_ & -> & _).
Qed.

Lemma get_coupon_agrees_with_checkout_witness :
  let docs := [CouponDoc.mk "0000000000000000000000f1" Fixture.flat20 None] in
  let d := Db.mk (Db.product Fixture.db) (coupons_of docs) [] in
  exists o,
    create_order Fixture.env (Fixture.body Fixture.cart (Some "flat20")) d
    = (Db.insert_order d (Env.inserted_id Fixture.env) o,
       inr (response_of Fixture.env o))
    /\ snd (get_coupon "flat20" docs)
       = inr (CouponDoc.mk "0000000000000000000000f1" Fixture.flat20 None)
    /\ Order.coupon o = Some "FLAT20"
    /\ Order.amount o = 110%float.
Proof.
  intros docs d.
  destruct (get_coupon_agrees_with_checkout Fixture.env
              (Fixture.body Fixture.cart (Some "flat20")) d docs "flat20"
              [OrderItem.mk Fixture.idA "Product A" 50 2
                 (Some "https://img/a.png");
               OrderItem.mk Fixture.idB "Product B" 30 1 None])
    as (o & Hrun & Hagree).
  - reflexivity.
  - reflexivity.
  - discriminate.
  - repeat constructor.
  - exists o. split; [exact Hrun|]. split; [reflexivity|].
    vm_compute in Hrun. injection Hrun as Ho. rewrite <- Ho.
    split; reflexivity.
Defined.

(** ** Cart and wishlist *)

Lemma find_cart_upsert (cs : list CartDoc.t) (u u' : string)
  (items : list CartItem.t) (stamp : option Z) (id : ObjectId.t) :
  option_map CartDoc.items (find_cart (upsert_items cs u items stamp id) u')
  = if String.eqb u u' then Some items
    else option_map CartDoc.items (find_cart cs u').
Proof.
  induction cs as [|c cs IH]; cbn.
  - destruct (String.eqb u u'); reflexivity.
  - destruct (String.eqb (CartDoc.user_id c) u) eqn:Hc; cbn.
    + apply String.eqb_eq in Hc. rewrite Hc.
      destruct (String.eqb u u'); reflexivity.
    + destruct (String.eqb (CartDoc.user_id c) u') eqn:Hc'; [|exact IH].
      apply String.eqb_eq in Hc'. rewrite Hc' in Hc.
      rewrite String.eqb_sym in Hc. now rewrite Hc.
Qed.

Lemma cart_items_upsert (cs : list CartDoc.t) (u u' : string)
  (items : list CartItem.t) (stamp : option Z) (id : ObjectId.t) :
  cart_items (upsert_items cs u items stamp id) u'
  = if String.eqb u u' then items else cart_items cs u'.
Proof.
  pose proof (find_cart_upsert cs u u' items stamp id) as H.
  unfold cart_items.
  destruct (find_cart (upsert_items cs u items stamp id) u') as [c|];
    destruct (String.eqb u u'); cbn in H.
  - now injection H.
  - destruct (find_cart cs u'); cbn in H; [now injection H|discriminate].
  - discriminate.
  - destruct (find_cart cs u'); cbn in H; [discriminate|reflexivity].
Qed.

Lemma get_cart_upsert_other (cs : list CartDoc.t) (u u' : string)
  (items : list CartItem.t) (stamp : option Z) (id : ObjectId.t) :
  u <> u' ->
  get_cart u' (upsert_items cs u items stamp id) = get_cart u' cs.
Proof.
  intros Hne. apply String.eqb_neq in Hne. unfold get_cart.
  induction cs as [|c cs IH]; cbn.
  - now rewrite Hne.
  - destruct (String.eqb (CartDoc.user_id c) u) eqn:Hc; cbn.
    + apply String.eqb_eq in Hc. rewrite Hc, Hne. reflexivity.
    + destruct (String.eqb (CartDoc.user_id c) u'); [reflexivity|exact IH].
Qed.

Lemma bump_spec (items : list CartItem.t) (item : CartItem.t) :
  snd (bump items item) = has_product items (CartItem.product_id item)
  /\ products_of (fst (bump items item)) = products_of items
  /\ forall p,
       quantity_of (fst (bump items item)) p
       = (quantity_of items p
          + if snd (bump items item)
               && String.eqb (CartItem.product_id item) p
            then CartItem.quantity item else 0)%Z.
Proof.
  induction items as [|it items (IHf & IHp & IHq)]; cbn.
  - split; [reflexivity|]. split; [reflexivity|]. intros p. lia.
  - destruct (String.eqb (CartItem.product_id it) (CartItem.product_id item))
      eqn:Hit; cbn.
    + split; [reflexivity|]. split; [reflexivity|].
      intros p. apply String.eqb_eq in Hit. rewrite Hit.
      destruct (String.eqb (CartItem.product_id item) p); lia.
    + destruct (bump items item) as [r found]. cbn in *.
      split; [exact IHf|]. split; [now rewrite IHp|].
      intros p. rewrite IHq. unfold quantity_of.
      destruct (String.eqb (CartItem.product_id it) p); lia.
Qed.

Lemma quantity_of_app (l1 l2 : list CartItem.t) (p : string) :
  quantity_of (l1 ++ l2) p = (quantity_of l1 p + quantity_of l2 p)%Z.
Proof.
  induction l1 as [|it l1 IH]; cbn; [reflexivity|]. unfold quantity_of in *.
  destruct (String.eqb (CartItem.product_id it) p); lia.
Qed.

Lemma added_quantity (items : list CartItem.t) (item : CartItem.t) (p : string) :
  quantity_of (added items item) p
  = (quantity_of items p
     + if String.eqb (CartItem.product_id item) p
       then CartItem.quantity item else 0)%Z.
Proof.
  unfold added. destruct (bump_spec items item) as (_ & _ & Hq).
  specialize (Hq p). destruct (bump items item) as [r found].
  cbn [fst snd] in Hq. destruct found; cbn [andb] in Hq.
  - exact Hq.
  - rewrite quantity_of_app, Hq. unfold quantity_of. cbn [fold_right].
    destruct (String.eqb (CartItem.product_id item) p); lia.
Qed.

Lemma added_products (items : list CartItem.t) (item : CartItem.t) :
  products_of (added items item)
  = if has_product items (CartItem.product_id item)
    then products_of items
    else products_of items ++ [CartItem.product_id item].
Proof.
  unfold added. destruct (bump_spec items item) as (Hf & Hp & _).
  destruct (bump items item) as [r found]. cbn in Hf, Hp. rewrite <- Hf.
  destruct found; [exact Hp|].
  unfold products_of in *. now rewrite map_app, Hp.
Qed.

Lemma has_product_In (items : list CartItem.t) (p : string) :
  has_product items p = true <-> In p (products_of items).
Proof.
  unfold has_product, products_of. rewrite existsb_exists, in_map_iff.
  split; intros (it & H1 & H2).
  - exists it. apply String.eqb_eq in H2. auto.
  - exists it. split; [exact H2|]. now apply String.eqb_eq.
Qed.

Lemma without_has_product (items : list CartItem.t) (p : string) :
  has_product (without items p) p = false.
Proof.
  destruct (has_product (without items p) p) eqn:H; [|reflexivity].
  apply existsb_exists in H as (it & Hin & Heq).
  apply filter_In in Hin as [_ Hne]. now rewrite Heq in Hne.
Qed.

Lemma without_quantity (items : list CartItem.t) (p p' : string) :
  quantity_of (without items p) p'
  = if String.eqb p p' then 0%Z else quantity_of items p'.
Proof.
  unfold quantity_of, without.
  induction items as [|it items IH]; cbn [filter fold_right];
    [now destruct (String.eqb p p')|].
  destruct (String.eqb (CartItem.product_id it) p) eqn:Hit;
    cbn [negb fold_right].
  - rewrite IH. apply String.eqb_eq in Hit. rewrite Hit.
    now destruct (String.eqb p p').
  - rewrite IH. destruct (String.eqb p p') eqn:Hp; [|reflexivity].
    apply String.eqb_eq in Hp. subst p'. now rewrite Hit.
Qed.

Lemma without_absent (items : list CartItem.t) (p : string) :
  has_product items p = false -> without items p = items.
Proof.
  unfold has_product, without.
  induction items as [|it items IH]; cbn [filter existsb]; [reflexivity|].
  destruct (String.eqb (CartItem.product_id it) p); cbn [negb orb];
    [discriminate|].
  intros H. now rewrite IH.
Qed.

Lemma without_app (l1 l2 : list CartItem.t) (p : string) :
  without (l1 ++ l2) p = without l1 p ++ without l2 p.
Proof.
  apply filter_app.
Qed.

Lemma without_bump (items : list CartItem.t) (item : CartItem.t) :
  without (fst (bump items item)) (CartItem.product_id item)
  = without items (CartItem.product_id item).
Proof.
  unfold without.
  induction items as [|it items IH]; cbn [bump fst filter]; [reflexivity|].
  destruct (String.eqb (CartItem.product_id it) (CartItem.product_id item))
    eqn:Hit; cbn [fst filter CartItem.product_id negb].
  - now rewrite Hit.
  - destruct (bump items item) as [r found].
    cbn [fst filter] in *. now rewrite Hit, IH.
Qed.

Lemma without_added (items : list CartItem.t) (item : CartItem.t) :
  without (added items item) (CartItem.product_id item)
  = without items (CartItem.product_id item).
Proof.
  unfold added. pose proof (without_bump items item) as H.
  destruct (bump items item) as [r found]. cbn [fst] in H.
  destruct found; [exact H|].
  rewrite without_app, H. unfold without at 2. cbn [filter].
  rewrite String.eqb_refl. apply app_nil_r.
Qed.

Lemma find_cart_upsert_new (cs : list CartDoc.t) (u : string)
  (items : list CartItem.t) (stamp : option Z) (id : ObjectId.t) :
  find_cart cs u = None ->
  find_cart (upsert_items cs u items stamp id) u
  = Some (CartDoc.mk id u items stamp).
Proof.
  induction cs as [|c cs IH]; cbn.
  - intros _. now rewrite String.eqb_refl.
  - destruct (String.eqb (CartDoc.user_id c) u) eqn:Hc; [discriminate|].
    cbn. rewrite Hc. exact IH.
Qed.

Lemma find_cart_None (cs : list CartDoc.t) (u : string) :
  find_cart cs u = None -> ~ In u (map CartDoc.user_id cs).
Proof.
  induction cs as [|c cs IH]; cbn; [tauto|].
  destruct (String.eqb (CartDoc.user_id c) u) eqn:Hc; [discriminate|].
  intros H [Heq|Hin]; [|now apply IH].
  apply String.eqb_neq in Hc. contradiction.
Qed.

Lemma upsert_users (cs : list CartDoc.t) (u : string)
  (items : list CartItem.t) (stamp : option Z) (id : ObjectId.t) :
  map CartDoc.user_id (upsert_items cs u items stamp id)
  = match find_cart cs u with
    | Some _ => map CartDoc.user_id cs
    | None => map CartDoc.user_id cs ++ [u]
    end.
Proof.
  induction cs as [|c cs IH]; cbn; [reflexivity|].
  destruct (String.eqb (CartDoc.user_id c) u); cbn; [reflexivity|].
  rewrite IH. now destruct (find_cart cs u).
Qed.

Lemma upsert_one_per_user (cs : list CartDoc.t) (u : string)
  (items : list CartItem.t) (stamp : option Z) (id : ObjectId.t) :
  one_cart_per_user cs ->
  one_cart_per_user (upsert_items cs u items stamp id).
Proof.
  unfold one_cart_per_user. intros H. rewrite upsert_users.
  destruct (find_cart cs u) eqn:Hf; [exact H|].
  apply NoDup_app; [exact H|repeat constructor; tauto|].
  intros x Hx [<-|[]]. now apply (find_cart_None cs u Hf).
Qed.

Lemma NoDup_without (items : list CartItem.t) (p : string) :
  NoDup (products_of items) -> NoDup (products_of (without items p)).
Proof.
  unfold products_of, without.
  induction items as [|it items IH]; cbn [map filter]; [trivial|].
  intros H. inversion H as [|? ? Hnot Hrest]; subst.
  destruct (negb (String.eqb (CartItem.product_id it) p)); [|now apply IH].
  cbn [map]. constructor; [|now apply IH].
  intros Hin. apply Hnot. apply in_map_iff in Hin as (it' & Heq & Hin).
  apply filter_In in Hin as [Hin _]. apply in_map_iff. now exists it'.
Qed.

Lemma NoDup_added (items : list CartItem.t) (item : CartItem.t) :
  NoDup (products_of items) -> NoDup (products_of (added items item)).
Proof.
  intros H. rewrite added_products.
  destruct (has_product items (CartItem.product_id item)) eqn:Hhas; [exact H|].
  apply NoDup_app; [exact H|repeat constructor; tauto|].
  intros x Hx [<-|[]]. apply has_product_In in Hx. congruence.
Qed.

(** X15.  [add_to_cart] adds the requested quantity, whatever its sign, to
    the quantity the user's cart holds of the product, and leaves the
    quantities of the other products as they were. *)
Theorem add_to_cart_quantity
  (now : Z) (inserted_id : ObjectId.t) (item : CartItem.t) (user_id : string)
  (cs : list CartDoc.t) (p : string) :
  quantity_of (cart_items (add_to_cart now inserted_id item user_id cs) user_id) p
  = (quantity_of (cart_items cs user_id) p
     + if String.eqb (CartItem.product_id item) p
       then CartItem.quantity item else 0)%Z.
Proof.
  unfold add_to_cart. rewrite cart_items_upsert, String.eqb_refl.
  apply added_quantity.
Qed.

(** X16.  Carts and wishlists are kept apart by user: adding to, removing
    from or toggling in the collection of one user leaves what [get_cart]
    answers for every other user as it was. *)
Theorem carts_are_isolated
  (now : Z) (inserted_id : ObjectId.t) (item : CartItem.t) (u u' : string)
  (cs : list CartDoc.t) :
  u <> u' ->
  get_cart u' (add_to_cart now inserted_id item u cs) = get_cart u' cs
  /\ get_cart u' (remove_from_cart now inserted_id item u cs) = get_cart u' cs
  /\ get_cart u' (toggle_wishlist inserted_id item u cs) = get_cart u' cs.
Proof.
  intros Hne. unfold add_to_cart, remove_from_cart, toggle_wishlist.
  repeat split; now apply get_cart_upsert_other.
Qed.

(** X17.  [remove_from_cart] drops every line of the product, whatever
    quantity the request carries: the cart then holds none of it, holds of
    every other product what it held, and removing the product again changes
    nothing. *)
Theorem remove_from_cart_drops_product
  (now now' : Z) (id id' : ObjectId.t) (item item' : CartItem.t)
  (user_id : string) (cs : list CartDoc.t) (p : string) :
  let cs' := remove_from_cart now id item user_id cs in
  has_product (cart_items cs' user_id) (CartItem.product_id item) = false
  /\ quantity_of (cart_items cs' user_id) p
     = (if String.eqb (CartItem.product_id item) p then 0%Z
        else quantity_of (cart_items cs user_id) p)
  /\ cart_items
       (remove_from_cart now' id'
          (CartItem.mk (CartItem.product_id item) (CartItem.quantity item'))
          user_id cs') user_id
     = cart_items cs' user_id.
Proof.
  unfold remove_from_cart. cbn zeta.
  rewrite !cart_items_upsert, !String.eqb_refl. cbn [CartItem.product_id].
  split; [apply without_has_product|]. split; [apply without_quantity|].
  apply without_absent, without_has_product.
Qed.

(** X18.  Adding a product that the cart does not hold and then removing it
    gives back the lines the cart had. *)
Theorem add_then_remove
  (now now' : Z) (id id' : ObjectId.t) (item item' : CartItem.t)
  (user_id : string) (cs : list CartDoc.t) :
  CartItem.product_id item' = CartItem.product_id item ->
  has_product (cart_items cs user_id) (CartItem.product_id item) = false ->
  cart_items
    (remove_from_cart now' id' item' user_id
       (add_to_cart now id item user_id cs)) user_id
  = cart_items cs user_id.
Proof.
  intros Hsame Habsent. unfold remove_from_cart, add_to_cart.
  rewrite !cart_items_upsert, !String.eqb_refl, Hsame, without_added.
  now apply without_absent.
Qed.

(** X19.  A cart whose lines are of distinct products keeps lines of
    distinct products through [add_to_cart] and [remove_from_cart]. *)
Theorem cart_lines_stay_distinct
  (now : Z) (id : ObjectId.t) (item : CartItem.t) (user_id : string)
  (cs : list CartDoc.t) :
  NoDup (products_of (cart_items cs user_id)) ->
  NoDup (products_of (cart_items (add_to_cart now id item user_id cs) user_id))
  /\ NoDup (products_of
              (cart_items (remove_from_cart now id item user_id cs) user_id)).
Proof.
  intros H. unfold add_to_cart, remove_from_cart.
  rewrite !cart_items_upsert, !String.eqb_refl.
  split; [now apply NoDup_added|now apply NoDup_without].
Qed.

(** X20.  The first addition of a user creates the cart: when no cart
    document is stored for the user, [get_cart] after [add_to_cart] answers a
    cart under the identifier the driver drew, holding the one requested line
    as sent and stamped with the time of the call. *)
Theorem first_add_creates_cart
  (now : Z) (id : ObjectId.t) (item : CartItem.t) (user_id : string)
  (cs : list CartDoc.t) :
  find_cart cs user_id = None ->
  get_cart user_id cs = CartView.mk None user_id [] None
  /\ get_cart user_id (add_to_cart now id item user_id cs)
     = CartView.mk (Some (ObjectId.to_str id)) user_id [item] (Some now).
Proof.
  intros Hnone. unfold get_cart, add_to_cart, cart_items. rewrite Hnone.
  split; [reflexivity|].
  now rewrite (find_cart_upsert_new cs user_id _ _ id Hnone).
Qed.

(** X21.  The upsert keeps one document per user: a collection with at most
    one cart (or wishlist) per user stays so through [add_to_cart],
    [remove_from_cart] and [toggle_wishlist]. *)
Theorem one_cart_per_user_kept
  (now : Z) (id : ObjectId.t) (item : CartItem.t) (user_id : string)
  (cs : list CartDoc.t) :
  one_cart_per_user cs ->
  one_cart_per_user (add_to_cart now id item user_id cs)
  /\ one_cart_per_user (remove_from_cart now id item user_id cs)
  /\ one_cart_per_user (toggle_wishlist id item user_id cs).
Proof.
  intros H. unfold add_to_cart, remove_from_cart, toggle_wishlist.
  repeat split; now apply upsert_one_per_user.
Qed.

(** X22.  [toggle_wishlist] flips the membership of the product in the
    user's wishlist, and a second toggle flips it back: the list is then the
    one before when the product was not in it, and otherwise the list without
    the lines of the product followed by one line of it with quantity 1. *)
Theorem toggle_wishlist_flips
  (id id' : ObjectId.t) (item : CartItem.t) (user_id : string)
  (ws : list CartDoc.t) :
  let p := CartItem.product_id item in
  let ws' := toggle_wishlist id item user_id ws in
  has_product (cart_items ws' user_id) p
  = negb (has_product (cart_items ws user_id) p)
  /\ cart_items (toggle_wishlist id' item user_id ws') user_id
     = if has_product (cart_items ws user_id) p
       then without (cart_items ws user_id) p ++ [CartItem.mk p 1]
       else cart_items ws user_id.
Proof.
  cbn zeta. unfold toggle_wishlist.
  rewrite !cart_items_upsert, !String.eqb_refl.
  set (items := cart_items ws user_id). set (p := CartItem.product_id item).
  assert (Happ : forall l, has_product (l ++ [CartItem.mk p 1]) p = true).
  { intros l. unfold has_product. rewrite existsb_app. cbn.
    rewrite String.eqb_refl. apply orb_true_r. }
  destruct (has_product items p) eqn:Hhas; cbn [negb].
  - assert (Ht : toggled items p = without items p)
      by (unfold toggled; now rewrite Hhas).
    rewrite Ht. split; [apply without_has_product|].
    unfold toggled. now rewrite without_has_product.
  - assert (Ht : toggled items p = items ++ [CartItem.mk p 1])
      by (unfold toggled; now rewrite Hhas).
    rewrite Ht. split; [apply Happ|]. unfold toggled. rewrite Happ, without_app.
    rewrite (without_absent items p Hhas). unfold without. cbn [filter].
    cbn [CartItem.product_id]. rewrite String.eqb_refl. apply app_nil_r.
Qed.

Lemma carts_are_isolated_witness :
  get_cart "bob"
    (add_to_cart 1700000000 "0000000000000000000000a2"
       (CartItem.mk Fixture.idB 1) "alice" carts0)
  = CartView.mk None "bob" [] None.
Proof.
  destruct (carts_are_isolated 1700000000 "0000000000000000000000a2"
              (CartItem.mk Fixture.idB 1) "alice" "bob" carts0) as [H _].
  - discriminate.
  - rewrite H. reflexivity.
Defined.

Lemma add_then_remove_witness :
  cart_items
    (remove_from_cart 1700000001 "0000000000000000000000a3"
       (CartItem.mk Fixture.idB 1) "alice"
       (add_to_cart 1700000000 "0000000000000000000000a2"
          (CartItem.mk Fixture.idB 3) "alice" carts0)) "alice"
  = [CartItem.mk Fixture.idA 2].
Proof.
  rewrite (add_then_remove 1700000000 1700000001 "0000000000000000000000a2"
             "0000000000000000000000a3" (CartItem.mk Fixture.idB 3)
             (CartItem.mk Fixture.idB 1) "alice" carts0);
    reflexivity.
Defined.

Lemma cart_lines_stay_distinct_witness :
  NoDup (products_of
           (cart_items
              (add_to_cart 1700000000 "0000000000000000000000a2"
                 (CartItem.mk Fixture.idA 5) "alice" carts0) "alice")).
Proof.
  apply (cart_lines_stay_distinct 1700000000 "0000000000000000000000a2"
           (CartItem.mk Fixture.idA 5) "alice" carts0).
  cbn. constructor; [intros []|constructor].
Defined.

Lemma first_add_creates_cart_witness :
  get_cart "bob"
    (add_to_cart 1700000000 "0000000000000000000000a2"
       (CartItem.mk Fixture.idB 1) "bob" carts0)
  = CartView.mk (Some "0000000000000000000000a2") "bob"
      [CartItem.mk Fixture.idB 1] (Some 1700000000%Z).
Proof.
  apply (first_add_creates_cart 1700000000 "0000000000000000000000a2"
           (CartItem.mk Fixture.idB 1) "bob" carts0).
  reflexivity.
Defined.

Lemma one_cart_per_user_kept_witness :
  one_cart_per_user
    (add_to_cart 1700000000 "0000000000000000000000a2"
       (CartItem.mk Fixture.idB 1) "bob" carts0).
Proof.
  apply (one_cart_per_user_kept 1700000000 "0000000000000000000000a2"
           (CartItem.mk Fixture.idB 1) "bob" carts0).
  unfold one_cart_per_user. cbn. constructor; [intros []|constructor].
Defined.

(** ** Accounts *)

(** The hash is SHA-256 in hexadecimal: the standard test vectors. *)
Lemma hash_password_vectors :
  hash_password ""
  = "e3b0c44298fc1c149afbf4c8996fb92427ae41e4649b934ca495991b7852b855"
  /\ hash_password "abc"
     = "ba7816bf8f01cfea414140de5dae2223b00361a396177a9cb410ff61f20015ad"
  /\ hash_password "abcdbcdecdefdefgefghfghighijhijkijkljklmklmnlmnomnopnopq"
     = "248d6a61d20638b8e5c026930c3e6039a33ce45964ff2167f6ecedd419db06c1".
Proof.
  repeat split; vm_compute; reflexivity.
Qed.

Lemma find_user_app (us : list UserDoc.t) (u : UserDoc.t) (email : string) :
  find_user (us ++ [u]) email
  = match find_user us email with
    | Some u' => Some u'
    | None => if String.eqb (UserDoc.email u) email then Some u else None
    end.
Proof.
  induction us as [|u' us IH]; cbn; [reflexivity|].
  destruct (String.eqb (UserDoc.email u') email); [reflexivity|exact IH].
Qed.

Lemma find_user_None (us : list UserDoc.t) (email : string) :
  find_user us email = None -> ~ In email (map UserDoc.email us).
Proof.
  induction us as [|u us IH]; cbn; [tauto|].
  destruct (String.eqb (UserDoc.email u) email) eqn:Hu; [discriminate|].
  intros H [Heq|Hin]; [|now apply IH].
  apply String.eqb_neq in Hu. contradiction.
Qed.

(** X23.  An account can be used once registered: when the email is not yet
    registered, [register] stores the hash of the password (never the
    password) and answers the new identifier as token; a [login] with that
    email then answers the same token, user id and name exactly when the hash
    of the password sent is the stored one, and 401 otherwise. *)
Theorem register_then_login
  (now_created now_updated : Z) (inserted_id : ObjectId.t)
  (body : RegisterBody.t) (us : list UserDoc.t) (pw : string) :
  find_user us (RegisterBody.email body) = None ->
  exists us' u view,
    register now_created now_updated inserted_id body us = (us', inr view)
    /\ us' = us ++ [u]
    /\ UserDoc.password_hash u = Some (hash_password (RegisterBody.password body))
    /\ AuthView.token view = ObjectId.to_str inserted_id
    /\ login (LoginBody.mk (RegisterBody.email body) pw) us'
       = (us',
          if String.eqb (hash_password pw)
               (hash_password (RegisterBody.password body))
          then inr view
          else inl (Py.HTTPException 401 "Invalid credentials")).
Proof.
  intros Hnew. unfold register. rewrite Hnew.
  eexists. eexists. eexists. split; [reflexivity|]. split; [reflexivity|].
  split; [reflexivity|]. split; [reflexivity|].
  unfold login. cbn [LoginBody.email LoginBody.password].
  rewrite find_user_app, Hnew. cbn [UserDoc.email]. rewrite String.eqb_refl.
  cbn [UserDoc.password_hash hash_differs UserDoc._id UserDoc.name].
  rewrite (String.eqb_sym (hash_password (RegisterBody.password body))).
  destruct (String.eqb (hash_password pw)
              (hash_password (RegisterBody.password body))); reflexivity.
Qed.

Lemma register_then_login_witness :
  exists us' view,
    register 1700000000 1700000001 "0000000000000000000000b3"
      (RegisterBody.mk "Bob" "bob@example.com" "s3cret" None) users0
    = (us', inr view)
    /\ login (LoginBody.mk "bob@example.com" "s3cret") us' = (us', inr view)
    /\ login (LoginBody.mk "bob@example.com" "S3cret") us'
       = (us', inl (Py.HTTPException 401 "Invalid credentials")).
Proof.
  destruct (register_then_login 1700000000 1700000001
              "0000000000000000000000b3"
              (RegisterBody.mk "Bob" "bob@example.com" "s3cret" None) users0
              "s3cret")
    as (us' & u & view & Hreg & Hus & _ & _ & Hlogin); [reflexivity|].
  exists us', view. split; [exact Hreg|].
  split; [etransitivity; [exact Hlogin|]; vm_compute; reflexivity|].
  vm_compute in Hreg. injection Hreg as <- _. vm_compute. reflexivity.
Defined.

(** X24.  Emails stay unique: [register] refuses an email that is already
    stored with "Email already registered" and writes nothing then, so a user
    collection with pairwise distinct emails keeps pairwise distinct emails
    whatever is registered. *)
Theorem register_keeps_emails_unique
  (now_created now_updated : Z) (inserted_id : ObjectId.t)
  (body : RegisterBody.t) (us : list UserDoc.t) :
  NoDup (map UserDoc.email us) ->
  NoDup (map UserDoc.email
           (fst (register now_created now_updated inserted_id body us)))
  /\ (In (RegisterBody.email body) (map UserDoc.email us) ->
      register now_created now_updated inserted_id body us
      = (us, inl (Py.HTTPException 400 "Email already registered"))).
Proof.
  intros Hnd. unfold register.
  destruct (find_user us (RegisterBody.email body)) as [u|] eqn:Hfind; cbn [fst].
  - split; [exact Hnd|reflexivity].
  - pose proof (find_user_None us _ Hfind) as Hnot. split; [|tauto].
    rewrite map_app. cbn [map UserDoc.email].
    apply NoDup_app; [exact Hnd|repeat constructor; tauto|].
    intros x Hx [<-|[]]. contradiction.
Qed.

Lemma register_keeps_emails_unique_witness :
  register 1700000000 1700000001 "0000000000000000000000b3"
    (RegisterBody.mk "Ann again" "ann@example.com" "other" None) users0
  = (users0, inl (Py.HTTPException 400 "Email already registered")).
Proof.
  destruct (register_keeps_emails_unique 1700000000 1700000001
              "0000000000000000000000b3"
              (RegisterBody.mk "Ann again" "ann@example.com" "other" None)
              users0) as [_ H].
  - cbn. repeat constructor; cbn; intuition discriminate.
  - apply H. left. reflexivity.
Defined.



(** ** Products *)

Lemma of_str_length (s : string) (id : ObjectId.t) :
  ObjectId.of_str s = Some id -> Py.len s = 24%nat.
Proof.
  unfold ObjectId.of_str.
  destruct (Py.len s =? 24)%nat eqn:Hlen; [|discriminate].
  intros _. now apply Nat.eqb_eq.
Qed.

Lemma find_by_id_or_slug_app (docs : list ProductDoc.t) (p : ProductDoc.t)
  (id : ObjectId.t) (pid : string) :
  (forall q, In q docs -> ProductDoc._id q <> id /\ ProductDoc.slug q <> pid) ->
  find_by_id_or_slug (docs ++ [p]) id pid
  = if ObjectId.eqb (ProductDoc._id p) id || String.eqb (ProductDoc.slug p) pid
    then Some p else None.
Proof.
  induction docs as [|q docs IH]; cbn [app find_by_id_or_slug]; [reflexivity|].
  intros H. destruct (H q (or_introl eq_refl)) as [Hid Hslug].
  apply String.eqb_neq in Hid, Hslug. unfold ObjectId.eqb at 1.
  rewrite Hid, Hslug. cbn [orb]. apply IH. intros q' Hq'. apply H. now right.
Qed.

Lemma find_product_catalogue_app (docs : list ProductDoc.t) (p : ProductDoc.t)
  (id : ObjectId.t) :
  (forall q, In q docs -> ProductDoc._id q <> id) ->
  Db.find_product (catalogue_of (docs ++ [p])) id
  = if ObjectId.eqb (ProductDoc._id p) id then Some (product_of p) else None.
Proof.
  unfold catalogue_of.
  induction docs as [|q docs IH]; cbn [app map Db.find_product]; [reflexivity|].
  intros H. pose proof (H q (or_introl eq_refl)) as Hid.
  apply String.eqb_neq in Hid. unfold ObjectId.eqb at 1. rewrite Hid.
  apply IH. intros q' Hq'. apply H. now right.
Qed.

Lemma admin_key_ok_refl (ADMIN_KEY : string) :
  admin_key_ok ADMIN_KEY (Some ADMIN_KEY) = true.
Proof.
  apply String.eqb_refl.
Qed.

(** X26.  A product can be fetched once created: with the admin key, under
    a genuine identifier that no stored product has as identifier or as slug,
    [admin_create_product] answers the identifier and [get_product] on it
    returns the document just stored, which is the body with rating 0.0,
    rating count 0 and the two clock readings. *)
Theorem product_created_then_fetched
  (ADMIN_KEY : string) (now_created now_updated : Z) (id : ObjectId.t)
  (body : ProductBody.t) (docs : list ProductDoc.t) :
  ObjectId.of_str id = Some id ->
  (forall q, In q docs -> ProductDoc._id q <> id /\ ProductDoc.slug q <> id) ->
  exists docs',
    admin_create_product ADMIN_KEY now_created now_updated id body
      (Some ADMIN_KEY) docs
    = (docs', inr (ObjectId.to_str id))
    /\ get_product (ObjectId.to_str id) docs'
       = (docs', inr (product_doc now_created now_updated id body)).
Proof.
  intros Hid Hfresh. unfold admin_create_product.
  rewrite admin_key_ok_refl. eexists. split; [reflexivity|].
  unfold get_product, ObjectId.to_str.
  rewrite (of_str_length id id Hid), Hid. cbn [Nat.eqb].
  replace (24 =? 24)%nat with true by reflexivity.
  rewrite (find_by_id_or_slug_app docs _ id id Hfresh).
  cbn [ProductDoc._id product_doc]. unfold ObjectId.eqb.
  rewrite String.eqb_refl. reflexivity.
Qed.

Lemma product_created_then_fetched_witness :
  exists docs',
    admin_create_product "demo-admin-key" 1700000000 1700000001
      "0000000000000000000000c2" kettle (Some "demo-admin-key") products0
    = (docs', inr "0000000000000000000000c2")
    /\ option_map ProductDoc.title
         (match snd (get_product "0000000000000000000000C2" docs') with
          | inr p => Some p | inl _ => None end)
       = Some "Kettle".
Proof.
  destruct (product_created_then_fetched "demo-admin-key" 1700000000 1700000001
              "0000000000000000000000c2" kettle products0)
    as (docs' & Hadd & Hget).
  - reflexivity.
  - intros q [<-|[]]. split; discriminate.
  - exists docs'. split; [exact Hadd|].
    vm_compute in Hadd. injection Hadd as <-. vm_compute. reflexivity.
Defined.

(** X27.  A product cannot be fetched by a slug of 24 characters that
    [bytes.fromhex] refuses (a slug with a letter after f, say, or with an
    accent): [get_product] takes every 24-character argument for an
    identifier and answers "Invalid ID", whatever is stored under that
    slug. *)
Theorem slug_of_24_characters_is_unreachable
  (pid : string) (docs : list ProductDoc.t) :
  Py.len pid = 24%nat ->
  ObjectId.of_str pid = None ->
  get_product pid docs = (docs, inl (Py.HTTPException 400 "Invalid ID")).
Proof.
  intros Hlen Hbad. unfold get_product. now rewrite Hlen, Hbad.
Qed.

Lemma slug_of_24_characters_is_unreachable_witness :
  let docs :=
    [ProductDoc.mk "0000000000000000000000c3" "Gadget" "premium-gadget-number-12"
       None (Py.Int 6199) None "INR" "electronics" None 50 [] [] false []
       4.5 132 1699990000 1699990000;
     ProductDoc.mk "0000000000000000000000c4" "Kit" "crème-brûlée-dessert-kit"
       None (Py.Int 899) None "INR" "home" None 5 [] [] false []
       4.0 3 1699990000 1699990000] in
  get_product "premium-gadget-number-12" docs
  = (docs, inl (Py.HTTPException 400 "Invalid ID"))
  /\ get_product "crème-brûlée-dessert-kit" docs
     = (docs, inl (Py.HTTPException 400 "Invalid ID"))
  /\ option_map ProductDoc.title (find_by_slug docs "premium-gadget-number-12")
     = Some "Gadget".
Proof.
  intros docs. split; [|split; [|reflexivity]].
  - apply (slug_of_24_characters_is_unreachable "premium-gadget-number-12" docs);
      reflexivity.
  - apply (slug_of_24_characters_is_unreachable "crème-brûlée-dessert-kit" docs);
      reflexivity.
Defined.

(** A slug of 24 characters that [bytes.fromhex] accepts is reachable: the
    spaces are skipped, the argument is an identifier of eight bytes, and the
    product is found by its slug. *)
Lemma slug_with_spaces_is_reachable :
  let docs :=
    [ProductDoc.mk "0000000000000000000000c5" "Spaced" "ab cd ef ab cd ef ab cd "
       None (Py.Int 10) None "INR" "home" None 1 [] [] false []
       4.0 1 1699990000 1699990000] in
  ObjectId.of_str "ab cd ef ab cd ef ab cd " = Some "abcdefabcdefabcd"
  /\ option_map ProductDoc.title
       (match snd (get_product "ab cd ef ab cd ef ab cd " docs) with
        | inr p => Some p | inl _ => None end)
     = Some "Spaced".
Proof.
  split; vm_compute; reflexivity.
Qed.

(** The unit price of a product created through the admin end point. *)
Lemma unit_price_of_body (now_created now_updated : Z) (id : ObjectId.t)
  (body : ProductBody.t) :
  unit_price (product_of (product_doc now_created now_updated id body))
  = inr (match ProductBody.sale_price body with
         | Some s => if PrimFloat.eqb s 0 then ProductBody.price body else s
         | None => ProductBody.price body
         end).
Proof.
  unfold unit_price, product_of, product_doc.
  cbn [Product.sale_price Product.price ProductDoc.sale_price ProductDoc.price].
  destruct (ProductBody.sale_price body) as [s|]; cbn [option_map Py.or_];
    [|reflexivity].
  cbn [Py.truthy]. destruct (PrimFloat.eqb s 0); reflexivity.
Qed.

(** X28.  A product created through the admin end point can be ordered at
    once: a checkout of [q] units of it, without coupon, stores one line
    carrying the typed identifier, the title, the url of the first image if
    it has one, and as unit price the sale price when there is one and it is
    not zero, the list price otherwise; the amount is that price times [q],
    rounded. *)
Theorem created_product_is_ordered_at_its_price
  (ADMIN_KEY : string) (now_created now_updated : Z) (id : ObjectId.t)
  (pbody : ProductBody.t) (docs : list ProductDoc.t)
  (env : Env.t) (body : CheckoutBody.t) (d : Db.t) (q : Z) (qf : float) :
  ObjectId.of_str id = Some id ->
  (forall p, In p docs -> ProductDoc._id p <> id) ->
  Db.product d
  = catalogue_of
      (fst (admin_create_product ADMIN_KEY now_created now_updated id pbody
              (Some ADMIN_KEY) docs)) ->
  CheckoutBody.items body = [CartItem.mk id q] ->
  CheckoutBody.coupon body = None ->
  Py.int_to_float q = inr qf ->
  let unit :=
    match ProductBody.sale_price pbody with
    | Some s => if PrimFloat.eqb s 0 then ProductBody.price pbody else s
    | None => ProductBody.price pbody
    end in
  exists o,
    create_order env body d
    = (Db.insert_order d (Env.inserted_id env) o, inr (response_of env o))
    /\ Order.items o
       = [OrderItem.mk id (ProductBody.title pbody) unit q
            (match ProductBody.images pbody with
             | [] => None
             | i :: _ => dict_get i "url"
             end)]
    /\ Order.amount o = Py.round2 (0 + unit * qf).
Proof.
  intros Hid Hfresh Hd Hitems Hnone Hq unit.
  unfold admin_create_product in Hd. rewrite admin_key_ok_refl in Hd.
  cbn [fst] in Hd.
  assert (Hres : resolved d (CheckoutBody.items body)
                   [OrderItem.mk id (ProductBody.title pbody) unit q
                      (match ProductBody.images pbody with
                       | [] => None
                       | i :: _ => dict_get i "url"
                       end)]).
  { rewrite Hitems. constructor; [|constructor].
    unfold resolve. cbn [CartItem.product_id CartItem.quantity].
    rewrite Hid, Hd, (find_product_catalogue_app docs _ id Hfresh).
    cbn [ProductDoc._id product_doc]. unfold ObjectId.eqb.
    rewrite String.eqb_refl, unit_price_of_body, Hq.
    unfold product_of, product_doc.
    cbn [Product.title Product.images ProductDoc.title ProductDoc.images].
    destruct (ProductBody.images pbody); reflexivity. }
  eexists. split; [exact (create_order_ok env body d _ Hres)|].
  split; [reflexivity|]. rewrite Hnone.
  cbn [Order.amount order_of coupon_rule fst]. unfold subtotal, sum_from.
  cbn [fold_left]. unfold line_total. cbn [OrderItem.price OrderItem.quantity].
  unfold Py.int_to_float in Hq.
  destruct (PrimFloat.is_infinity (Py.nearest_float q)); [discriminate|].
  now injection Hq as ->.
Qed.

Lemma created_product_is_ordered_at_its_price_witness :
  let docs' :=
    fst (admin_create_product "demo-admin-key" 1700000000 1700000001
           "0000000000000000000000c2" kettle (Some "demo-admin-key") products0) in
  let d := Db.mk (catalogue_of docs') [] [] in
  exists o,
    create_order Fixture.env
      (Fixture.body [CartItem.mk "0000000000000000000000c2" 3] None) d
    = (Db.insert_order d (Env.inserted_id Fixture.env) o,
       inr (response_of Fixture.env o))
    /\ Order.items o
       = [OrderItem.mk "0000000000000000000000c2" "Kettle" 25 3 None]
    /\ Order.amount o = 75%float.
Proof.
  intros docs' d.
  destruct (created_product_is_ordered_at_its_price "demo-admin-key"
              1700000000 1700000001 "0000000000000000000000c2" kettle products0
              Fixture.env
              (Fixture.body [CartItem.mk "0000000000000000000000c2" 3] None)
              d 3 3%float)
    as (o & Hrun & Hitems & Hamount).
  - reflexivity.
  - intros p [<-|[]]. discriminate.
  - reflexivity.
  - reflexivity.
  - reflexivity.
  - vm_compute. reflexivity.
  - exists o. split; [exact Hrun|]. rewrite Hitems, Hamount.
    split; vm_compute; reflexivity.
Defined.

Lemma find_product_catalogue_delete (docs : list ProductDoc.t)
  (id id' : ObjectId.t) :
  NoDup (map ProductDoc._id docs) ->
  Db.find_product (catalogue_of (delete_product docs id)) id'
  = if ObjectId.eqb id id' then None
    else Db.find_product (catalogue_of docs) id'.
Proof.
  unfold catalogue_of, ObjectId.eqb.
  induction docs as [|p docs IH]; cbn [map delete_product Db.find_product].
  - intros _. now destruct (String.eqb id id').
  - intros Hnd. inversion Hnd as [|? ? Hnot Hrest]; subst.
    unfold ObjectId.eqb.
    destruct (String.eqb (ProductDoc._id p) id) eqn:Hp.
    + apply String.eqb_eq in Hp. subst id.
      destruct (String.eqb (ProductDoc._id p) id') eqn:Hp'; [|reflexivity].
      apply String.eqb_eq in Hp'. subst id'.
      clear IH Hnd Hrest. induction docs as [|q docs IH]; [reflexivity|].
      cbn [map Db.find_product]. unfold ObjectId.eqb.
      destruct (String.eqb (ProductDoc._id q) (ProductDoc._id p)) eqn:Hq.
      * apply String.eqb_eq in Hq. exfalso. apply Hnot. left. exact Hq.
      * apply IH. intros Hin. apply Hnot. now right.
    + cbn [map Db.find_product]. unfold ObjectId.eqb.
      destruct (String.eqb (ProductDoc._id p) id') eqn:Hp'.
      * apply String.eqb_eq in Hp'. subst id'.
        rewrite String.eqb_sym in Hp. now rewrite Hp.
      * now apply IH.
Qed.

(** X29.  A deleted product can no longer be ordered, and the others still
    can: with the admin key, on a collection with pairwise distinct
    identifiers, after [admin_delete_product] of an identifier the catalogue
    has no product under it, has under every other identifier what it had,
    and a checkout whose first item is the deleted product raises
    ProductNotFound and stores nothing. *)
Theorem deleted_product_cannot_be_ordered
  (ADMIN_KEY : string) (pid : string) (id : ObjectId.t)
  (docs : list ProductDoc.t)
  (env : Env.t) (body : CheckoutBody.t) (d : Db.t)
  (it : CartItem.t) (rest : list CartItem.t) :
  ObjectId.of_str pid = Some id ->
  NoDup (map ProductDoc._id docs) ->
  Db.product d
  = catalogue_of (fst (admin_delete_product ADMIN_KEY pid (Some ADMIN_KEY) docs)) ->
  CheckoutBody.items body = it :: rest ->
  ObjectId.of_str (CartItem.product_id it) = Some id ->
  admin_delete_product ADMIN_KEY pid (Some ADMIN_KEY) docs
  = (delete_product docs id, inr true)
  /\ (forall id', Db.find_product (Db.product d) id'
                  = if ObjectId.eqb id id' then None
                    else Db.find_product (catalogue_of docs) id')
  /\ create_order env body d = (d, inl ProductNotFound).
Proof.
  intros Hpid Hnd Hd Hitems Hit.
  unfold admin_delete_product in *. rewrite admin_key_ok_refl, Hpid in *.
  cbn [fst] in Hd. split; [reflexivity|].
  assert (Hfind : forall id', Db.find_product (Db.product d) id'
                  = if ObjectId.eqb id id' then None
                    else Db.find_product (catalogue_of docs) id').
  { intros id'. rewrite Hd. now apply find_product_catalogue_delete. }
  split; [exact Hfind|].
  assert (Habs : lookup_absent d it).
  { exists id. split; [exact Hit|].
    rewrite Hfind. unfold ObjectId.eqb. now rewrite String.eqb_refl. }
  unfold create_order, bind. rewrite Hitems.
  now rewrite (price_items_fail d [] [] it rest ProductNotFound
                 (Forall2_nil _) (lookup_absent_resolve d it Habs)).
Qed.

Lemma deleted_product_cannot_be_ordered_witness :
  let d :=
    Db.mk (catalogue_of
             (fst (admin_delete_product "demo-admin-key"
                     "0000000000000000000000C1" (Some "demo-admin-key")
                     products0))) [] [] in
  create_order Fixture.env
    (Fixture.body [CartItem.mk "0000000000000000000000c1" 1] None) d
  = (d, inl ProductNotFound).
Proof.
  intros d.
  apply (deleted_product_cannot_be_ordered "demo-admin-key"
           "0000000000000000000000C1" "0000000000000000000000c1" products0
           Fixture.env
           (Fixture.body [CartItem.mk "0000000000000000000000c1" 1] None) d
           (CartItem.mk "0000000000000000000000c1" 1) []).
  - reflexivity.
  - cbn. constructor; [intros []|constructor].
  - reflexivity.
  - reflexivity.
  - reflexivity.
Defined.

(** X30.  Without the exact admin key, be the header absent or different,
    the admin end points write nothing: creating a product, deleting one
    (even under a malformed identifier) and adding a coupon all raise 401
    "Unauthorized" and leave their collection as it was. *)
Theorem admin_end_points_need_the_key
  (ADMIN_KEY : string) (x_admin_key : option string)
  (now_created now_updated : Z) (id : ObjectId.t) (pid : string)
  (pbody : ProductBody.t) (cbody : CouponBody.t)
  (docs : list ProductDoc.t) (coupons : list CouponDoc.t) :
  x_admin_key <> Some ADMIN_KEY ->
  admin_create_product ADMIN_KEY now_created now_updated id pbody x_admin_key docs
  = (docs, inl Unauthorized)
  /\ admin_delete_product ADMIN_KEY pid x_admin_key docs
     = (docs, inl Unauthorized)
  /\ admin_add_coupon ADMIN_KEY now_created id cbody x_admin_key coupons
     = (coupons, inl Unauthorized).
Proof.
  intros Hkey.
  assert (Hno : admin_key_ok ADMIN_KEY x_admin_key = false).
  { unfold admin_key_ok. destruct x_admin_key as [k|]; [|reflexivity].
    apply String.eqb_neq. congruence. }
  unfold admin_create_product, admin_delete_product, admin_add_coupon.
  rewrite Hno. repeat split.
Qed.

Lemma admin_end_points_need_the_key_witness :
  admin_delete_product "demo-admin-key" "0000000000000000000000c1"
    (Some "Demo-Admin-Key") products0
  = (products0, inl Unauthorized)
  /\ admin_add_coupon "demo-admin-key" 1700000000 "0000000000000000000000f1"
       (CouponBody.mk "FREE" "percent" 100 0 true) None []
     = ([], inl Unauthorized).
Proof.
  split.
  - apply (admin_end_points_need_the_key "demo-admin-key"
             (Some "Demo-Admin-Key") 0 0 "0000000000000000000000c2"
             "0000000000000000000000c1" kettle
             (CouponBody.mk "FREE" "percent" 100 0 true) products0 []).
    discriminate.
  - apply (admin_end_points_need_the_key "demo-admin-key" None 1700000000
             1700000000 "0000000000000000000000f1" "0000000000000000000000c1"
             kettle (CouponBody.mk "FREE" "percent" 100 0 true) products0 []).
    discriminate.
Defined.

(** A code beyond ASCII: "straße" designates the coupon stored under
    "STRASSE", and a coupon stored under "é10", which is not upper-case, is
    found by no spelling. *)
Lemma scenario_codes_beyond_ascii :
  let d :=
    Db.mk (Db.product Fixture.db)
      [Coupon.mk "STRASSE" "flat" 20 None true None;
       Coupon.mk "é10" "flat" 20 None true None] [] in
  (let '(d', r) :=
     create_order Fixture.env (Fixture.body Fixture.cart (Some "straße")) d in
   option_map amount (match r with inr resp => Some resp | inl _ => None end)
   = Some 110%float
   /\ map (fun o => Order.coupon (snd o)) (Db.order d') = [Some "STRASSE"])
  /\ (let '(d', r) :=
        create_order Fixture.env (Fixture.body Fixture.cart (Some "é10")) d in
      option_map amount (match r with inr resp => Some resp | inl _ => None end)
      = Some 130%float
      /\ map (fun o => Order.coupon (snd o)) (Db.order d') = [None]).
Proof.
  vm_compute. split; split; reflexivity.
Qed.
